(** * ReadyTraderGo auto-trader: a shallow embedding of [autotrader.py]

    The session object of [class AutoTrader] becomes the record
    [AutoTrader]; every callback becomes a function from the session and
    the message to an [Outcome]: how the call ended (returned, or raised
    an exception), the session as the call left it, and the commands it
    handed to the exchange, in order.

    Numbers.  Python [int] is [Z]: [//] is [Z.div] (both round towards
    minus infinity) except that Python raises [ZeroDivisionError] on a
    zero divisor, which is written out.  Python [float] is read as an
    exact rational ([Q]): [/] is rational division and raises on a zero
    divisor as Python's does, [x // y] is the floor of the quotient.
    Rounding of binary floating point is not part of this model: a float
    of the program can differ from the rational here in its last bits
    (and a target, through the floor of lines 185-186, by one tick), a
    quotient can round onto a bound that the rational stays inside of, and
    a positive float can underflow to 0.

    What the module imports and does not define itself (the constants of
    [ready_trader_go], [scipy.stats.linregress], [statistics.stdev]) is
    gathered in the record [Imports] and taken as a section variable. *)

From Stdlib Require Import ZArith QArith Qround Qabs Lia Lqa List Bool Sorted.
From stdpp Require Import base decidable gmap sets list.

Local Open Scope Z_scope.

(** ** Exceptions *)

Inductive Fault : Set :=
| ZeroDivisionError
| IndexError
| UnicodeDecodeError.

Inductive Res (A : Type) : Type :=
| Ok (a : A)
| Raise (f : Fault).

Arguments Ok {A} a.
Arguments Raise {A} f.

Definition bind {A B : Type} (m : Res A) (k : A -> Res B) : Res B :=
  match m with
  | Ok a => k a
  | Raise f => Raise f
  end.

Notation "'let!' x ':=' m 'in' k" := (bind m (fun x => k))
  (at level 10, x name, m at level 100, k at level 200).

(** ** Python built-ins used by the module *)

(** [l[i]], negative [i] counting from the end. *)
Definition py_index (l : list Z) (i : Z) : Res Z :=
  let n := Z.of_nat (length l) in
  let j := if i <? 0 then i + n else i in
  if (j <? 0) || (n <=? j) then Raise IndexError
  else match nth_error l (Z.to_nat j) with
       | Some x => Ok x
       | None => Raise IndexError
       end.

(** [l[a:b]] for [0 <= a <= b]. *)
Definition py_slice (l : list Z) (a b : nat) : list Z :=
  firstn (b - a) (skipn a l).

(** [l[-k:]] for [k > 0]. *)
Definition py_last (k : nat) (l : list Z) : list Z :=
  skipn (length l - k) l.

(** [sum(l)]. *)
Definition py_sum (l : list Z) : Z := fold_left Z.add l 0.

(** [a // b] on integers. *)
Definition int_floordiv (a b : Z) : Res Z :=
  if b =? 0 then Raise ZeroDivisionError else Ok (a / b).

(** [a / b] on floats (and on integers, which yields a float). *)
Definition true_div (a b : Q) : Res Q :=
  if Qeq_bool b 0 then Raise ZeroDivisionError else Ok (a / b)%Q.

(** [a // b] on floats. *)
Definition float_floordiv (a b : Q) : Res Q :=
  if Qeq_bool b 0 then Raise ZeroDivisionError
  else Ok (inject_Z (Qfloor (a / b)%Q)).

(** [int(x)]: truncation towards zero. *)
Definition py_int (x : Q) : Z := Z.quot (Qnum x) (Zpos (Qden x)).

Definition Qlt_bool (a b : Q) : bool := negb (Qle_bool b a).

(** [b.decode()]: the code points of a byte string read as UTF-8, with
    the default error handling ([strict]).  A byte that cannot start a
    character, a missing or wrong continuation byte, an overlong form, a
    surrogate and a code point above 0x10FFFF all raise
    [UnicodeDecodeError]. *)
Definition byte_value (b : Byte.byte) : Z := Z.of_N (Byte.to_N b).

Definition between (lo hi x : Z) : bool := (lo <=? x) && (x <=? hi).

Definition continuation (c : Z) : bool := between 128 191 c.

(** The second byte of a three-byte form. *)
Definition second_of_three (c0 c1 : Z) : bool :=
  if c0 =? 224 then between 160 191 c1
  else if c0 =? 237 then between 128 159 c1
  else continuation c1.

(** The second byte of a four-byte form. *)
Definition second_of_four (c0 c1 : Z) : bool :=
  if c0 =? 240 then between 144 191 c1
  else if c0 =? 244 then between 128 143 c1
  else continuation c1.

Fixpoint py_decode (bs : list Byte.byte) : Res (list Z) :=
  match bs with
  | [] => Ok []
  | b0 :: r0 =>
    let c0 := byte_value b0 in
    if c0 <? 128 then
      let! t := py_decode r0 in Ok (c0 :: t)
    else
      match r0 with
      | [] => Raise UnicodeDecodeError
      | b1 :: r1 =>
        let c1 := byte_value b1 in
        if between 194 223 c0 then
          if continuation c1 then
            let! t := py_decode r1 in
            Ok ((c0 - 192) * 64 + (c1 - 128) :: t)
          else Raise UnicodeDecodeError
        else
          match r1 with
          | [] => Raise UnicodeDecodeError
          | b2 :: r2 =>
            let c2 := byte_value b2 in
            if between 224 239 c0 then
              if second_of_three c0 c1 && continuation c2 then
                let! t := py_decode r2 in
                Ok ((c0 - 224) * 4096 + (c1 - 128) * 64 + (c2 - 128) :: t)
              else Raise UnicodeDecodeError
            else
              match r2 with
              | [] => Raise UnicodeDecodeError
              | b3 :: r3 =>
                let c3 := byte_value b3 in
                if between 240 244 c0 && second_of_four c0 c1
                   && continuation c2 && continuation c3 then
                  let! t := py_decode r3 in
                  Ok ((c0 - 240) * 262144 + (c1 - 128) * 4096
                      + (c2 - 128) * 64 + (c3 - 128) :: t)
                else Raise UnicodeDecodeError
              end
          end
      end
  end.

(** [for i in range(lo, hi): acc = body(i, acc)]. *)
Fixpoint for_loop {A : Type} (n : nat) (i : Z) (body : Z -> A -> Res A) (acc : A)
  : Res A :=
  match n with
  | O => Ok acc
  | S n' => let! acc' := body i acc in for_loop n' (i + 1) body acc'
  end.

Definition for_range {A : Type} (lo hi : Z) (body : Z -> A -> Res A) (acc : A)
  : Res A :=
  for_loop (Z.to_nat (hi - lo)) lo body acc.

(** ** Constants of the module *)

Definition LOT_SIZE : Z := 10.
Definition POSITION_LIMIT : Z := 93.
Definition TICK_SIZE_IN_CENTS : Z := 100.

(** ** Messages to the exchange *)

Inductive Side : Set := SELL | BUY.
Definition ASK : Side := SELL.
Definition BID : Side := BUY.

Inductive Lifespan : Set := FILL_AND_KILL | GOOD_FOR_DAY.

Inductive Command : Set :=
| send_cancel_order (client_order_id : Z)
| send_insert_order (client_order_id : Z) (side : Side) (price volume : Z)
                    (lifespan : Lifespan)
| send_hedge_order (client_order_id : Z) (side : Side) (price volume : Z).

(** ** What the module imports *)

Record LinregressResult : Type := {
  slope : Q;
  intercept : Q;
  rvalue : Q;
  pvalue : Q;
  stderr : Q
}.

Record Imports : Type := {
  FUTURE : Z;                 (* Instrument.FUTURE *)
  MAXIMUM_ASK : Z;
  MINIMUM_BID : Z;
  linregress : list Z -> list Z -> LinregressResult;  (* scipy.stats *)
  stdev : list Z -> Q                                 (* statistics *)
}.

(** ** The session *)

Record AutoTrader : Type := {
  order_ids : Z;              (* the value [next(self.order_ids)] yields *)
  bids : gset Z;
  asks : gset Z;
  ask_id : Z;
  ask_price : Z;
  bid_id : Z;
  bid_price : Z;
  position : Z;
  history_vbid : list Z;
  history_vask : list Z;
  history_mid : list Z;
  gain : Q;
  loss : Q;
  bid_ordered : Z;
  ask_ordered : Z
}.

(** [__init__] *)
Definition init : AutoTrader := {|
  order_ids := 1;
  bids := ∅;
  asks := ∅;
  ask_id := 0; ask_price := 0; bid_id := 0; bid_price := 0; position := 0;
  history_vbid := [];
  history_vask := [];
  history_mid := [];
  gain := (-1)%Q;
  loss := (-1)%Q;
  bid_ordered := 0;
  ask_ordered := 0
|}.

(** Attribute assignment, [self.f = v]. *)

Definition set_order_ids (v : Z) (self : AutoTrader) : AutoTrader :=
  {| order_ids := v; bids := bids self; asks := asks self;
     ask_id := ask_id self; ask_price := ask_price self;
     bid_id := bid_id self; bid_price := bid_price self;
     position := position self; history_vbid := history_vbid self;
     history_vask := history_vask self; history_mid := history_mid self;
     gain := gain self; loss := loss self;
     bid_ordered := bid_ordered self; ask_ordered := ask_ordered self |}.

Definition set_bids (v : gset Z) (self : AutoTrader) : AutoTrader :=
  {| order_ids := order_ids self; bids := v; asks := asks self;
     ask_id := ask_id self; ask_price := ask_price self;
     bid_id := bid_id self; bid_price := bid_price self;
     position := position self; history_vbid := history_vbid self;
     history_vask := history_vask self; history_mid := history_mid self;
     gain := gain self; loss := loss self;
     bid_ordered := bid_ordered self; ask_ordered := ask_ordered self |}.

Definition set_asks (v : gset Z) (self : AutoTrader) : AutoTrader :=
  {| order_ids := order_ids self; bids := bids self; asks := v;
     ask_id := ask_id self; ask_price := ask_price self;
     bid_id := bid_id self; bid_price := bid_price self;
     position := position self; history_vbid := history_vbid self;
     history_vask := history_vask self; history_mid := history_mid self;
     gain := gain self; loss := loss self;
     bid_ordered := bid_ordered self; ask_ordered := ask_ordered self |}.

Definition set_ask_id (v : Z) (self : AutoTrader) : AutoTrader :=
  {| order_ids := order_ids self; bids := bids self; asks := asks self;
     ask_id := v; ask_price := ask_price self; bid_id := bid_id self;
     bid_price := bid_price self; position := position self;
     history_vbid := history_vbid self; history_vask := history_vask self;
     history_mid := history_mid self; gain := gain self;
     loss := loss self; bid_ordered := bid_ordered self;
     ask_ordered := ask_ordered self |}.

Definition set_ask_price (v : Z) (self : AutoTrader) : AutoTrader :=
  {| order_ids := order_ids self; bids := bids self; asks := asks self;
     ask_id := ask_id self; ask_price := v; bid_id := bid_id self;
     bid_price := bid_price self; position := position self;
     history_vbid := history_vbid self; history_vask := history_vask self;
     history_mid := history_mid self; gain := gain self;
     loss := loss self; bid_ordered := bid_ordered self;
     ask_ordered := ask_ordered self |}.

Definition set_bid_id (v : Z) (self : AutoTrader) : AutoTrader :=
  {| order_ids := order_ids self; bids := bids self; asks := asks self;
     ask_id := ask_id self; ask_price := ask_price self; bid_id := v;
     bid_price := bid_price self; position := position self;
     history_vbid := history_vbid self; history_vask := history_vask self;
     history_mid := history_mid self; gain := gain self;
     loss := loss self; bid_ordered := bid_ordered self;
     ask_ordered := ask_ordered self |}.

Definition set_bid_price (v : Z) (self : AutoTrader) : AutoTrader :=
  {| order_ids := order_ids self; bids := bids self; asks := asks self;
     ask_id := ask_id self; ask_price := ask_price self;
     bid_id := bid_id self; bid_price := v; position := position self;
     history_vbid := history_vbid self; history_vask := history_vask self;
     history_mid := history_mid self; gain := gain self;
     loss := loss self; bid_ordered := bid_ordered self;
     ask_ordered := ask_ordered self |}.

Definition set_position (v : Z) (self : AutoTrader) : AutoTrader :=
  {| order_ids := order_ids self; bids := bids self; asks := asks self;
     ask_id := ask_id self; ask_price := ask_price self;
     bid_id := bid_id self; bid_price := bid_price self; position := v;
     history_vbid := history_vbid self; history_vask := history_vask self;
     history_mid := history_mid self; gain := gain self;
     loss := loss self; bid_ordered := bid_ordered self;
     ask_ordered := ask_ordered self |}.

Definition set_history_vbid (v : list Z) (self : AutoTrader) : AutoTrader :=
  {| order_ids := order_ids self; bids := bids self; asks := asks self;
     ask_id := ask_id self; ask_price := ask_price self;
     bid_id := bid_id self; bid_price := bid_price self;
     position := position self; history_vbid := v;
     history_vask := history_vask self; history_mid := history_mid self;
     gain := gain self; loss := loss self;
     bid_ordered := bid_ordered self; ask_ordered := ask_ordered self |}.

Definition set_history_vask (v : list Z) (self : AutoTrader) : AutoTrader :=
  {| order_ids := order_ids self; bids := bids self; asks := asks self;
     ask_id := ask_id self; ask_price := ask_price self;
     bid_id := bid_id self; bid_price := bid_price self;
     position := position self; history_vbid := history_vbid self;
     history_vask := v; history_mid := history_mid self;
     gain := gain self; loss := loss self;
     bid_ordered := bid_ordered self; ask_ordered := ask_ordered self |}.

Definition set_history_mid (v : list Z) (self : AutoTrader) : AutoTrader :=
  {| order_ids := order_ids self; bids := bids self; asks := asks self;
     ask_id := ask_id self; ask_price := ask_price self;
     bid_id := bid_id self; bid_price := bid_price self;
     position := position self; history_vbid := history_vbid self;
     history_vask := history_vask self; history_mid := v;
     gain := gain self; loss := loss self;
     bid_ordered := bid_ordered self; ask_ordered := ask_ordered self |}.

Definition set_gain (v : Q) (self : AutoTrader) : AutoTrader :=
  {| order_ids := order_ids self; bids := bids self; asks := asks self;
     ask_id := ask_id self; ask_price := ask_price self;
     bid_id := bid_id self; bid_price := bid_price self;
     position := position self; history_vbid := history_vbid self;
     history_vask := history_vask self; history_mid := history_mid self;
     gain := v; loss := loss self; bid_ordered := bid_ordered self;
     ask_ordered := ask_ordered self |}.

Definition set_loss (v : Q) (self : AutoTrader) : AutoTrader :=
  {| order_ids := order_ids self; bids := bids self; asks := asks self;
     ask_id := ask_id self; ask_price := ask_price self;
     bid_id := bid_id self; bid_price := bid_price self;
     position := position self; history_vbid := history_vbid self;
     history_vask := history_vask self; history_mid := history_mid self;
     gain := gain self; loss := v; bid_ordered := bid_ordered self;
     ask_ordered := ask_ordered self |}.

Definition set_bid_ordered (v : Z) (self : AutoTrader) : AutoTrader :=
  {| order_ids := order_ids self; bids := bids self; asks := asks self;
     ask_id := ask_id self; ask_price := ask_price self;
     bid_id := bid_id self; bid_price := bid_price self;
     position := position self; history_vbid := history_vbid self;
     history_vask := history_vask self; history_mid := history_mid self;
     gain := gain self; loss := loss self; bid_ordered := v;
     ask_ordered := ask_ordered self |}.

Definition set_ask_ordered (v : Z) (self : AutoTrader) : AutoTrader :=
  {| order_ids := order_ids self; bids := bids self; asks := asks self;
     ask_id := ask_id self; ask_price := ask_price self;
     bid_id := bid_id self; bid_price := bid_price self;
     position := position self; history_vbid := history_vbid self;
     history_vask := history_vask self; history_mid := history_mid self;
     gain := gain self; loss := loss self;
     bid_ordered := bid_ordered self; ask_ordered := v |}.

(** ** How a callback ends *)

Record Outcome : Type := {
  raised : option Fault;      (* [None]: the call returned *)
  after : AutoTrader;         (* the session as the call left it *)
  sent : list Command         (* the commands sent, oldest first *)
}.

Definition returned (self : AutoTrader) (cmds : list Command) : Outcome :=
  {| raised := None; after := self; sent := cmds |}.

Definition failed (f : Fault) (self : AutoTrader) (cmds : list Command) : Outcome :=
  {| raised := Some f; after := self; sent := cmds |}.

(** What lines 147-206 of [on_order_book_update_message] hand to the order
    logic of lines 208-231. *)
Record Quote : Type := {
  check_bid : Q;
  check_ask : Q;
  new_bid_price : Z;
  new_ask_price : Z;
  grad_bid : Q;
  grad_ask : Q;
  deviation_bid : bool;
  deviation_ask : bool;
  over_bought_rsi : bool;
  over_sold_rsi : bool
}.

Definition len (l : list Z) : Z := Z.of_nat (length l).

(** [list(range(len(l)))] *)
Definition range_len (l : list Z) : list Z := map Z.of_nat (seq 0 (length l)).

Section Callbacks.

Variable lib : Imports.

Definition MIN_BID_NEAREST_TICK : Z :=
  (MINIMUM_BID lib + TICK_SIZE_IN_CENTS) / TICK_SIZE_IN_CENTS * TICK_SIZE_IN_CENTS.

Definition MAX_ASK_NEAREST_TICK : Z :=
  MAXIMUM_ASK lib / TICK_SIZE_IN_CENTS * TICK_SIZE_IN_CENTS.

(** *** [on_order_book_update_message], lines 92-99: the weighted prices *)

Definition weighted_prices (ask_prices ask_volumes bid_prices bid_volumes : list Z)
  : Res (Z * Z * Z) :=
  let! tot := for_range 1 4
      (fun i (acc : Z * Z) =>
         let! bp := py_index bid_prices i in
         let! bv := py_index bid_volumes i in
         let! ap := py_index ask_prices i in
         let! av := py_index ask_volumes i in
         Ok (fst acc + bp * bv, snd acc + ap * av))
      (0, 0) in
  let! b0 := py_index bid_prices 0 in
  let! vbid := (if negb (b0 =? 0)
                then int_floordiv (fst tot) (py_sum (py_slice bid_volumes 1 4))
                else Ok 0) in
  let! b0' := py_index bid_prices 0 in
  let! vask := (if negb (b0' =? 0)
                then int_floordiv (snd tot) (py_sum (py_slice ask_volumes 1 4))
                else Ok 0) in
  Ok (vbid, vask, (vbid + vask) / 2).

(** *** Lines 103-116: the three series, kept to the last 15 samples *)

Definition record_sample (self : AutoTrader) (vbid vask vmid : Z) : AutoTrader :=
  let s1 := set_history_vbid (history_vbid self ++ [vbid]) self in
  let s2 := set_history_vask (history_vask s1 ++ [vask]) s1 in
  let s3 := set_history_mid (history_mid s2 ++ [vmid]) s2 in
  if 15 <? len (history_vbid s3) then
    let t1 := set_history_vbid (py_last 15 (history_vbid s3)) s3 in
    let t2 := set_history_vask (py_last 15 (history_vask t1)) t1 in
    set_history_mid (py_last 15 (history_mid t2)) t2
  else s3.

(** *** Lines 109-145: the RSI.  The averages are stored in the session
    before the quotient is taken, so an exception raised by the quotient
    leaves them stored. *)

Definition seed_totals (history : list Z) (vmid : Z) : Res (Z * Z) :=
  for_range (-11) (-1)
    (fun i (acc : Z * Z) =>
       let! h := py_index history i in
       let diff := vmid - h in
       if 0 <? diff then Ok (fst acc + diff, snd acc)
       else Ok (fst acc, snd acc + Z.abs diff))
    (0, 0).

Definition store_averages (self : AutoTrader) (vmid : Z) : Res AutoTrader :=
  if Qeq_bool (gain self) (-1) then
    let! tot := seed_totals (history_mid self) vmid in
    let s1 := set_gain (inject_Z (fst tot) / 10)%Q self in
    Ok (set_loss (inject_Z (snd tot) / 10)%Q s1)
  else
    let! h := py_index (history_mid self) (-2) in
    let diff := vmid - h in
    let gain' := if 0 <? diff then diff else 0 in
    let loss' := if 0 <? diff then 0 else Z.abs diff in
    let s1 := set_gain ((gain self * 9 + inject_Z gain') / 10)%Q self in
    Ok (set_loss ((loss s1 * 9 + inject_Z loss') / 10)%Q s1).

Definition rsi_of (self : AutoTrader) : Res Q :=
  let! rs := true_div (gain self) (loss self) in
  let! t := true_div 100 (1 + rs)%Q in
  Ok (100 - t)%Q.

(** The session as the block leaves it, and [(rsi, over_bought_rsi,
    over_sold_rsi)] or the exception raised. *)
Definition update_rsi (self : AutoTrader) (vmid : Z)
  : AutoTrader * Res (Q * bool * bool) :=
  if 10 <? len (history_mid self) then
    match store_averages self vmid with
    | Raise f => (self, Raise f)
    | Ok self' =>
        (self',
         let! rsi := rsi_of self' in
         let over_bought := Qlt_bool 75 rsi in
         let over_sold := negb over_bought && Qlt_bool rsi 25 in
         Ok (rsi, over_bought, over_sold))
    end
  else (self, Ok ((-1)%Q, false, false)).

(** *** Lines 147-206: averages, gradients, regression, targets, deviation *)

Definition zero_regression : LinregressResult :=
  {| slope := 0; intercept := 0; rvalue := 0; pvalue := 0; stderr := 0 |}.

(** Lines 185-186. *)
Definition round_bid (check : Q) (bid_prices : list Z) : Res Z :=
  let! b0 := py_index bid_prices 0 in
  if negb (b0 =? 0) then
    let! ticks := float_floordiv check (inject_Z TICK_SIZE_IN_CENTS) in
    let! b0' := py_index bid_prices 0 in
    Ok (Z.min (Z.max (py_int (ticks * inject_Z TICK_SIZE_IN_CENTS)%Q) 0)
              (b0' + TICK_SIZE_IN_CENTS))
  else Ok 0.

Definition round_ask (check : Q) (ask_prices : list Z) : Res Z :=
  let! a0 := py_index ask_prices 0 in
  if negb (a0 =? 0) then
    let! ticks := float_floordiv check (inject_Z TICK_SIZE_IN_CENTS) in
    let! a0' := py_index ask_prices 0 in
    Ok (Z.max (Z.max (py_int (ticks * inject_Z TICK_SIZE_IN_CENTS)%Q) 0)
              (a0' - TICK_SIZE_IN_CENTS))
  else Ok 0.

(** Lines 189-206: [(deviation_bid, deviation_ask)]. *)
Definition deviation (self : AutoTrader) (avg_vbid avg_vask : Q)
    (new_bid new_ask : Z) : bool * bool :=
  if 2 <=? len (history_vask self) then
    let m := linregress lib (range_len (py_last 15 (history_mid self)))
                        (py_last 15 (history_mid self)) in
    if Qlt_bool (11 # 20) (Qabs (rvalue m)) then
      let predict_mid := (intercept m + slope m * inject_Z (len (history_mid self)))%Q in
      (Qle_bool (predict_mid + Qabs (stderr m)) (inject_Z new_bid),
       Qle_bool (inject_Z new_ask) (predict_mid - Qabs (stderr m)))
    else
      let deviation_ask :=
        if 2 <=? len (history_vask self) then
          let astd_err := stdev lib (py_last 7 (history_vask self)) in
          Qle_bool (inject_Z new_ask) (avg_vask - Qabs astd_err)
        else false in
      let deviation_bid :=
        if 2 <=? len (history_vbid self) then
          let bstd_err := stdev lib (py_last 7 (history_vbid self)) in
          Qle_bool (avg_vbid + Qabs bstd_err) (inject_Z new_bid)
        else false in
      (deviation_bid, deviation_ask)
  else (false, false).

Definition quote_model (self : AutoTrader) (vbid vask : Z)
    (ask_prices bid_prices : list Z) (rsi : Q) (over_bought over_sold : bool)
  : Res Quote :=
  let pre_end := len (history_vask self) - 1 in
  let! tot := for_range (Z.max 0 (pre_end - 6)) (pre_end + 1)
      (fun i (acc : Z * Z) =>
         let! a := py_index (history_vask self) i in
         let! b := py_index (history_vbid self) i in
         Ok (fst acc + b, snd acc + a))
      (0, 0) in
  let! avg_vask := true_div (inject_Z (snd tot))
                            (inject_Z (Z.max 1 (Z.min 7 (pre_end + 1)))) in
  let! avg_vbid := true_div (inject_Z (fst tot))
                            (inject_Z (Z.max 1 (Z.min 7 (pre_end + 1)))) in
  let start := Z.max 0 (pre_end - 5) in
  let! hb := py_index (history_vbid self) start in
  let! db := true_div (inject_Z (vbid - hb))
                      (inject_Z (Z.min (len (history_vbid self)) 5)) in
  let! hb' := py_index (history_vbid self) start in
  let! grad_bid := true_div db (inject_Z (Z.max hb' 1)) in
  let! ha := py_index (history_vask self) start in
  let! da := true_div (inject_Z (vask - ha))
                      (inject_Z (Z.min (len (history_vask self)) 5)) in
  let! ha' := py_index (history_vask self) start in
  let! grad_ask := true_div da (inject_Z (Z.max ha' 1)) in
  let b := if 2 <=? len (history_vbid self)
           then linregress lib (range_len (py_last 15 (history_vbid self)))
                           (py_last 15 (history_vbid self))
           else zero_regression in
  let a := if 2 <=? len (history_vbid self)
           then linregress lib (range_len (py_last 15 (history_vask self)))
                           (py_last 15 (history_vask self))
           else zero_regression in
  let check_bid :=
    if Qle_bool (4 # 5) (Qabs (rvalue b)) then
      (intercept b + slope b * inject_Z (len (history_vbid self)))%Q
    else if Qeq_bool rsi (-1) then (avg_vbid * (1 + grad_bid))%Q
    else (avg_vbid * (1 + grad_bid * (1 + (75 - rsi) / 100 * (4 # 5))))%Q in
  let check_ask :=
    if Qle_bool (4 # 5) (Qabs (rvalue a)) then
      (intercept a + slope a * inject_Z (len (history_vask self)))%Q
    else if Qeq_bool rsi (-1) then (avg_vask * (1 + grad_ask))%Q
    else (avg_vask * (1 + grad_ask * (1 + (rsi - 25) / 100 * (4 # 5))))%Q in
  let! new_bid := round_bid check_bid bid_prices in
  let! new_ask := round_ask check_ask ask_prices in
  let dev := deviation self avg_vbid avg_vask new_bid new_ask in
  Ok {| check_bid := check_bid; check_ask := check_ask;
        new_bid_price := new_bid; new_ask_price := new_ask;
        grad_bid := grad_bid; grad_ask := grad_ask;
        deviation_bid := fst dev; deviation_ask := snd dev;
        over_bought_rsi := over_bought; over_sold_rsi := over_sold |}.

(** *** Lines 208-231: cancel and insert *)

Definition outside_band (target resting : Z) (grad : Q) : bool :=
  Qlt_bool (inject_Z resting * (1 + grad))%Q (inject_Z target)
  || Qlt_bool (inject_Z target) (inject_Z resting * (1 - grad))%Q.

(** Lines 208-211. *)
Definition replace_bid (self : AutoTrader) (q : Quote) : AutoTrader * list Command :=
  if negb (bid_id self =? 0) && negb (new_bid_price q =? 0)
     && outside_band (new_bid_price q) (bid_price self) (grad_bid q)
  then (set_bid_ordered 10 (set_bid_id 0 self), [send_cancel_order (bid_id self)])
  else (self, []).

(** Lines 212-215; the price compared with the band is [new_bid_price]. *)
Definition replace_ask (self : AutoTrader) (q : Quote) : AutoTrader * list Command :=
  if negb (ask_id self =? 0) && negb (new_ask_price q =? 0)
     && outside_band (new_bid_price q) (ask_price self) (grad_ask q)
  then (set_ask_ordered 10 (set_ask_id 0 self), [send_cancel_order (ask_id self)])
  else (self, []).

(** Lines 218-223. *)
Definition insert_bid (self : AutoTrader) (q : Quote) : AutoTrader * list Command :=
  if (bid_id self =? 0) && negb (new_bid_price q =? 0)
     && (bid_ordered self + position self + LOT_SIZE <? POSITION_LIMIT)
     && (negb (deviation_bid q) || negb (over_bought_rsi q))
  then
    let s1 := set_order_ids (order_ids self + 1) (set_bid_id (order_ids self) self) in
    let s2 := set_bid_price (new_bid_price q) s1 in
    let s3 := set_bid_ordered (bid_ordered s2 + LOT_SIZE) s2 in
    (set_bids ({[bid_id s3]} ∪ bids s3) s3,
     [send_insert_order (bid_id s3) BUY (new_bid_price q) LOT_SIZE GOOD_FOR_DAY])
  else (self, []).

(** Lines 226-231. *)
Definition insert_ask (self : AutoTrader) (q : Quote) : AutoTrader * list Command :=
  if (ask_id self =? 0) && negb (new_ask_price q =? 0)
     && (-1 * POSITION_LIMIT <? position self - ask_ordered self - LOT_SIZE)
     && (negb (deviation_ask q) || negb (over_sold_rsi q))
  then
    let s1 := set_order_ids (order_ids self + 1) (set_ask_id (order_ids self) self) in
    let s2 := set_ask_price (new_ask_price q) s1 in
    let s3 := set_ask_ordered (ask_ordered s2 + LOT_SIZE) s2 in
    (set_asks ({[ask_id s3]} ∪ asks s3) s3,
     [send_insert_order (ask_id s3) SELL (new_ask_price q) LOT_SIZE GOOD_FOR_DAY])
  else (self, []).

Definition reconcile (self : AutoTrader) (q : Quote) : AutoTrader * list Command :=
  let r1 := replace_bid self q in
  let r2 := replace_ask (fst r1) q in
  let r3 := insert_bid (fst r2) q in
  let r4 := insert_ask (fst r3) q in
  (fst r4, snd r1 ++ snd r2 ++ snd r3 ++ snd r4).

(** *** [on_order_book_update_message] *)

Definition on_order_book_update_message (self : AutoTrader)
    (instrument sequence_number : Z)
    (ask_prices ask_volumes bid_prices bid_volumes : list Z) : Outcome :=
  if instrument =? FUTURE lib then
    match py_index bid_prices 0 with
    | Raise f => failed f self []
    | Ok b0 =>
      if negb (b0 =? 0) then
        match weighted_prices ask_prices ask_volumes bid_prices bid_volumes with
        | Raise f => failed f self []
        | Ok (vbid, vask, vmid) =>
          let s1 := record_sample self vbid vask vmid in
          match update_rsi s1 vmid with
          | (s2, Raise f) => failed f s2 []
          | (s2, Ok (rsi, over_bought, over_sold)) =>
            match quote_model s2 vbid vask ask_prices bid_prices
                              rsi over_bought over_sold with
            | Raise f => failed f s2 []
            | Ok q => let r := reconcile s2 q in returned (fst r) (snd r)
            end
          end
        end
      else returned self []
    end
  else returned self [].

(** *** [on_order_status_message] *)

Definition on_order_status_message (self : AutoTrader)
    (client_order_id fill_volume remaining_volume fees : Z) : Outcome :=
  if remaining_volume =? 0 then
    let s1 := if client_order_id =? bid_id self then set_bid_id 0 self
              else if client_order_id =? ask_id self then set_ask_id 0 self
              else self in
    let s2 := set_bids (bids s1 ∖ {[client_order_id]}) s1 in
    returned (set_asks (asks s2 ∖ {[client_order_id]}) s2) []
  else returned self [].

(** *** [on_error_message].  Line 65 decodes the message for the log line
    before anything touches the session: a message that is not UTF-8
    raises there, and the order it is about stays as it was.  The log line
    itself is left out, as is every other call of the logger. *)

Definition on_error_message (self : AutoTrader) (client_order_id : Z)
    (error_message : list Byte.byte) : Outcome :=
  match py_decode error_message with
  | Raise f => failed f self []
  | Ok _ =>
    if negb (client_order_id =? 0)
       && (bool_decide (client_order_id ∈ bids self)
           || bool_decide (client_order_id ∈ asks self))
    then on_order_status_message self client_order_id 0 0 0
    else returned self []
  end.

(** *** [on_order_filled_message] *)

Definition on_order_filled_message (self : AutoTrader)
    (client_order_id price volume : Z) : Outcome :=
  if bool_decide (client_order_id ∈ bids self) then
    let s1 := set_position (position self + volume) self in
    let s2 := set_bid_ordered (bid_ordered s1 - volume) s1 in
    returned (set_order_ids (order_ids s2 + 1) s2)
             [send_hedge_order (order_ids s2) ASK MIN_BID_NEAREST_TICK volume]
  else if bool_decide (client_order_id ∈ asks self) then
    let s1 := set_position (position self - volume) self in
    let s2 := set_ask_ordered (ask_ordered s1 - volume) s1 in
    returned (set_order_ids (order_ids s2 + 1) s2)
             [send_hedge_order (order_ids s2) BID MAX_ASK_NEAREST_TICK volume]
  else returned self [].

(** *** [on_hedge_filled_message], [on_trade_ticks_message]: log only *)

Definition on_hedge_filled_message (self : AutoTrader)
    (client_order_id price volume : Z) : Outcome :=
  returned self [].

Definition on_trade_ticks_message (self : AutoTrader)
    (instrument sequence_number : Z)
    (ask_prices ask_volumes bid_prices bid_volumes : list Z) : Outcome :=
  returned self [].

(** ** Sessions: the messages the exchange delivers, one at a time *)

Inductive Event : Type :=
| OrderBookUpdate (instrument sequence_number : Z)
                  (ask_prices ask_volumes bid_prices bid_volumes : list Z)
| TradeTicks (instrument sequence_number : Z)
             (ask_prices ask_volumes bid_prices bid_volumes : list Z)
| OrderFilled (client_order_id price volume : Z)
| OrderStatus (client_order_id fill_volume remaining_volume fees : Z)
| HedgeFilled (client_order_id price volume : Z)
| ErrorMessage (client_order_id : Z) (error_message : list Byte.byte).

Definition dispatch (self : AutoTrader) (e : Event) : Outcome :=
  match e with
  | OrderBookUpdate i n ap av bp bv => on_order_book_update_message self i n ap av bp bv
  | TradeTicks i n ap av bp bv => on_trade_ticks_message self i n ap av bp bv
  | OrderFilled id p v => on_order_filled_message self id p v
  | OrderStatus id f r fees => on_order_status_message self id f r fees
  | HedgeFilled id p v => on_hedge_filled_message self id p v
  | ErrorMessage id msg => on_error_message self id msg
  end.

(** The session and everything sent so far, after the events of [es] in
    order.  A callback that raises leaves the session as it was at the
    raise; the run goes on from there (a host that stops at the first
    exception reaches a subset of these sessions). *)
Fixpoint run_from (self : AutoTrader) (log : list Command) (es : list Event)
  : AutoTrader * list Command :=
  match es with
  | [] => (self, log)
  | e :: es' =>
      let o := dispatch self e in
      run_from (after o) (log ++ sent o) es'
  end.

Definition run (es : list Event) : AutoTrader * list Command := run_from init [] es.

End Callbacks.

(** ** Two views of the session

    [orders] is the part the order logic reads and writes, [signals] the
    part the price model reads and writes. *)

Definition orders (s : AutoTrader) :=
  (order_ids s, bids s, asks s, (ask_id s, ask_price s, bid_id s, bid_price s),
   (position s, bid_ordered s, ask_ordered s)).

Definition signals (s : AutoTrader) :=
  (history_vbid s, history_vask s, history_mid s, gain s, loss s).

(** The session and the quote with which lines 208-231 are entered, when
    they are entered. *)
Definition book_quote (lib : Imports) (self : AutoTrader) (instrument : Z)
    (ask_prices ask_volumes bid_prices bid_volumes : list Z)
  : option (AutoTrader * Quote) :=
  if instrument =? FUTURE lib then
    match py_index bid_prices 0 with
    | Ok b0 =>
      if negb (b0 =? 0) then
        match weighted_prices ask_prices ask_volumes bid_prices bid_volumes with
        | Ok (vbid, vask, vmid) =>
          match update_rsi (record_sample self vbid vask vmid) vmid with
          | (s2, Ok (rsi, over_bought, over_sold)) =>
            match quote_model lib s2 vbid vask ask_prices bid_prices
                              rsi over_bought over_sold with
            | Ok q => Some (s2, q)
            | Raise _ => None
            end
          | (_, Raise _) => None
          end
        | Raise _ => None
        end
      else None
    | Raise _ => None
    end
  else None.

(** The ids handed out by [next(self.order_ids)], in the order sent. *)
Definition issued_id (c : Command) : list Z :=
  match c with
  | send_cancel_order _ => []
  | send_insert_order id _ _ _ _ => [id]
  | send_hedge_order id _ _ _ => [id]
  end.

Definition issued_ids (log : list Command) : list Z := flat_map issued_id log.

(** [[a; a+1; ...]], [n] of them. *)
Fixpoint count_from (a : Z) (n : nat) : list Z :=
  match n with
  | O => []
  | S n' => a :: count_from (a + 1) n'
  end.

(** ** The reference RSI of the specification

    First value: the averages of the ten one-step moves between the first
    eleven samples; afterwards Wilder's smoothing, one sample at a time. *)

Fixpoint steps (l : list Z) : list Z :=
  match l with
  | a :: (b :: _) as t => (b - a) :: steps t
  | _ => []
  end.

Definition upward (d : Z) : Z := Z.max d 0.
Definition downward (d : Z) : Z := Z.max (- d) 0.

Definition wilder_seed (ds : list Z) : Q * Q :=
  (inject_Z (py_sum (map upward ds)) / 10, inject_Z (py_sum (map downward ds)) / 10)%Q.

Definition wilder_smooth (avg : Q * Q) (d : Z) : Q * Q :=
  ((fst avg * 9 + inject_Z (upward d)) / 10, (snd avg * 9 + inject_Z (downward d)) / 10)%Q.

Definition wilder_averages (mids : list Z) : Q * Q :=
  let ds := steps mids in
  fold_left wilder_smooth (skipn 10 ds) (wilder_seed (firstn 10 ds)).

Definition wilder_rsi (mids : list Z) : Res Q :=
  let avg := wilder_averages mids in
  let! rs := true_div (fst avg) (snd avg) in
  let! t := true_div 100 (1 + rs)%Q in
  Ok (100 - t)%Q.

(** The RSI block of the program run over a series: each sample is
    appended and the block entered, as the book handler does. *)
Definition feed_mid (self : AutoTrader) (vmid : Z) : AutoTrader * Res (Q * bool * bool) :=
  update_rsi (record_sample self vmid vmid vmid) vmid.

Fixpoint feed_mids (self : AutoTrader) (last : Res (Q * bool * bool)) (mids : list Z)
  : AutoTrader * Res (Q * bool * bool) :=
  match mids with
  | [] => (self, last)
  | m :: mids' => let r := feed_mid self m in feed_mids (fst r) (snd r) mids'
  end.

Definition program_rsi (mids : list Z) : Res Q :=
  let! r := snd (feed_mids init (Ok ((-1)%Q, false, false)) mids) in
  Ok (fst (fst r)).

(** * Notions used in the statements *)

(** ** The invariant of the order book-keeping

    The counter has handed out exactly the ids sent so far; both tracking
    sets hold ids already handed out and share none; each slot is 0 or
    tracked on its side; every other tracked id has had its cancel sent. *)

Record Inv (s : AutoTrader) (log : list Command) : Prop := {
  inv_next : 1 <= order_ids s;
  inv_issued : issued_ids log = count_from 1 (Z.to_nat (order_ids s - 1));
  inv_bids : forall id, id ∈ bids s -> 1 <= id < order_ids s;
  inv_asks : forall id, id ∈ asks s -> 1 <= id < order_ids s;
  inv_disjoint : bids s ## asks s;
  inv_bid_slot : bid_id s = 0 \/ bid_id s ∈ bids s;
  inv_ask_slot : ask_id s = 0 \/ ask_id s ∈ asks s;
  inv_bid_others : forall id, id ∈ bids s ->
      id = bid_id s \/ In (send_cancel_order id) log;
  inv_ask_others : forall id, id ∈ asks s ->
      id = ask_id s \/ In (send_cancel_order id) log
}.

Definition within_position_limit (s : AutoTrader) : Prop :=
  - POSITION_LIMIT <= position s <= POSITION_LIMIT.

(** ** The conditions of lines 218 and 226, as propositions *)

Definition bid_insert_guard (s : AutoTrader) (q : Quote) : Prop :=
  bid_id s = 0 /\ new_bid_price q <> 0
  /\ bid_ordered s + position s + LOT_SIZE < POSITION_LIMIT
  /\ ~ (deviation_bid q = true /\ over_bought_rsi q = true).

Definition ask_insert_guard (s : AutoTrader) (q : Quote) : Prop :=
  ask_id s = 0 /\ new_ask_price q <> 0
  /\ - POSITION_LIMIT < position s - ask_ordered s - LOT_SIZE
  /\ ~ (deviation_ask q = true /\ over_sold_rsi q = true).

Definition sends_insert (side : Side) (cmds : list Command) : Prop :=
  exists id p v l, In (send_insert_order id side p v l) cmds.

(** The session in which line 218, resp. line 226, is evaluated. *)
Definition at_bid_insert (s2 : AutoTrader) (q : Quote) : AutoTrader :=
  fst (replace_ask (fst (replace_bid s2 q)) q).

Definition at_ask_insert (s2 : AutoTrader) (q : Quote) : AutoTrader :=
  fst (insert_bid (at_bid_insert s2 q) q).

(** ** Rounding and clamping, in the words of the specification:
    "round each target down to the nearest tick", "clamp to [lo, hi]",
    "clamp to [lo, +oo)". *)

Definition round_down_to_tick (x : Q) : Z :=
  Qfloor (x / inject_Z TICK_SIZE_IN_CENTS) * TICK_SIZE_IN_CENTS.

Definition clamp (lo hi x : Z) : Z :=
  if x <? lo then lo else if hi <? x then hi else x.

Definition at_least (lo x : Z) : Z := if x <? lo then lo else x.

(** A price as the exchange quotes it: not negative, a whole number of
    ticks (0 stands for "no price"). *)
Definition exchange_price (p : Z) : Prop :=
  0 <= p /\ (TICK_SIZE_IN_CENTS | p).

(** ** The invariant of the price model's state

    The three series have one length, at most 15; the two RSI averages are
    both still the sentinel of [__init__] or both not negative. *)

Definition SigInv (s : AutoTrader) : Prop :=
  length (history_vbid s) = length (history_mid s)
  /\ length (history_vask s) = length (history_mid s)
  /\ (length (history_mid s) <= 15)%nat
  /\ ((gain s = (-1)%Q /\ loss s = (-1)%Q) \/ (0 <= gain s /\ 0 <= loss s)%Q).

(** The averages are seeded exactly when the mid series has reached eleven
    samples. *)
Definition Seeding (s : AutoTrader) : Prop :=
  (gain s = (-1)%Q /\ loss s = (-1)%Q /\ (length (history_mid s) <= 10)%nat)
  \/ ((0 <= gain s)%Q /\ (0 <= loss s)%Q /\ (11 <= length (history_mid s))%nat).

(** ** Where the ids in the books come from

    Every tracked bid is the id of a buy insert sent earlier, every tracked
    ask the id of a sell insert sent earlier, and every cancel names an id
    inserted earlier. *)

Definition inserted (id : Z) (side : Side) (log : list Command) : Prop :=
  exists p, In (send_insert_order id side p LOT_SIZE GOOD_FOR_DAY) log.

Definition Provenance (s : AutoTrader) (log : list Command) : Prop :=
  (forall id, id ∈ bids s -> inserted id BUY log)
  /\ (forall id, id ∈ asks s -> inserted id SELL log)
  /\ (forall id, In (send_cancel_order id) log ->
      inserted id BUY log \/ inserted id SELL log).

(** ** The volume hedged so far: sold minus bought *)

Definition hedge_volume (c : Command) : Z :=
  match c with
  | send_hedge_order _ SELL _ v => v
  | send_hedge_order _ BUY _ v => - v
  | _ => 0
  end.

Definition hedged (log : list Command) : Z :=
  fold_right (fun c acc => hedge_volume c + acc) 0 log.

(** * Scenarios

    The imports at the values they have in the game: [Instrument.FUTURE]
    is 0, [MINIMUM_BID] is 1 and [MAXIMUM_ASK] is 2^31 - 1.  The two
    statistics functions are given on the only series the closed scenarios
    feed them, series whose samples are all equal: there the fitted line
    is level ([slope] 0, [intercept] the common value), [linregress]
    reports a correlation of 0 and a standard error of 0, and [stdev] is
    0.  Statements about other series quantify over the imports. *)

Definition level_linregress (x y : list Z) : LinregressResult :=
  {| slope := 0;
     intercept := (inject_Z (py_sum y) / inject_Z (len y))%Q;
     rvalue := 0;
     pvalue := 1;
     stderr := 0 |}.

Definition level_lib : Imports :=
  {| FUTURE := 0;
     MAXIMUM_ASK := 2147483647;
     MINIMUM_BID := 1;
     linregress := level_linregress;
     stdev := fun _ => 0%Q |}.

(** The four lists of one book message: ask prices, ask volumes, bid
    prices, bid volumes. *)
Definition Book : Type := (list Z * list Z * list Z * list Z)%type.

Definition future_book (lib : Imports) (b : Book) : Event :=
  match b with
  | (ap, av, bp, bv) => OrderBookUpdate (FUTURE lib) 1 ap av bp bv
  end.

(** The bid touch at 10000 and the ask touch at 10200; one lot at 9900 on
    each of the next three bid levels, one lot at 10300 on each of the
    next three ask levels. *)
Definition steady_levels : Book :=
  ([10200; 10300; 10300; 10300; 10400], [5; 1; 1; 1; 5],
   [10000; 9900; 9900; 9900; 9800], [5; 1; 1; 1; 5]).

Definition steady_book : Event :=
  OrderBookUpdate 0 1 [10200; 10300; 10300; 10300; 10400] [5; 1; 1; 1; 5]
                      [10000; 9900; 9900; 9900; 9800] [5; 1; 1; 1; 5].

(** Nothing behind the touch on either side. *)
Definition thin_levels : Book :=
  ([10200; 0; 0; 0; 0], [5; 0; 0; 0; 0], [10000; 0; 0; 0; 0], [5; 0; 0; 0; 0]).

(** Bids as in the steady book, and nobody selling: the exchange fills
    the ask lists with zeros. *)
Definition no_asks_levels : Book :=
  ([0; 0; 0; 0; 0], [0; 0; 0; 0; 0], [10000; 9900; 9900; 9900; 9800], [5; 1; 1; 1; 5]).

(** A book whose weighted bid is [m - 300] and whose weighted ask is
    [m + 300], so that the mid sample is [m]. *)
Definition levels_around (m : Z) : Book :=
  ([m + 100; m + 200; m + 300; m + 400; m + 500], [1; 1; 1; 1; 1],
   [m - 100; m - 200; m - 300; m - 400; m - 500], [1; 1; 1; 1; 1]).

(** Nine samples at 10000, then 10200, then 10100: the ten one-step moves
    are eight of 0, one of +200 and one of -100. *)
Definition sample_mids : list Z :=
  [10000; 10000; 10000; 10000; 10000; 10000; 10000; 10000; 10000; 10200; 10100].

Definition blank_quote : Quote :=
  {| check_bid := 0; check_ask := 0; new_bid_price := 0; new_ask_price := 0;
     grad_bid := 0; grad_ask := 0; deviation_bid := false; deviation_ask := false;
     over_bought_rsi := false; over_sold_rsi := false |}.

(** After the first steady book: the bid 1 rests at 9900, the ask 2 at
    10300.  [steady_quote] is what the second steady book computes. *)
Definition steady_session : AutoTrader := fst (run level_lib [steady_book]).

Definition steady_quote : AutoTrader * Quote :=
  match book_quote level_lib steady_session 0
          [10200; 10300; 10300; 10300; 10400] [5; 1; 1; 1; 5]
          [10000; 9900; 9900; 9900; 9800] [5; 1; 1; 1; 5] with
  | Some sq => sq
  | None => (steady_session, blank_quote)
  end.

(** After the first steady book and a closing status for the bid 1: the
    bid side is idle.  [idle_bid_quote] is what the next steady book
    computes. *)
Definition idle_bid_session : AutoTrader :=
  fst (run level_lib [steady_book; OrderStatus 1 0 0 0]).

Definition idle_bid_quote : AutoTrader * Quote :=
  match book_quote level_lib idle_bid_session 0
          [10200; 10300; 10300; 10300; 10400] [5; 1; 1; 1; 5]
          [10000; 9900; 9900; 9900; 9800] [5; 1; 1; 1; 5] with
  | Some sq => sq
  | None => (idle_bid_session, blank_quote)
  end.

(** What a first book computes whose weighted prices are not whole ticks:
    the weighted bid is 9875 and the weighted ask 10475. *)
Definition uneven_quote : AutoTrader * Quote :=
  match book_quote level_lib init 0
          [10300; 10400; 10500; 10600; 10700] [5; 2; 1; 1; 5]
          [10100; 10000; 9900; 9800; 9700] [5; 1; 1; 2; 5] with
  | Some sq => sq
  | None => (init, blank_quote)
  end.

(** The session after ten steady books. *)
Definition after_ten_steady (lib : Imports) : AutoTrader :=
  fst (run lib (map (future_book lib) (repeat steady_levels 10))).

(** The session after one book around each of [sample_mids]. *)
Definition after_sample_mids (lib : Imports) : AutoTrader :=
  fst (run lib (map (future_book lib) (map levels_around sample_mids))).

(** * Properties *)

(** ** The price model leaves the order book-keeping alone *)

Lemma orders_record_sample (s : AutoTrader) (vbid vask vmid : Z) :
  orders (record_sample s vbid vask vmid) = orders s.
Proof.
  unfold record_sample; cbv zeta.
  destruct (15 <? _); reflexivity.
Qed.

Lemma orders_store_averages (s s' : AutoTrader) (vmid : Z) :
  store_averages s vmid = Ok s' -> orders s' = orders s.
Proof.
  unfold store_averages.
  destruct (Qeq_bool (gain s) (-1)).
  - destruct (seed_totals (history_mid s) vmid) as [tot|f]; simpl; [|discriminate].
    intros [= <-]; reflexivity.
  - destruct (py_index (history_mid s) (-2)) as [h|f]; simpl; [|discriminate].
    intros [= <-]; reflexivity.
Qed.

Lemma orders_update_rsi (s : AutoTrader) (vmid : Z) :
  orders (fst (update_rsi s vmid)) = orders s.
Proof.
  unfold update_rsi.
  destruct (10 <? len (history_mid s)); [|reflexivity].
  destruct (store_averages s vmid) as [s'|f] eqn:E; [|reflexivity].
  simpl. eapply orders_store_averages; eassumption.
Qed.

(** ** The book handler, seen as "compute a quote, then reconcile" *)

Lemma book_update_quoted (lib : Imports) (self s2 : AutoTrader) (q : Quote)
    (i n : Z) (ap av bp bv : list Z) :
  book_quote lib self i ap av bp bv = Some (s2, q) ->
  on_order_book_update_message lib self i n ap av bp bv
    = returned (fst (reconcile s2 q)) (snd (reconcile s2 q))
  /\ orders s2 = orders self.
Proof.
  unfold book_quote, on_order_book_update_message.
  destruct (i =? FUTURE lib); [|discriminate].
  destruct (py_index bp 0) as [b0|f]; [|discriminate].
  destruct (negb (b0 =? 0)); [|discriminate].
  destruct (weighted_prices ap av bp bv) as [[[vbid vask] vmid]|f]; [|discriminate].
  pose proof (orders_update_rsi (record_sample self vbid vask vmid) vmid) as Hrsi.
  rewrite orders_record_sample in Hrsi.
  destruct (update_rsi (record_sample self vbid vask vmid) vmid)
    as [s2' [[[rsi ob] os]|f]]; [|discriminate].
  destruct (quote_model lib s2' vbid vask ap bp rsi ob os) as [q'|f]; [|discriminate].
  intros [= <- <-]. split; [reflexivity|exact Hrsi].
Qed.

Lemma book_update_unquoted (lib : Imports) (self : AutoTrader)
    (i n : Z) (ap av bp bv : list Z) :
  book_quote lib self i ap av bp bv = None ->
  sent (on_order_book_update_message lib self i n ap av bp bv) = []
  /\ orders (after (on_order_book_update_message lib self i n ap av bp bv))
     = orders self.
Proof.
  unfold book_quote, on_order_book_update_message.
  destruct (i =? FUTURE lib); [|split; reflexivity].
  destruct (py_index bp 0) as [b0|f]; [|split; reflexivity].
  destruct (negb (b0 =? 0)); [|split; reflexivity].
  destruct (weighted_prices ap av bp bv) as [[[vbid vask] vmid]|f]; [|split; reflexivity].
  pose proof (orders_update_rsi (record_sample self vbid vask vmid) vmid) as Hrsi.
  rewrite orders_record_sample in Hrsi.
  destruct (update_rsi (record_sample self vbid vask vmid) vmid)
    as [s2' [[[rsi ob] os]|f]]; [|split; [reflexivity|exact Hrsi]].
  destruct (quote_model lib s2' vbid vask ap bp rsi ob os) as [q'|f]; [discriminate|].
  intros _. split; [reflexivity|exact Hrsi].
Qed.

(** ** The invariant holds in every session *)

Lemma Inv_orders (s s' : AutoTrader) (log : list Command) :
  orders s = orders s' -> Inv s log -> Inv s' log.
Proof.
  unfold orders. intros Heq [H1 H2 H3 H4 H5 H6 H7 H8 H9].
  injection Heq as E1 E2 E3 E4 E5 E6 E7 E8 E9 E10.
  split; rewrite <- ?E1, <- ?E2, <- ?E3, <- ?E4, <- ?E6; assumption.
Qed.

Lemma Inv_init : Inv init [].
Proof.
  split; simpl; try set_solver; try lia; reflexivity.
Qed.

Lemma issued_ids_app (l1 l2 : list Command) :
  issued_ids (l1 ++ l2) = issued_ids l1 ++ issued_ids l2.
Proof. unfold issued_ids. apply flat_map_app. Qed.

Lemma count_from_snoc (a : Z) (n : nat) :
  count_from a (S n) = count_from a n ++ [a + Z.of_nat n].
Proof.
  revert a. induction n as [|n IH]; intros a.
  - simpl. f_equal. lia.
  - change (count_from a (S (S n))) with (a :: count_from (a + 1) (S n)).
    rewrite IH. simpl. do 3 f_equal. lia.
Qed.

Lemma count_from_next (next : Z) :
  1 <= next ->
  count_from 1 (Z.to_nat (next + 1 - 1))
    = count_from 1 (Z.to_nat (next - 1)) ++ [next].
Proof.
  intros H. replace (Z.to_nat (next + 1 - 1)) with (S (Z.to_nat (next - 1))) by lia.
  rewrite count_from_snoc. do 2 f_equal. lia.
Qed.

Lemma count_from_bounds (a : Z) (n : nat) (x : Z) :
  In x (count_from a n) -> a <= x < a + Z.of_nat n.
Proof.
  revert a. induction n as [|n IH]; intros a; simpl; [tauto|].
  intros [<-|H]; [lia|]. apply IH in H. lia.
Qed.

Lemma count_from_NoDup (a : Z) (n : nat) : List.NoDup (count_from a n).
Proof.
  revert a. induction n as [|n IH]; intros a; simpl; constructor.
  - intros H. apply count_from_bounds in H. lia.
  - apply IH.
Qed.

Lemma count_from_increasing (a : Z) (n : nat) :
  StronglySorted Z.lt (count_from a n).
Proof.
  revert a. induction n as [|n IH]; intros a; simpl; constructor.
  - apply IH.
  - apply List.Forall_forall. intros x H. apply count_from_bounds in H. lia.
Qed.

Lemma Inv_no_command (s : AutoTrader) (log : list Command) :
  Inv s log -> Inv s (log ++ []).
Proof. rewrite app_nil_r. trivial. Qed.

Lemma Inv_replace_bid (s : AutoTrader) (q : Quote) (log : list Command) :
  Inv s log -> Inv (fst (replace_bid s q)) (log ++ snd (replace_bid s q)).
Proof.
  unfold replace_bid.
  destruct (_ && _); simpl; [|apply Inv_no_command].
  intros [H1 H2 H3 H4 H5 H6 H7 H8 H9]. split; simpl; trivial.
  - rewrite issued_ids_app. simpl. rewrite app_nil_r. exact H2.
  - left; reflexivity.
  - intros id Hid. right. apply in_or_app.
    destruct (H8 id Hid) as [->|Hc]; [right; left; reflexivity|left; exact Hc].
  - intros id Hid. destruct (H9 id Hid) as [->|Hc]; [left; reflexivity|].
    right. apply in_or_app. left; exact Hc.
Qed.

Lemma Inv_replace_ask (s : AutoTrader) (q : Quote) (log : list Command) :
  Inv s log -> Inv (fst (replace_ask s q)) (log ++ snd (replace_ask s q)).
Proof.
  unfold replace_ask.
  destruct (_ && _); simpl; [|apply Inv_no_command].
  intros [H1 H2 H3 H4 H5 H6 H7 H8 H9]. split; simpl; trivial.
  - rewrite issued_ids_app. simpl. rewrite app_nil_r. exact H2.
  - left; reflexivity.
  - intros id Hid. destruct (H8 id Hid) as [->|Hc]; [left; reflexivity|].
    right. apply in_or_app. left; exact Hc.
  - intros id Hid. right. apply in_or_app.
    destruct (H9 id Hid) as [->|Hc]; [right; left; reflexivity|left; exact Hc].
Qed.

Lemma Inv_insert_bid (s : AutoTrader) (q : Quote) (log : list Command) :
  Inv s log -> Inv (fst (insert_bid s q)) (log ++ snd (insert_bid s q)).
Proof.
  unfold insert_bid.
  destruct (bid_id s =? 0) eqn:Eid; simpl; [|apply Inv_no_command].
  destruct (_ && _); simpl; [|apply Inv_no_command].
  apply Z.eqb_eq in Eid.
  intros [H1 H2 H3 H4 H5 H6 H7 H8 H9]. split; simpl.
  - lia.
  - rewrite issued_ids_app, H2. simpl. symmetry. apply count_from_next. exact H1.
  - intros id [->%elem_of_singleton|Hid]%elem_of_union; [lia|].
    specialize (H3 id Hid). lia.
  - intros id Hid. specialize (H4 id Hid). lia.
  - intros id [->%elem_of_singleton|Hid]%elem_of_union Ha.
    + specialize (H4 _ Ha). lia.
    + exact (H5 id Hid Ha).
  - right. apply elem_of_union. left. apply elem_of_singleton. reflexivity.
  - exact H7.
  - intros id [->%elem_of_singleton|Hid]%elem_of_union; [left; reflexivity|].
    right. apply in_or_app. left.
    destruct (H8 id Hid) as [->|Hc]; [|exact Hc].
    specialize (H3 _ Hid). lia.
  - intros id Hid. destruct (H9 id Hid) as [->|Hc]; [left; reflexivity|].
    right. apply in_or_app. left; exact Hc.
Qed.

Lemma Inv_insert_ask (s : AutoTrader) (q : Quote) (log : list Command) :
  Inv s log -> Inv (fst (insert_ask s q)) (log ++ snd (insert_ask s q)).
Proof.
  unfold insert_ask.
  destruct (ask_id s =? 0) eqn:Eid; simpl; [|apply Inv_no_command].
  destruct (_ && _); simpl; [|apply Inv_no_command].
  apply Z.eqb_eq in Eid.
  intros [H1 H2 H3 H4 H5 H6 H7 H8 H9]. split; simpl.
  - lia.
  - rewrite issued_ids_app, H2. simpl. symmetry. apply count_from_next. exact H1.
  - intros id Hid. specialize (H3 id Hid). lia.
  - intros id [->%elem_of_singleton|Hid]%elem_of_union; [lia|].
    specialize (H4 id Hid). lia.
  - intros id Hb [->%elem_of_singleton|Hid]%elem_of_union.
    + specialize (H3 _ Hb). lia.
    + exact (H5 id Hb Hid).
  - exact H6.
  - right. apply elem_of_union. left. apply elem_of_singleton. reflexivity.
  - intros id Hid. destruct (H8 id Hid) as [->|Hc]; [left; reflexivity|].
    right. apply in_or_app. left; exact Hc.
  - intros id [->%elem_of_singleton|Hid]%elem_of_union; [left; reflexivity|].
    right. apply in_or_app. left.
    destruct (H9 id Hid) as [->|Hc]; [|exact Hc].
    specialize (H4 _ Hid). lia.
Qed.

Lemma Inv_reconcile (s : AutoTrader) (q : Quote) (log : list Command) :
  Inv s log -> Inv (fst (reconcile s q)) (log ++ snd (reconcile s q)).
Proof.
  intros H. unfold reconcile; cbn [fst snd]. rewrite !app_assoc.
  apply Inv_insert_ask, Inv_insert_bid, Inv_replace_ask, Inv_replace_bid, H.
Qed.

Lemma Inv_filled (lib : Imports) (s : AutoTrader) (id price volume : Z)
    (log : list Command) :
  Inv s log ->
  Inv (after (on_order_filled_message lib s id price volume))
      (log ++ sent (on_order_filled_message lib s id price volume)).
Proof.
  intros HI. unfold on_order_filled_message.
  destruct (bool_decide (id ∈ bids s));
    [|destruct (bool_decide (id ∈ asks s)); [|apply Inv_no_command, HI]];
    destruct HI as [H1 H2 H3 H4 H5 H6 H7 H8 H9]; split; simpl; trivial;
    try lia;
    try (rewrite issued_ids_app, H2; simpl; symmetry; apply count_from_next, H1);
    try (intros x Hx; first [specialize (H3 x Hx)|specialize (H4 x Hx)]; lia);
    try (intros x Hx; first [destruct (H8 x Hx) as [->|Hc]|destruct (H9 x Hx) as [->|Hc]];
         [left; reflexivity|right; apply in_or_app; left; exact Hc]).
Qed.

Lemma slot_survives (slot id : Z) (X : gset Z) :
  slot <> id -> slot = 0 \/ slot ∈ X -> slot = 0 \/ slot ∈ X ∖ {[id]}.
Proof.
  intros Hne [H|H]; [left; exact H|right].
  apply elem_of_difference. split; [exact H|].
  intros E%elem_of_singleton. exact (Hne E).
Qed.

Lemma Inv_status (s : AutoTrader) (id fill_volume remaining_volume fees : Z)
    (log : list Command) :
  Inv s log ->
  Inv (after (on_order_status_message s id fill_volume remaining_volume fees))
      (log ++ sent (on_order_status_message s id fill_volume remaining_volume fees)).
Proof.
  intros HI. unfold on_order_status_message.
  destruct (remaining_volume =? 0); [|apply Inv_no_command, HI].
  cbn [after sent returned]. rewrite app_nil_r.
  destruct HI as [H1 H2 H3 H4 H5 H6 H7 H8 H9].
  assert (Hdisj : bids s ∖ {[id]} ## asks s ∖ {[id]}).
  { apply elem_of_disjoint.
    intros x [Hx _]%elem_of_difference [Hy _]%elem_of_difference.
    exact (H5 x Hx Hy). }
  destruct (id =? bid_id s) eqn:Eb; [|destruct (id =? ask_id s) eqn:Ea];
    rewrite ?Z.eqb_eq, ?Z.eqb_neq in *; split; simpl; trivial.
  all: try (intros x [Hx _]%elem_of_difference; auto; fail).
  all: try (left; reflexivity).
  - (* the bid slot is cleared; the ask slot cannot hold the same id *)
    destruct H7 as [H7|H7]; [left; exact H7|].
    apply slot_survives; [|right; exact H7].
    intros E. destruct H6 as [H6|H6].
    + specialize (H4 _ H7). lia.
    + apply (H5 (ask_id s)); [|exact H7]. rewrite E, Eb. exact H6.
  - intros x [Hx Hne]%elem_of_difference.
    destruct (H8 x Hx) as [->|Hc]; [|right; exact Hc].
    exfalso. apply Hne, elem_of_singleton. congruence.
  - apply slot_survives; [congruence|exact H6].
  - intros x [Hx Hne]%elem_of_difference.
    destruct (H9 x Hx) as [->|Hc]; [|right; exact Hc].
    exfalso. apply Hne, elem_of_singleton. congruence.
  - apply slot_survives; [congruence|exact H6].
  - apply slot_survives; [congruence|exact H7].
Qed.

Lemma Inv_error (s : AutoTrader) (id : Z) (msg : list Byte.byte)
    (log : list Command) :
  Inv s log ->
  Inv (after (on_error_message s id msg)) (log ++ sent (on_error_message s id msg)).
Proof.
  intros HI. unfold on_error_message.
  destruct (py_decode msg) as [str|f]; [|apply Inv_no_command, HI].
  destruct (_ && _); [apply Inv_status, HI|apply Inv_no_command, HI].
Qed.

Lemma Inv_book (lib : Imports) (s : AutoTrader) (i n : Z) (ap av bp bv : list Z)
    (log : list Command) :
  Inv s log ->
  Inv (after (on_order_book_update_message lib s i n ap av bp bv))
      (log ++ sent (on_order_book_update_message lib s i n ap av bp bv)).
Proof.
  intros HI.
  destruct (book_quote lib s i ap av bp bv) as [[s2 q]|] eqn:E.
  - destruct (book_update_quoted lib s s2 q i n ap av bp bv E) as [-> Ho].
    cbn [after sent returned]. apply Inv_reconcile.
    apply (Inv_orders s s2); [symmetry; exact Ho|exact HI].
  - destruct (book_update_unquoted lib s i n ap av bp bv E) as [-> Ho].
    rewrite app_nil_r. apply (Inv_orders s); [symmetry; exact Ho|exact HI].
Qed.

Lemma Inv_dispatch (lib : Imports) (s : AutoTrader) (e : Event) (log : list Command) :
  Inv s log -> Inv (after (dispatch lib s e)) (log ++ sent (dispatch lib s e)).
Proof.
  intros HI. destruct e; simpl.
  - apply Inv_book, HI.
  - apply Inv_no_command, HI.
  - apply Inv_filled, HI.
  - apply Inv_status, HI.
  - apply Inv_no_command, HI.
  - apply Inv_error, HI.
Qed.

Lemma Inv_run_from (lib : Imports) (es : list Event) (s : AutoTrader)
    (log : list Command) :
  Inv s log ->
  Inv (fst (run_from lib s log es)) (snd (run_from lib s log es)).
Proof.
  revert s log. induction es as [|e es IH]; intros s log HI; simpl; [exact HI|].
  apply IH, Inv_dispatch, HI.
Qed.

Lemma Inv_run (lib : Imports) (es : list Event) :
  Inv (fst (run lib es)) (snd (run lib es)).
Proof. apply Inv_run_from, Inv_init. Qed.

(** ** The scenarios, run *)

Example steady_book_first :
  let r := run level_lib [steady_book] in
  snd r = [send_insert_order 1 BUY 9900 10 GOOD_FOR_DAY;
           send_insert_order 2 SELL 10300 10 GOOD_FOR_DAY]
  /\ (bid_id (fst r), bid_price (fst r), bid_ordered (fst r)) = (1, 9900, 10)
  /\ (ask_id (fst r), ask_price (fst r), ask_ordered (fst r)) = (2, 10300, 10)
  /\ history_mid (fst r) = [10100].
Proof. vm_compute. repeat split. Qed.

Example steady_book_second :
  snd (run level_lib [steady_book; steady_book])
  = [send_insert_order 1 BUY 9900 10 GOOD_FOR_DAY;
     send_insert_order 2 SELL 10300 10 GOOD_FOR_DAY;
     send_cancel_order 2;
     send_insert_order 3 SELL 10300 10 GOOD_FOR_DAY].
Proof. vm_compute. reflexivity. Qed.

(** ** C9: updates for another instrument *)

(** C9.  An order-book update whose instrument is not the FUTURE returns
    normally, leaves the session exactly as it was (every field) and sends
    nothing. *)
Theorem other_instrument_is_ignored (lib : Imports) (self : AutoTrader)
    (instrument sequence_number : Z)
    (ask_prices ask_volumes bid_prices bid_volumes : list Z) :
  instrument <> FUTURE lib ->
  on_order_book_update_message lib self instrument sequence_number
      ask_prices ask_volumes bid_prices bid_volumes
  = {| raised := None; after := self; sent := [] |}.
Proof.
  intros Hne. unfold on_order_book_update_message.
  apply Z.eqb_neq in Hne. rewrite Hne. reflexivity.
Qed.

Lemma other_instrument_is_ignored_example :
  1 <> FUTURE level_lib
  /\ on_order_book_update_message level_lib
       (fst (run level_lib [steady_book])) 1 7
       [10200; 10300; 10300; 10300; 10400] [5; 1; 1; 1; 5]
       [10000; 9900; 9900; 9900; 9800] [5; 1; 1; 1; 5]
     = {| raised := None; after := fst (run level_lib [steady_book]); sent := [] |}.
Proof.
  split; [discriminate|].
  apply (other_instrument_is_ignored level_lib). discriminate.
Defined.

(** ** C10: order ids *)

(** C10.  After any sequence of events the two tracking sets are disjoint,
    and the ids sent in insert and hedge commands are, in the order sent,
    1, 2, 3, ... up to the counter: strictly increasing, none twice. *)
Theorem order_ids_are_fresh (lib : Imports) (es : list Event) :
  let s := fst (run lib es) in
  let log := snd (run lib es) in
  bids s ## asks s
  /\ issued_ids log = count_from 1 (Z.to_nat (order_ids s - 1))
  /\ StronglySorted Z.lt (issued_ids log)
  /\ List.NoDup (issued_ids log).
Proof.
  cbv zeta. destruct (Inv_run lib es) as [H1 H2 H3 H4 H5 H6 H7 H8 H9].
  split; [exact H5|]. split; [exact H2|]. rewrite H2.
  split; [apply count_from_increasing|apply count_from_NoDup].
Qed.

(** ** C5: fills *)

Lemma MIN_BID_NEAREST_TICK_is_tick (lib : Imports) :
  (TICK_SIZE_IN_CENTS | MIN_BID_NEAREST_TICK lib)
  /\ MINIMUM_BID lib < MIN_BID_NEAREST_TICK lib
     <= MINIMUM_BID lib + TICK_SIZE_IN_CENTS.
Proof.
  unfold MIN_BID_NEAREST_TICK, TICK_SIZE_IN_CENTS. split.
  - apply Z.divide_factor_r.
  - pose proof (Z.div_mod (MINIMUM_BID lib + 100) 100 ltac:(lia)).
    pose proof (Z.mod_pos_bound (MINIMUM_BID lib + 100) 100 ltac:(lia)). lia.
Qed.

Lemma MAX_ASK_NEAREST_TICK_is_tick (lib : Imports) :
  (TICK_SIZE_IN_CENTS | MAX_ASK_NEAREST_TICK lib)
  /\ MAXIMUM_ASK lib - TICK_SIZE_IN_CENTS < MAX_ASK_NEAREST_TICK lib
     <= MAXIMUM_ASK lib.
Proof.
  unfold MAX_ASK_NEAREST_TICK, TICK_SIZE_IN_CENTS. split.
  - apply Z.divide_factor_r.
  - pose proof (Z.div_mod (MAXIMUM_ASK lib) 100 ltac:(lia)).
    pose proof (Z.mod_pos_bound (MAXIMUM_ASK lib) 100 ltac:(lia)). lia.
Qed.

(** C5.  In a session reached by any sequence of events, a fill for an id
    in the bid set adds the volume to the position, takes it from the bid
    pending volume and sends exactly one hedge, a sell of that volume at
    [MIN_BID_NEAREST_TICK]; a fill for an id in the ask set subtracts the
    volume from the position, takes it from the ask pending volume and
    sends exactly one hedge, a buy of that volume at
    [MAX_ASK_NEAREST_TICK]; a fill for any other id returns the session
    unchanged and sends nothing.  The two hedge prices are the multiples
    of the tick next above [MINIMUM_BID] and next below or at
    [MAXIMUM_ASK]. *)
Theorem fill_is_booked_and_hedged (lib : Imports) (es : list Event)
    (client_order_id price volume : Z) :
  let s := fst (run lib es) in
  let o := on_order_filled_message lib s client_order_id price volume in
  raised o = None
  /\ (client_order_id ∈ bids s ->
        position (after o) = position s + volume
        /\ bid_ordered (after o) = bid_ordered s - volume
        /\ ask_ordered (after o) = ask_ordered s
        /\ sent o = [send_hedge_order (order_ids s) SELL
                       (MIN_BID_NEAREST_TICK lib) volume])
  /\ (client_order_id ∈ asks s ->
        position (after o) = position s - volume
        /\ ask_ordered (after o) = ask_ordered s - volume
        /\ bid_ordered (after o) = bid_ordered s
        /\ sent o = [send_hedge_order (order_ids s) BUY
                       (MAX_ASK_NEAREST_TICK lib) volume])
  /\ (client_order_id ∉ bids s -> client_order_id ∉ asks s ->
        after o = s /\ sent o = [])
  /\ (TICK_SIZE_IN_CENTS | MIN_BID_NEAREST_TICK lib)
  /\ MINIMUM_BID lib < MIN_BID_NEAREST_TICK lib <= MINIMUM_BID lib + TICK_SIZE_IN_CENTS
  /\ (TICK_SIZE_IN_CENTS | MAX_ASK_NEAREST_TICK lib)
  /\ MAXIMUM_ASK lib - TICK_SIZE_IN_CENTS < MAX_ASK_NEAREST_TICK lib <= MAXIMUM_ASK lib.
Proof.
  cbv zeta. pose proof (inv_disjoint _ _ (Inv_run lib es)) as Hdisj.
  set (s := fst (run lib es)) in *.
  unfold on_order_filled_message.
  repeat split;
    try apply MIN_BID_NEAREST_TICK_is_tick; try apply MAX_ASK_NEAREST_TICK_is_tick.
  - destruct (bool_decide _); [|destruct (bool_decide _)]; reflexivity.
  - rewrite bool_decide_eq_true_2 by assumption. reflexivity.
  - rewrite bool_decide_eq_true_2 by assumption. reflexivity.
  - rewrite bool_decide_eq_true_2 by assumption. reflexivity.
  - rewrite bool_decide_eq_true_2 by assumption. reflexivity.
  - rewrite bool_decide_eq_false_2 by (intros Hb; exact (Hdisj _ Hb H)).
    rewrite bool_decide_eq_true_2 by assumption. reflexivity.
  - rewrite bool_decide_eq_false_2 by (intros Hb; exact (Hdisj _ Hb H)).
    rewrite bool_decide_eq_true_2 by assumption. reflexivity.
  - rewrite bool_decide_eq_false_2 by (intros Hb; exact (Hdisj _ Hb H)).
    rewrite bool_decide_eq_true_2 by assumption. reflexivity.
  - rewrite bool_decide_eq_false_2 by (intros Hb; exact (Hdisj _ Hb H)).
    rewrite bool_decide_eq_true_2 by assumption. reflexivity.
  - rewrite !bool_decide_eq_false_2 by assumption. reflexivity.
  - rewrite !bool_decide_eq_false_2 by assumption. reflexivity.
Qed.

(** The third scenario of the specification's list: ten lots filled on the
    tracked bid 1. *)
Lemma fill_is_booked_and_hedged_example :
  let s := fst (run level_lib [steady_book]) in
  let o := on_order_filled_message level_lib s 1 9900 10 in
  1 ∈ bids s
  /\ position (after o) = position s + 10
  /\ bid_ordered (after o) = bid_ordered s - 10
  /\ ask_ordered (after o) = ask_ordered s
  /\ sent o = [send_hedge_order (order_ids s) SELL (MIN_BID_NEAREST_TICK level_lib) 10].
Proof.
  cbv zeta.
  assert (Hin : 1 ∈ bids (fst (run level_lib [steady_book]))).
  { apply (bool_decide_unpack _). vm_compute. exact I. }
  split; [exact Hin|].
  exact (proj1 (proj2 (fill_is_booked_and_hedged level_lib [steady_book] 1 9900 10)) Hin).
Defined.

Example fill_hedge_commands :
  sent (on_order_filled_message level_lib (fst (run level_lib [steady_book])) 1 9900 10)
    = [send_hedge_order 3 SELL 100 10]
  /\ sent (on_order_filled_message level_lib (fst (run level_lib [steady_book])) 2 10300 4)
    = [send_hedge_order 3 BUY 2147483600 4].
Proof. vm_compute. split; reflexivity. Qed.

(** ** C2: how many orders a side tracks *)

(** C2, as stated, fails: the second of two identical books cancels the
    resting ask 2 and inserts the ask 3 in the same call; the cancelled id
    stays in [asks] until its status message arrives, so the set holds two
    ids. *)
Lemma two_asks_tracked_after_replace :
  elements (asks (fst (run level_lib [steady_book; steady_book]))) = [3; 2]
  /\ ~ (size (asks (fst (run level_lib [steady_book; steady_book]))) <= 1)%nat.
Proof.
  split.
  - vm_compute. reflexivity.
  - assert (E : size (asks (fst (run level_lib [steady_book; steady_book]))) = 2%nat)
      by (vm_compute; reflexivity).
    rewrite E. lia.
Qed.

(** C2, amended.  After any sequence of events each side has one order-id
    slot, which is 0 or a member of that side's tracking set, and every
    other id in the tracking set is an id for which a cancel has been sent
    (and whose closing status or error message has not arrived). *)
Theorem one_working_order_per_side (lib : Imports) (es : list Event) :
  let s := fst (run lib es) in
  let log := snd (run lib es) in
  (bid_id s = 0 \/ bid_id s ∈ bids s)
  /\ (ask_id s = 0 \/ ask_id s ∈ asks s)
  /\ (forall id, id ∈ bids s -> id <> bid_id s -> In (send_cancel_order id) log)
  /\ (forall id, id ∈ asks s -> id <> ask_id s -> In (send_cancel_order id) log).
Proof.
  cbv zeta. destruct (Inv_run lib es) as [H1 H2 H3 H4 H5 H6 H7 H8 H9].
  repeat split; trivial.
  - intros id Hid Hne. destruct (H8 id Hid); [contradiction|assumption].
  - intros id Hid Hne. destruct (H9 id Hid); [contradiction|assumption].
Qed.

Lemma one_working_order_per_side_example :
  let s := fst (run level_lib [steady_book; steady_book]) in
  let log := snd (run level_lib [steady_book; steady_book]) in
  2 ∈ asks s /\ 2 <> ask_id s /\ In (send_cancel_order 2) log.
Proof.
  cbv zeta.
  assert (Hin : 2 ∈ asks (fst (run level_lib [steady_book; steady_book]))).
  { apply (bool_decide_unpack _). vm_compute. exact I. }
  assert (Hne : 2 <> ask_id (fst (run level_lib [steady_book; steady_book]))).
  { vm_compute. discriminate. }
  split; [exact Hin|]. split; [exact Hne|].
  exact (proj2 (proj2 (proj2
           (one_working_order_per_side level_lib [steady_book; steady_book])))
           2 Hin Hne).
Defined.

(** ** C1: the position limit *)

(** C1, as stated, fails: nothing in the fill handler looks at the limit.
    The first book inserts the bid 1; a fill message for it with volume 100
    leaves the position at 100. *)
Lemma fill_can_pass_position_limit :
  position (fst (run level_lib [steady_book; OrderFilled 1 9900 100])) = 100
  /\ ~ within_position_limit
         (fst (run level_lib [steady_book; OrderFilled 1 9900 100])).
Proof.
  assert (E : position (fst (run level_lib [steady_book; OrderFilled 1 9900 100])) = 100)
    by (vm_compute; reflexivity).
  split; [exact E|].
  unfold within_position_limit, POSITION_LIMIT. rewrite E. lia.
Qed.

(** The same with no fill larger than the ten lots of its order: ten
    identical books leave the asks 2 to 11 tracked, the last one resting
    and the others with a cancel on its way; one message of ten lots
    for each takes the position to -100. *)
Lemma lot_sized_fills_can_pass_position_limit :
  let fills := map (fun id => OrderFilled id 10300 10) (count_from 2 10) in
  position (fst (run level_lib (repeat steady_book 10 ++ fills))) = -100.
Proof. vm_compute. reflexivity. Qed.

(** *** What each of the four steps of lines 208-231 does *)

Lemma not_both_true (a b : bool) :
  negb a || negb b = true <-> ~ (a = true /\ b = true).
Proof. destruct a, b; simpl; intuition congruence. Qed.

Lemma insert_bid_spec (s : AutoTrader) (q : Quote) :
  (bid_insert_guard s q
   /\ snd (insert_bid s q)
      = [send_insert_order (order_ids s) BUY (new_bid_price q) LOT_SIZE GOOD_FOR_DAY]
   /\ position (fst (insert_bid s q)) = position s
   /\ bid_ordered (fst (insert_bid s q)) = bid_ordered s + LOT_SIZE
   /\ ask_ordered (fst (insert_bid s q)) = ask_ordered s
   /\ ask_id (fst (insert_bid s q)) = ask_id s)
  \/ (~ bid_insert_guard s q /\ insert_bid s q = (s, [])).
Proof.
  unfold insert_bid, bid_insert_guard.
  destruct (bid_id s =? 0) eqn:E1; [apply Z.eqb_eq in E1|apply Z.eqb_neq in E1];
    [|right; split; [tauto|reflexivity]].
  destruct (new_bid_price q =? 0) eqn:E2; [apply Z.eqb_eq in E2|apply Z.eqb_neq in E2];
    [right; split; [tauto|reflexivity]|].
  destruct (bid_ordered s + position s + LOT_SIZE <? POSITION_LIMIT) eqn:E3;
    [apply Z.ltb_lt in E3|apply Z.ltb_ge in E3];
    [|right; split; [lia|reflexivity]].
  destruct (negb (deviation_bid q) || negb (over_bought_rsi q)) eqn:E4.
  - left. apply not_both_true in E4. cbn [andb negb fst snd]. repeat split; trivial.
  - right. split; [|reflexivity]. intros (_ & _ & _ & H).
    apply not_both_true in H. congruence.
Qed.

Lemma insert_ask_spec (s : AutoTrader) (q : Quote) :
  (ask_insert_guard s q
   /\ snd (insert_ask s q)
      = [send_insert_order (order_ids s) SELL (new_ask_price q) LOT_SIZE GOOD_FOR_DAY]
   /\ position (fst (insert_ask s q)) = position s
   /\ ask_ordered (fst (insert_ask s q)) = ask_ordered s + LOT_SIZE
   /\ bid_ordered (fst (insert_ask s q)) = bid_ordered s
   /\ bid_id (fst (insert_ask s q)) = bid_id s)
  \/ (~ ask_insert_guard s q /\ insert_ask s q = (s, [])).
Proof.
  unfold insert_ask, ask_insert_guard.
  destruct (ask_id s =? 0) eqn:E1; [apply Z.eqb_eq in E1|apply Z.eqb_neq in E1];
    [|right; split; [tauto|reflexivity]].
  destruct (new_ask_price q =? 0) eqn:E2; [apply Z.eqb_eq in E2|apply Z.eqb_neq in E2];
    [right; split; [tauto|reflexivity]|].
  destruct (-1 * POSITION_LIMIT <? position s - ask_ordered s - LOT_SIZE) eqn:E3;
    [apply Z.ltb_lt in E3|apply Z.ltb_ge in E3];
    [|right; split; [unfold POSITION_LIMIT in *; lia|reflexivity]].
  destruct (negb (deviation_ask q) || negb (over_sold_rsi q)) eqn:E4.
  - left. apply not_both_true in E4. cbn [andb negb fst snd].
    unfold POSITION_LIMIT in *. repeat split; trivial; lia.
  - right. split; [|reflexivity]. intros (_ & _ & _ & H).
    apply not_both_true in H. congruence.
Qed.

Lemma replace_bid_spec (s : AutoTrader) (q : Quote) :
  (bid_id s <> 0 /\ new_bid_price q <> 0
   /\ outside_band (new_bid_price q) (bid_price s) (grad_bid q) = true
   /\ replace_bid s q
      = (set_bid_ordered 10 (set_bid_id 0 s), [send_cancel_order (bid_id s)]))
  \/ (~ (bid_id s <> 0 /\ new_bid_price q <> 0
         /\ outside_band (new_bid_price q) (bid_price s) (grad_bid q) = true)
      /\ replace_bid s q = (s, [])).
Proof.
  unfold replace_bid.
  destruct (bid_id s =? 0) eqn:E1; [apply Z.eqb_eq in E1|apply Z.eqb_neq in E1];
    [right; split; [tauto|reflexivity]|].
  destruct (new_bid_price q =? 0) eqn:E2; [apply Z.eqb_eq in E2|apply Z.eqb_neq in E2];
    [right; split; [tauto|reflexivity]|].
  destruct (outside_band _ _ _) eqn:E3; cbn [andb negb].
  - left. repeat split; trivial.
  - right. split; [|reflexivity]. intros (_ & _ & H). congruence.
Qed.

Lemma replace_ask_spec (s : AutoTrader) (q : Quote) :
  (ask_id s <> 0 /\ new_ask_price q <> 0
   /\ outside_band (new_bid_price q) (ask_price s) (grad_ask q) = true
   /\ replace_ask s q
      = (set_ask_ordered 10 (set_ask_id 0 s), [send_cancel_order (ask_id s)]))
  \/ (~ (ask_id s <> 0 /\ new_ask_price q <> 0
         /\ outside_band (new_bid_price q) (ask_price s) (grad_ask q) = true)
      /\ replace_ask s q = (s, [])).
Proof.
  unfold replace_ask.
  destruct (ask_id s =? 0) eqn:E1; [apply Z.eqb_eq in E1|apply Z.eqb_neq in E1];
    [right; split; [tauto|reflexivity]|].
  destruct (new_ask_price q =? 0) eqn:E2; [apply Z.eqb_eq in E2|apply Z.eqb_neq in E2];
    [right; split; [tauto|reflexivity]|].
  destruct (outside_band _ _ _) eqn:E3; cbn [andb negb].
  - left. repeat split; trivial.
  - right. split; [|reflexivity]. intros (_ & _ & H). congruence.
Qed.

Lemma replace_sends_cancels_only (s : AutoTrader) (q : Quote) (c : Command) :
  In c (snd (replace_bid s q) ++ snd (replace_ask (fst (replace_bid s q)) q)) ->
  exists id, c = send_cancel_order id.
Proof.
  intros [H|H]%in_app_or.
  - destruct (replace_bid_spec s q) as [(_ & _ & _ & E)|(_ & E)];
      rewrite E in H; simpl in H; [|tauto].
    destruct H as [<-|[]]. eauto.
  - destruct (replace_ask_spec (fst (replace_bid s q)) q) as [(_ & _ & _ & E)|(_ & E)];
      rewrite E in H; simpl in H; [|tauto].
    destruct H as [<-|[]]. eauto.
Qed.

(** C1, amended.  Whenever a book update sends a buy insert, the session
    in which line 218 was evaluated had position + bid pending + one lot
    strictly below [POSITION_LIMIT]; whenever it sends a sell insert, the
    session in which line 226 was evaluated had position - ask pending -
    one lot strictly above [-POSITION_LIMIT].  In both cases the call
    leaves the position as it was and the pending volume one lot higher.
    (Nothing is said about the position after fills: the fill handler adds
    or subtracts the volume it is told.) *)
Theorem insert_respects_position_limit (lib : Imports) (self : AutoTrader)
    (i n : Z) (ap av bp bv : list Z) (id p v : Z) (l : Lifespan) :
  let o := on_order_book_update_message lib self i n ap av bp bv in
  (In (send_insert_order id BUY p v l) (sent o) ->
   exists s2 q,
     book_quote lib self i ap av bp bv = Some (s2, q)
     /\ let s := fst (replace_ask (fst (replace_bid s2 q)) q) in
        position s + bid_ordered s + LOT_SIZE < POSITION_LIMIT
        /\ position (after o) = position s
        /\ bid_ordered (after o) = bid_ordered s + LOT_SIZE)
  /\ (In (send_insert_order id SELL p v l) (sent o) ->
      exists s2 q,
        book_quote lib self i ap av bp bv = Some (s2, q)
        /\ let s := fst (insert_bid (fst (replace_ask (fst (replace_bid s2 q)) q)) q) in
           - POSITION_LIMIT < position s - ask_ordered s - LOT_SIZE
           /\ position (after o) = position s
           /\ ask_ordered (after o) = ask_ordered s + LOT_SIZE).
Proof.
  cbv zeta.
  destruct (book_quote lib self i ap av bp bv) as [[s2 q]|] eqn:E.
  2: { destruct (book_update_unquoted lib self i n ap av bp bv E) as [-> _].
       split; intros []. }
  destruct (book_update_quoted lib self s2 q i n ap av bp bv E) as [-> _].
  cbn [sent after returned]. unfold reconcile. cbn [fst snd].
  set (s := fst (replace_ask (fst (replace_bid s2 q)) q)).
  rewrite app_assoc.
  split; intros H; exists s2, q; (split; [reflexivity|]); fold s.
  - apply in_app_or in H. destruct H as [H|H].
    { apply replace_sends_cancels_only in H. destruct H as [x H]. discriminate. }
    destruct (insert_bid_spec s q) as [(G & Ec & Hp & Hb & _)|(_ & Ec)];
      rewrite Ec in H; cbn [fst snd app] in H.
    + destruct (insert_ask_spec (fst (insert_bid s q)) q)
        as [(_ & _ & Hp' & _ & Hb' & _)|(_ & Ec')].
      * rewrite Hp', Hb', Hp, Hb. destruct G as (_ & _ & G & _). lia.
      * rewrite Ec'. cbn [fst]. rewrite Hp, Hb. destruct G as (_ & _ & G & _). lia.
    + destruct (insert_ask_spec s q) as [(_ & Ec' & _)|(_ & Ec')];
        rewrite Ec' in H; cbn [snd] in H; [|destruct H].
      destruct H as [H|[]]. discriminate.
  - apply in_app_or in H. destruct H as [H|H].
    { apply replace_sends_cancels_only in H. destruct H as [x H]. discriminate. }
    apply in_app_or in H. destruct H as [H|H].
    { destruct (insert_bid_spec s q) as [(_ & Ec & _)|(_ & Ec)];
        rewrite Ec in H; cbn [snd] in H; [|destruct H].
      destruct H as [H|[]]. discriminate. }
    destruct (insert_ask_spec (fst (insert_bid s q)) q)
      as [(G & _ & Hp' & Ha' & _)|(_ & Ec')].
    + rewrite Hp', Ha'. destruct G as (_ & _ & G & _). lia.
    + rewrite Ec' in H. destruct H.
Qed.

Lemma insert_respects_position_limit_example :
  let o := on_order_book_update_message level_lib init 0 1
             [10200; 10300; 10300; 10300; 10400] [5; 1; 1; 1; 5]
             [10000; 9900; 9900; 9900; 9800] [5; 1; 1; 1; 5] in
  In (send_insert_order 1 BUY 9900 10 GOOD_FOR_DAY) (sent o)
  /\ exists s2 q,
       book_quote level_lib init 0
         [10200; 10300; 10300; 10300; 10400] [5; 1; 1; 1; 5]
         [10000; 9900; 9900; 9900; 9800] [5; 1; 1; 1; 5] = Some (s2, q)
       /\ let s := fst (replace_ask (fst (replace_bid s2 q)) q) in
          position s + bid_ordered s + LOT_SIZE < POSITION_LIMIT
          /\ position (after o) = position s
          /\ bid_ordered (after o) = bid_ordered s + LOT_SIZE.
Proof.
  cbv zeta.
  assert (Hin : In (send_insert_order 1 BUY 9900 10 GOOD_FOR_DAY)
                   (sent (on_order_book_update_message level_lib init 0 1
                      [10200; 10300; 10300; 10300; 10400] [5; 1; 1; 1; 5]
                      [10000; 9900; 9900; 9900; 9800] [5; 1; 1; 1; 5]))).
  { vm_compute. left. reflexivity. }
  split; [exact Hin|].
  exact (proj1 (insert_respects_position_limit level_lib init 0 1
                  [10200; 10300; 10300; 10300; 10400] [5; 1; 1; 1; 5]
                  [10000; 9900; 9900; 9900; 9800] [5; 1; 1; 1; 5]
                  1 9900 10 GOOD_FOR_DAY) Hin).
Defined.

(** ** C7: the deviation guard *)

Lemma reconcile_sends_buy (s2 : AutoTrader) (q : Quote) :
  sends_insert BUY (snd (reconcile s2 q)) <-> bid_insert_guard (at_bid_insert s2 q) q.
Proof.
  unfold reconcile, sends_insert. cbn [fst snd]. fold (at_bid_insert s2 q).
  set (s := at_bid_insert s2 q). rewrite app_assoc. split.
  - intros (id & p & v & l & H).
    apply in_app_or in H. destruct H as [H|H].
    { apply replace_sends_cancels_only in H. destruct H as [x H]. discriminate. }
    destruct (insert_bid_spec s q) as [(G & _)|(_ & Ec)]; [exact G|].
    rewrite Ec in H. cbn [fst snd app] in H.
    destruct (insert_ask_spec s q) as [(_ & Ec' & _)|(_ & Ec')];
      rewrite Ec' in H; cbn [snd] in H; [|destruct H].
    destruct H as [H|[]]. discriminate.
  - intros G. destruct (insert_bid_spec s q) as [(_ & Ec & _)|(NG & _)]; [|tauto].
    exists (order_ids s), (new_bid_price q), LOT_SIZE, GOOD_FOR_DAY.
    apply in_or_app. right. apply in_or_app. left. rewrite Ec. left. reflexivity.
Qed.

Lemma reconcile_sends_sell (s2 : AutoTrader) (q : Quote) :
  sends_insert SELL (snd (reconcile s2 q)) <-> ask_insert_guard (at_ask_insert s2 q) q.
Proof.
  unfold reconcile, sends_insert. cbn [fst snd].
  fold (at_bid_insert s2 q). fold (at_ask_insert s2 q).
  set (s := at_ask_insert s2 q). rewrite app_assoc. split.
  - intros (id & p & v & l & H).
    apply in_app_or in H. destruct H as [H|H].
    { apply replace_sends_cancels_only in H. destruct H as [x H]. discriminate. }
    apply in_app_or in H. destruct H as [H|H].
    { destruct (insert_bid_spec (at_bid_insert s2 q) q) as [(_ & Ec & _)|(_ & Ec)];
        rewrite Ec in H; cbn [snd] in H; [|destruct H].
      destruct H as [H|[]]. discriminate. }
    destruct (insert_ask_spec s q) as [(G & _)|(_ & Ec')]; [exact G|].
    rewrite Ec' in H. destruct H.
  - intros G. destruct (insert_ask_spec s q) as [(_ & Ec & _)|(NG & _)]; [|tauto].
    exists (order_ids s), (new_ask_price q), LOT_SIZE, GOOD_FOR_DAY.
    apply in_or_app. right. apply in_or_app. right. rewrite Ec. left. reflexivity.
Qed.

(** C7, as stated, fails.  After the first book and a closing status for
    the bid 1 the bid side is idle; the same book again gives a bid target
    of 9900 with the bid deviation flag set (9900 + 0 <= 9900) and the RSI
    unknown; the bid 3 is inserted all the same. *)
Lemma deviation_alone_does_not_veto :
  let s1 := fst (run level_lib [steady_book; OrderStatus 1 0 0 0]) in
  bid_id s1 = 0
  /\ option_map (fun sq => (bid_id (at_bid_insert (fst sq) (snd sq)),
                            new_bid_price (snd sq),
                            deviation_bid (snd sq),
                            over_bought_rsi (snd sq)))
       (book_quote level_lib s1 0
          [10200; 10300; 10300; 10300; 10400] [5; 1; 1; 1; 5]
          [10000; 9900; 9900; 9900; 9800] [5; 1; 1; 1; 5])
     = Some (0, 9900, true, false)
  /\ sent (dispatch level_lib s1 steady_book)
     = [send_cancel_order 2;
        send_insert_order 3 BUY 9900 10 GOOD_FOR_DAY;
        send_insert_order 4 SELL 10300 10 GOOD_FOR_DAY].
Proof. vm_compute. repeat split. Qed.

(** C7, amended.  On a book update that reaches the order logic: if at
    line 218 the bid side is idle, the bid target is not 0 and one more lot
    stays within the limit, then no buy insert is sent exactly when the bid
    deviation flag and the RSI overbought flag both hold; if at line 226
    the ask side is idle, the ask target is not 0 and one more lot stays
    within the limit, then no sell insert is sent exactly when the ask
    deviation flag and the RSI oversold flag both hold. *)
Theorem deviation_vetoes_only_with_rsi (lib : Imports) (self s2 : AutoTrader)
    (q : Quote) (i n : Z) (ap av bp bv : list Z) :
  book_quote lib self i ap av bp bv = Some (s2, q) ->
  let o := on_order_book_update_message lib self i n ap av bp bv in
  let sb := at_bid_insert s2 q in
  let sa := at_ask_insert s2 q in
  (bid_id sb = 0 -> new_bid_price q <> 0 ->
   bid_ordered sb + position sb + LOT_SIZE < POSITION_LIMIT ->
   (~ sends_insert BUY (sent o)
    <-> deviation_bid q = true /\ over_bought_rsi q = true))
  /\ (ask_id sa = 0 -> new_ask_price q <> 0 ->
      - POSITION_LIMIT < position sa - ask_ordered sa - LOT_SIZE ->
      (~ sends_insert SELL (sent o)
       <-> deviation_ask q = true /\ over_sold_rsi q = true)).
Proof.
  intros E. cbv zeta.
  destruct (book_update_quoted lib self s2 q i n ap av bp bv E) as [-> _].
  cbn [sent returned].
  rewrite reconcile_sends_buy, reconcile_sends_sell.
  unfold bid_insert_guard, ask_insert_guard.
  split; intros H1 H2 H3.
  - destruct (deviation_bid q), (over_bought_rsi q); intuition congruence.
  - destruct (deviation_ask q), (over_sold_rsi q); intuition congruence.
Qed.

Lemma deviation_vetoes_only_with_rsi_example :
  ~ sends_insert BUY
      (sent (on_order_book_update_message level_lib idle_bid_session 0 1
               [10200; 10300; 10300; 10300; 10400] [5; 1; 1; 1; 5]
               [10000; 9900; 9900; 9900; 9800] [5; 1; 1; 1; 5]))
  <-> deviation_bid (snd idle_bid_quote) = true
      /\ over_bought_rsi (snd idle_bid_quote) = true.
Proof.
  refine (proj1 (deviation_vetoes_only_with_rsi level_lib idle_bid_session
                   (fst idle_bid_quote) (snd idle_bid_quote) 0 1
                   [10200; 10300; 10300; 10300; 10400] [5; 1; 1; 1; 5]
                   [10000; 9900; 9900; 9900; 9800] [5; 1; 1; 1; 5] _) _ _ _).
  - vm_compute. reflexivity.
  - vm_compute. reflexivity.
  - vm_compute. discriminate.
  - vm_compute. reflexivity.
Defined.

(** ** C4: the replace check *)

(** C4, the program at the failing input.  After the first book the ask 2
    rests at 10300.  The same book again gives an ask target of 10300 and
    an ask gradient of 0: the ask target is inside the ask's band.  The
    ask is cancelled all the same, because line 212 holds the bid target,
    9900, against the band. *)
Theorem ask_replace_compares_bid_target :
  let s2 := fst steady_quote in
  let q := snd steady_quote in
  (ask_id s2, ask_price s2) = (2, 10300)
  /\ (new_bid_price q, new_ask_price q) = (9900, 10300)
  /\ (grad_ask q == 0)%Q
  /\ outside_band (new_ask_price q) (ask_price s2) (grad_ask q) = false
  /\ outside_band (new_bid_price q) (ask_price s2) (grad_ask q) = true
  /\ sent (dispatch level_lib steady_session steady_book)
     = [send_cancel_order 2; send_insert_order 3 SELL 10300 10 GOOD_FOR_DAY].
Proof. vm_compute. repeat split. Qed.

(** What the two cancel steps do in general: the bid side holds its own
    target against its own band, the ask side holds the bid target against
    the ask's band. *)
Lemma replace_decisions (s : AutoTrader) (q : Quote) :
  (snd (replace_bid s q) = [send_cancel_order (bid_id s)]
   <-> bid_id s <> 0 /\ new_bid_price q <> 0
       /\ outside_band (new_bid_price q) (bid_price s) (grad_bid q) = true)
  /\ (snd (replace_ask s q) = [send_cancel_order (ask_id s)]
      <-> ask_id s <> 0 /\ new_ask_price q <> 0
          /\ outside_band (new_bid_price q) (ask_price s) (grad_ask q) = true).
Proof.
  split.
  - destruct (replace_bid_spec s q) as [(H1 & H2 & H3 & E)|(H & E)]; rewrite E;
      cbn [snd]; split; trivial; try tauto. discriminate.
  - destruct (replace_ask_spec s q) as [(H1 & H2 & H3 & E)|(H & E)]; rewrite E;
      cbn [snd]; split; trivial; try tauto. discriminate.
Qed.

(** ** The price model does not depend on the order logic or the imports *)

Lemma signals_record_sample (s s' : AutoTrader) (vbid vask vmid : Z) :
  signals s = signals s' ->
  signals (record_sample s vbid vask vmid) = signals (record_sample s' vbid vask vmid).
Proof.
  unfold signals. intros [= E1 E2 E3 E4 E5].
  unfold record_sample.
  cbn [history_vbid history_vask history_mid gain loss
       set_history_vbid set_history_vask set_history_mid].
  rewrite E1, E2, E3.
  destruct (15 <? _);
    cbn [history_vbid history_vask history_mid gain loss
         set_history_vbid set_history_vask set_history_mid];
    congruence.
Qed.

Lemma signals_update_rsi (s s' : AutoTrader) (vmid : Z) :
  signals s = signals s' ->
  signals (fst (update_rsi s vmid)) = signals (fst (update_rsi s' vmid))
  /\ snd (update_rsi s vmid) = snd (update_rsi s' vmid).
Proof.
  unfold signals. intros [= E1 E2 E3 E4 E5].
  unfold update_rsi, store_averages. rewrite E3, E4.
  destruct (10 <? _); [|cbn [fst snd]; split; congruence].
  destruct (Qeq_bool _ _).
  - destruct (seed_totals _ _); cbn [bind fst snd]; [|split; congruence].
    unfold rsi_of.
    cbn [history_vbid history_vask history_mid gain loss set_gain set_loss].
    split; congruence.
  - destruct (py_index _ _); cbn [bind fst snd]; [|split; congruence].
    unfold rsi_of.
    cbn [history_vbid history_vask history_mid gain loss set_gain set_loss].
    rewrite E5. split; congruence.
Qed.

Lemma signals_reconcile (s : AutoTrader) (q : Quote) :
  signals (fst (reconcile s q)) = signals s.
Proof.
  unfold reconcile. cbn [fst].
  assert (H1 : forall t, signals (fst (replace_bid t q)) = signals t)
    by (intros t; unfold replace_bid; destruct (_ && _); reflexivity).
  assert (H2 : forall t, signals (fst (replace_ask t q)) = signals t)
    by (intros t; unfold replace_ask; destruct (_ && _); reflexivity).
  assert (H3 : forall t, signals (fst (insert_bid t q)) = signals t)
    by (intros t; unfold insert_bid; destruct (_ && _); reflexivity).
  assert (H4 : forall t, signals (fst (insert_ask t q)) = signals t)
    by (intros t; unfold insert_ask; destruct (_ && _); reflexivity).
  rewrite H4, H3, H2, H1. reflexivity.
Qed.

Lemma signals_book (lib lib' : Imports) (s s' : AutoTrader) (b : Book) :
  signals s = signals s' ->
  signals (after (dispatch lib s (future_book lib b)))
  = signals (after (dispatch lib' s' (future_book lib' b))).
Proof.
  intros E. destruct b as [[[ap av] bp] bv].
  unfold future_book, dispatch, on_order_book_update_message.
  rewrite !Z.eqb_refl.
  destruct (py_index bp 0) as [b0|f]; [|exact E].
  destruct (negb (b0 =? 0)); [|exact E].
  destruct (weighted_prices ap av bp bv) as [[[vbid vask] vmid]|f]; [|exact E].
  destruct (signals_update_rsi _ _ vmid
              (signals_record_sample s s' vbid vask vmid E)) as [Hs Hr].
  destruct (update_rsi (record_sample s vbid vask vmid) vmid) as [t r].
  destruct (update_rsi (record_sample s' vbid vask vmid) vmid) as [t' r'].
  cbn [fst snd] in Hs, Hr. subst r'.
  destruct r as [[[rsi ob] os]|f]; [|exact Hs].
  destruct (quote_model lib t vbid vask ap bp rsi ob os);
    destruct (quote_model lib' t' vbid vask ap bp rsi ob os);
    cbn [after returned failed]; rewrite ?signals_reconcile; exact Hs.
Qed.

Lemma signals_books (lib lib' : Imports) (bs : list Book)
    (s s' : AutoTrader) (log log' : list Command) :
  signals s = signals s' ->
  signals (fst (run_from lib s log (map (future_book lib) bs)))
  = signals (fst (run_from lib' s' log' (map (future_book lib') bs))).
Proof.
  revert s s' log log'. induction bs as [|b bs IH]; intros s s' log log' E.
  - exact E.
  - cbn [map run_from]. apply IH. apply signals_book. exact E.
Qed.

(** An exception of the RSI block is the exception of the call. *)
Lemma book_raises_with_rsi (lib : Imports) (s : AutoTrader) (b : Book) (f : Fault) :
  (exists b0 vbid vask vmid,
     py_index (snd (fst b)) 0 = Ok b0 /\ b0 <> 0
     /\ weighted_prices (fst (fst (fst b))) (snd (fst (fst b))) (snd (fst b)) (snd b)
        = Ok (vbid, vask, vmid)
     /\ snd (update_rsi (record_sample s vbid vask vmid) vmid) = Raise f) ->
  raised (dispatch lib s (future_book lib b)) = Some f.
Proof.
  destruct b as [[[ap av] bp] bv]. cbn [fst snd].
  intros (b0 & vbid & vask & vmid & E0 & Hne & Ew & Er).
  unfold future_book, dispatch, on_order_book_update_message.
  rewrite Z.eqb_refl, E0. apply Z.eqb_neq in Hne. rewrite Hne. cbn [negb].
  rewrite Ew.
  destruct (update_rsi (record_sample s vbid vask vmid) vmid) as [t r].
  cbn [snd] in Er. subst r. reflexivity.
Qed.

(** ** C3: division by zero *)

Lemma after_ten_steady_signals (lib : Imports) :
  signals (after_ten_steady lib) = signals (after_ten_steady level_lib).
Proof. unfold after_ten_steady, run. apply signals_books. reflexivity. Qed.

Lemma book_raised_sends_nothing (lib : Imports) (s : AutoTrader) (e : Event) (f : Fault) :
  raised (dispatch lib s e) = Some f -> sent (dispatch lib s e) = [].
Proof.
  destruct e as [i n ap av bp bv| | | | |]; cbn [dispatch].
  - destruct (book_quote lib s i ap av bp bv) as [[s2 q]|] eqn:E.
    + destruct (book_update_quoted lib s s2 q i n ap av bp bv E) as [-> _].
      discriminate.
    + intros _. apply (book_update_unquoted lib s i n ap av bp bv E).
  - discriminate.
  - unfold on_order_filled_message.
    destruct (bool_decide _); [|destruct (bool_decide _)]; discriminate.
  - unfold on_order_status_message. destruct (_ =? _); discriminate.
  - discriminate.
  - unfold on_error_message, on_order_status_message.
    destruct (py_decode _); [|reflexivity].
    destruct (_ && _); [destruct (_ =? _)|]; discriminate.
Qed.

(** In general: a FUTURE book with a bid touch and no volume on the bid
    levels 1 to 3 raises, whatever the session. *)
Lemma zero_bid_volume_raises (lib : Imports) (self : AutoTrader) (n : Z)
    (ap av bp bv : list Z) (b0 : Z) :
  (4 <= length ap)%nat -> (4 <= length av)%nat ->
  (4 <= length bp)%nat -> (4 <= length bv)%nat ->
  py_index bp 0 = Ok b0 -> b0 <> 0 ->
  py_sum (py_slice bv 1 4) = 0 ->
  on_order_book_update_message lib self (FUTURE lib) n ap av bp bv
  = {| raised := Some ZeroDivisionError; after := self; sent := [] |}.
Proof.
  intros Hap Hav Hbp Hbv E0 Hne Hsum.
  unfold on_order_book_update_message. rewrite Z.eqb_refl, E0.
  apply Z.eqb_neq in Hne. rewrite Hne. cbn [negb].
  assert (W : weighted_prices ap av bp bv = Raise ZeroDivisionError).
  { unfold weighted_prices.
    destruct ap as [|a0 [|a1 [|a2 [|a3 ap]]]]; try (simpl in Hap; lia).
    destruct av as [|x0 [|x1 [|x2 [|x3 av]]]]; try (simpl in Hav; lia).
    destruct bp as [|p0 [|p1 [|p2 [|p3 bp]]]]; try (simpl in Hbp; lia).
    destruct bv as [|v0 [|v1 [|v2 [|v3 bv]]]]; try (simpl in Hbv; lia).
    assert (F : forall (l : list Z) y0 y1 y2 y3,
               py_index (y0 :: y1 :: y2 :: y3 :: l) 1 = Ok y1
               /\ py_index (y0 :: y1 :: y2 :: y3 :: l) 2 = Ok y2
               /\ py_index (y0 :: y1 :: y2 :: y3 :: l) 3 = Ok y3
               /\ py_index (y0 :: y1 :: y2 :: y3 :: l) 0 = Ok y0).
    { intros l y0 y1 y2 y3. unfold py_index.
      assert (L : forall k, 0 <= k < 4 ->
                 (Z.of_nat (length (y0 :: y1 :: y2 :: y3 :: l)) <=? k) = false)
        by (intros k Hk; apply Z.leb_gt; cbn [length]; lia).
      repeat split; cbn [Z.ltb Z.compare orb]; rewrite L by lia; reflexivity. }
    unfold for_range. change (Z.to_nat (4 - 1)) with 3%nat.
    cbn [for_loop]. change (1 + 1) with 2. change (2 + 1) with 3.
    destruct (F ap a0 a1 a2 a3) as (A1 & A2 & A3 & _).
    destruct (F av x0 x1 x2 x3) as (X1 & X2 & X3 & _).
    destruct (F bp p0 p1 p2 p3) as (P1 & P2 & P3 & P0).
    destruct (F bv v0 v1 v2 v3) as (V1 & V2 & V3 & _).
    rewrite P0 in E0. injection E0 as ->.
    repeat (cbn [bind fst snd];
            first [rewrite A1|rewrite A2|rewrite A3|rewrite X1|rewrite X2|rewrite X3
                  |rewrite P1|rewrite P2|rewrite P3|rewrite P0
                  |rewrite V1|rewrite V2|rewrite V3]).
    cbn [bind fst snd]. rewrite Hne. cbn [negb].
    rewrite Hsum. reflexivity. }
  rewrite W. reflexivity.
Qed.

(** In general: a stored average loss of 0 makes line 140 raise. *)
Lemma zero_loss_raises (s : AutoTrader) :
  (loss s == 0)%Q -> rsi_of s = Raise ZeroDivisionError.
Proof.
  intros H. unfold rsi_of, true_div.
  apply Qeq_bool_iff in H. rewrite H. reflexivity.
Qed.

(** C3, the program at two failing inputs, whatever the imports are.
    (1) A first book with no volume on levels 1 to 3: line 97 divides by
    the zero sum and the call raises [ZeroDivisionError]; the session is
    untouched.  (2) The eleventh of eleven identical books: the RSI is
    seeded with an average loss of 0, line 140 divides by it and the call
    raises [ZeroDivisionError], with the two averages already stored. *)
Theorem zero_denominators_raise (lib : Imports) :
  dispatch lib init (future_book lib thin_levels)
    = {| raised := Some ZeroDivisionError; after := init; sent := [] |}
  /\ raised (dispatch lib (after_ten_steady lib) (future_book lib steady_levels))
     = Some ZeroDivisionError
  /\ sent (dispatch lib (after_ten_steady lib) (future_book lib steady_levels)) = []
  /\ (loss (after (dispatch lib (after_ten_steady lib) (future_book lib steady_levels)))
      == 0)%Q.
Proof.
  split.
  { unfold future_book, thin_levels, dispatch, on_order_book_update_message.
    rewrite Z.eqb_refl. reflexivity. }
  assert (Hr : snd (update_rsi (record_sample (after_ten_steady lib) 9900 10300 10100)
                      10100) = Raise ZeroDivisionError).
  { destruct (signals_update_rsi _ _ 10100
                (signals_record_sample _ _ 9900 10300 10100
                   (after_ten_steady_signals lib))) as [_ ->].
    vm_compute. reflexivity. }
  assert (Hraise : raised (dispatch lib (after_ten_steady lib)
                             (future_book lib steady_levels))
                   = Some ZeroDivisionError).
  { apply book_raises_with_rsi.
    exists 10000, 9900, 10300, 10100.
    split; [reflexivity|]. split; [discriminate|]. split; [reflexivity|exact Hr]. }
  split; [exact Hraise|].
  split; [exact (book_raised_sends_nothing _ _ _ _ Hraise)|].
  assert (Hsig : signals (after (dispatch lib (after_ten_steady lib)
                                   (future_book lib steady_levels)))
                 = signals (after (dispatch level_lib (after_ten_steady level_lib)
                                     (future_book level_lib steady_levels)))).
  { apply signals_book. apply after_ten_steady_signals. }
  set (o := dispatch lib (after_ten_steady lib) (future_book lib steady_levels)) in *.
  clearbody o.
  rewrite (f_equal snd Hsig : loss (after o) = _).
  vm_compute. reflexivity.
Qed.

(** ** C6: the RSI against the reference *)

Lemma after_sample_mids_signals (lib : Imports) :
  signals (after_sample_mids lib) = signals (after_sample_mids level_lib).
Proof. unfold after_sample_mids, run. apply signals_books. reflexivity. Qed.

(** The later updates (lines 131-139) do follow the reference: one
    smoothing step on the one-step move from the previous sample. *)
Lemma smoothing_step_is_wilder (s : AutoTrader) (vmid prev : Z) :
  Qeq_bool (gain s) (-1) = false ->
  py_index (history_mid s) (-2) = Ok prev ->
  exists s',
    store_averages s vmid = Ok s'
    /\ (gain s', loss s') = wilder_smooth (gain s, loss s) (vmid - prev).
Proof.
  intros Hg Hp. unfold store_averages. rewrite Hg, Hp. cbn [bind].
  eexists. split; [reflexivity|].
  cbn [gain loss set_gain set_loss]. unfold wilder_smooth, upward, downward.
  cbn [fst snd].
  destruct (0 <? vmid - prev) eqn:E; [apply Z.ltb_lt in E|apply Z.ltb_ge in E].
  - rewrite Z.max_l by lia. rewrite Z.max_r by lia. reflexivity.
  - rewrite Z.max_r by lia. rewrite Z.max_l by lia.
    rewrite Z.abs_neq by lia. reflexivity.
Qed.

(** C6, the program at the failing input, whatever the imports are.  After
    the eleven books the mid series is [sample_mids] and the session holds
    an average gain of 90 and an average loss of 10: line 123 subtracts
    each of the ten earlier samples from the newest one (nine differences
    of +100, one of -100).  The reference has an average gain of 20 and an
    average loss of 10.  The program's RSI is 90 (overbought), the
    reference RSI is 200/3 (not overbought). *)
Theorem seed_differs_from_wilder (lib : Imports) :
  history_mid (after_sample_mids lib) = sample_mids
  /\ (gain (after_sample_mids lib) == 90)%Q
  /\ (loss (after_sample_mids lib) == 10)%Q
  /\ (fst (wilder_averages sample_mids) == 20)%Q
  /\ (snd (wilder_averages sample_mids) == 10)%Q
  /\ exists r w : Q,
       snd (feed_mids init (Ok ((-1)%Q, false, false)) sample_mids) = Ok (r, true, false)
       /\ program_rsi sample_mids = Ok r
       /\ wilder_rsi sample_mids = Ok w
       /\ (r == 90)%Q /\ (w == 200 # 3)%Q /\ ~ (r == w)%Q.
Proof.
  pose proof (after_sample_mids_signals lib) as Hsig.
  set (s := after_sample_mids lib) in *. clearbody s.
  rewrite (f_equal (fun x => snd (fst (fst x))) Hsig : history_mid s = _).
  rewrite (f_equal (fun x => snd (fst x)) Hsig : gain s = _).
  rewrite (f_equal snd Hsig : loss s = _).
  split; [vm_compute; reflexivity|].
  split; [vm_compute; reflexivity|].
  split; [vm_compute; reflexivity|].
  split; [vm_compute; reflexivity|].
  split; [vm_compute; reflexivity|].
  eexists _, _.
  split; [vm_compute; reflexivity|].
  split; [vm_compute; reflexivity|].
  split; [vm_compute; reflexivity|].
  split; [vm_compute; reflexivity|].
  split; [vm_compute; reflexivity|].
  vm_compute. discriminate.
Qed.

(** ** C8: rounding and clamping of the targets *)

Lemma round_down_to_tick_spec (x : Q) :
  (TICK_SIZE_IN_CENTS | round_down_to_tick x)
  /\ (inject_Z (round_down_to_tick x) <= x)%Q
  /\ (x < inject_Z (round_down_to_tick x + TICK_SIZE_IN_CENTS))%Q.
Proof.
  unfold round_down_to_tick, TICK_SIZE_IN_CENTS.
  set (y := (x / inject_Z 100)%Q).
  assert (Hx : (x == y * inject_Z 100)%Q).
  { unfold y. rewrite Qmult_comm, Qmult_div_r; [reflexivity|discriminate]. }
  split; [apply Z.divide_factor_r|]. split.
  - rewrite inject_Z_mult, Hx.
    apply Qmult_le_compat_r; [apply Qfloor_le|discriminate].
  - replace (Qfloor y * 100 + 100) with ((Qfloor y + 1) * 100) by lia.
    rewrite inject_Z_mult. rewrite Hx at 1.
    apply Qmult_lt_compat_r; [reflexivity|apply Qlt_floor].
Qed.

Lemma py_int_ticks (k : Z) :
  py_int (inject_Z k * inject_Z TICK_SIZE_IN_CENTS) = k * TICK_SIZE_IN_CENTS.
Proof.
  unfold py_int, inject_Z, Qmult. cbn [Qnum Qden Pos.mul].
  apply Z.quot_1_r.
Qed.

Lemma float_floordiv_tick (check : Q) :
  float_floordiv check (inject_Z TICK_SIZE_IN_CENTS)
  = Ok (inject_Z (Qfloor (check / inject_Z TICK_SIZE_IN_CENTS))).
Proof. reflexivity. Qed.

Lemma round_bid_value (check : Q) (bid_prices : list Z) (b0 : Z) :
  py_index bid_prices 0 = Ok b0 ->
  round_bid check bid_prices
  = Ok (if b0 =? 0 then 0
        else Z.min (Z.max (round_down_to_tick check) 0) (b0 + TICK_SIZE_IN_CENTS)).
Proof.
  intros E. unfold round_bid. rewrite E. cbn [bind].
  destruct (b0 =? 0); cbn [negb]; [reflexivity|].
  rewrite float_floordiv_tick. cbn [bind]. rewrite py_int_ticks. reflexivity.
Qed.

Lemma round_ask_value (check : Q) (ask_prices : list Z) (a0 : Z) :
  py_index ask_prices 0 = Ok a0 ->
  round_ask check ask_prices
  = Ok (if a0 =? 0 then 0
        else Z.max (Z.max (round_down_to_tick check) 0) (a0 - TICK_SIZE_IN_CENTS)).
Proof.
  intros E. unfold round_ask. rewrite E. cbn [bind].
  destruct (a0 =? 0); cbn [negb]; [reflexivity|].
  rewrite float_floordiv_tick. cbn [bind]. rewrite py_int_ticks. reflexivity.
Qed.

Lemma quote_model_rounds (lib : Imports) (s : AutoTrader) (vbid vask : Z)
    (ap bp : list Z) (rsi : Q) (ob os : bool) (q : Quote) :
  quote_model lib s vbid vask ap bp rsi ob os = Ok q ->
  round_bid (check_bid q) bp = Ok (new_bid_price q)
  /\ round_ask (check_ask q) ap = Ok (new_ask_price q).
Proof.
  unfold quote_model. cbv zeta.
  repeat match goal with
         | |- bind ?m _ = Ok _ -> _ =>
             let E := fresh "E" in
             destruct m eqn:E; cbn [bind]; [|discriminate]
         end.
  intros [= <-]. cbn [check_bid check_ask new_bid_price new_ask_price].
  split; assumption.
Qed.

Lemma book_quote_rounds (lib : Imports) (self s2 : AutoTrader) (q : Quote)
    (i : Z) (ap av bp bv : list Z) :
  book_quote lib self i ap av bp bv = Some (s2, q) ->
  round_bid (check_bid q) bp = Ok (new_bid_price q)
  /\ round_ask (check_ask q) ap = Ok (new_ask_price q).
Proof.
  unfold book_quote.
  destruct (i =? FUTURE lib); [|discriminate].
  destruct (py_index bp 0) as [b0|f]; [|discriminate].
  destruct (negb (b0 =? 0)); [|discriminate].
  destruct (weighted_prices ap av bp bv) as [[[vbid vask] vmid]|f]; [|discriminate].
  destruct (update_rsi (record_sample self vbid vask vmid) vmid)
    as [s2' [[[rsi ob] os]|f]]; [|discriminate].
  destruct (quote_model lib s2' vbid vask ap bp rsi ob os) as [q'|f] eqn:E;
    [|discriminate].
  intros [= <- <-]. eapply quote_model_rounds. exact E.
Qed.

Lemma book_quote_bid_touch (lib : Imports) (self s2 : AutoTrader) (q : Quote)
    (i : Z) (ap av bp bv : list Z) (b0 : Z) :
  book_quote lib self i ap av bp bv = Some (s2, q) ->
  py_index bp 0 = Ok b0 -> b0 <> 0.
Proof.
  unfold book_quote. intros H E. rewrite E in H.
  destruct (i =? FUTURE lib); [|discriminate].
  destruct (b0 =? 0) eqn:E0; [discriminate|]. apply Z.eqb_neq. exact E0.
Qed.

(** In general: a FUTURE book with a bid touch, volume on the bid levels
    1 to 3 and none on the ask levels 1 to 3 raises on line 98, whatever
    the session, before anything is recorded. *)
Lemma zero_ask_volume_raises (lib : Imports) (self : AutoTrader) (n : Z)
    (ap av bp bv : list Z) (b0 : Z) :
  (4 <= length ap)%nat -> (4 <= length av)%nat ->
  (4 <= length bp)%nat -> (4 <= length bv)%nat ->
  py_index bp 0 = Ok b0 -> b0 <> 0 ->
  py_sum (py_slice bv 1 4) <> 0 ->
  py_sum (py_slice av 1 4) = 0 ->
  on_order_book_update_message lib self (FUTURE lib) n ap av bp bv
  = {| raised := Some ZeroDivisionError; after := self; sent := [] |}.
Proof.
  intros Hap Hav Hbp Hbv E0 Hne Hbsum Hasum.
  unfold on_order_book_update_message. rewrite Z.eqb_refl, E0.
  apply Z.eqb_neq in Hne. rewrite Hne. cbn [negb].
  assert (W : weighted_prices ap av bp bv = Raise ZeroDivisionError).
  { unfold weighted_prices.
    destruct ap as [|a0 [|a1 [|a2 [|a3 ap]]]]; try (simpl in Hap; lia).
    destruct av as [|x0 [|x1 [|x2 [|x3 av]]]]; try (simpl in Hav; lia).
    destruct bp as [|p0 [|p1 [|p2 [|p3 bp]]]]; try (simpl in Hbp; lia).
    destruct bv as [|v0 [|v1 [|v2 [|v3 bv]]]]; try (simpl in Hbv; lia).
    assert (F : forall (l : list Z) y0 y1 y2 y3,
               py_index (y0 :: y1 :: y2 :: y3 :: l) 1 = Ok y1
               /\ py_index (y0 :: y1 :: y2 :: y3 :: l) 2 = Ok y2
               /\ py_index (y0 :: y1 :: y2 :: y3 :: l) 3 = Ok y3
               /\ py_index (y0 :: y1 :: y2 :: y3 :: l) 0 = Ok y0).
    { intros l y0 y1 y2 y3. unfold py_index.
      assert (L : forall k, 0 <= k < 4 ->
                 (Z.of_nat (length (y0 :: y1 :: y2 :: y3 :: l)) <=? k) = false)
        by (intros k Hk; apply Z.leb_gt; cbn [length]; lia).
      repeat split; cbn [Z.ltb Z.compare orb]; rewrite L by lia; reflexivity. }
    unfold for_range. change (Z.to_nat (4 - 1)) with 3%nat.
    cbn [for_loop]. change (1 + 1) with 2. change (2 + 1) with 3.
    destruct (F ap a0 a1 a2 a3) as (A1 & A2 & A3 & _).
    destruct (F av x0 x1 x2 x3) as (X1 & X2 & X3 & _).
    destruct (F bp p0 p1 p2 p3) as (P1 & P2 & P3 & P0).
    destruct (F bv v0 v1 v2 v3) as (V1 & V2 & V3 & _).
    rewrite P0 in E0. injection E0 as ->.
    repeat (cbn [bind fst snd];
            first [rewrite A1|rewrite A2|rewrite A3|rewrite X1|rewrite X2|rewrite X3
                  |rewrite P1|rewrite P2|rewrite P3|rewrite P0
                  |rewrite V1|rewrite V2|rewrite V3]).
    cbn [bind fst snd]. rewrite Hne. cbn [negb].
    unfold int_floordiv at 1. apply Z.eqb_neq in Hbsum. rewrite Hbsum.
    cbn [bind]. rewrite Hasum. reflexivity. }
  rewrite W. reflexivity.
Qed.

(** C8, the side whose touch is zero.  (1) With a bid touch of 0 the call
    does nothing at all: neither side is quoted.  (2) Line 186 does yield
    an ask target of 0 for an ask touch of 0, whatever the model price.
    (3) It is not reached when the ask side of the book is empty: with
    bids and no asks, line 98 divides by the zero sum of the ask volumes
    (its guard tests [bid_prices[0]], not [ask_prices[0]]) and the call
    raises [ZeroDivisionError], in every session and whatever the imports
    are; no sample is recorded, no target is computed and the bid side is
    not quoted either. *)
Theorem empty_ask_side_raises (lib : Imports) (s : AutoTrader) :
  (forall (i n : Z) (ap av bv rest : list Z),
      on_order_book_update_message lib s i n ap av (0 :: rest) bv
      = {| raised := None; after := s; sent := [] |})
  /\ (forall (check : Q) (rest : list Z), round_ask check (0 :: rest) = Ok 0)
  /\ dispatch lib s (future_book lib no_asks_levels)
     = {| raised := Some ZeroDivisionError; after := s; sent := [] |}
  /\ book_quote lib s (FUTURE lib)
       [0; 0; 0; 0; 0] [0; 0; 0; 0; 0] [10000; 9900; 9900; 9900; 9800] [5; 1; 1; 1; 5]
     = None.
Proof.
  split; [|split; [|split]].
  - intros i n ap av bv rest. unfold on_order_book_update_message.
    destruct (i =? FUTURE lib); reflexivity.
  - intros check rest. reflexivity.
  - unfold future_book, no_asks_levels, dispatch.
    apply (zero_ask_volume_raises lib s 1 _ _ _ _ 10000);
      try (cbn [length]; lia); try reflexivity; discriminate.
  - unfold book_quote. rewrite Z.eqb_refl. reflexivity.
Qed.

(** On the second steady book both model prices are whole ticks already
    and inside the clamps. *)
Example steady_targets :
  (round_down_to_tick (check_bid (snd steady_quote)), new_bid_price (snd steady_quote))
    = (9900, 9900)
  /\ (round_down_to_tick (check_ask (snd steady_quote)), new_ask_price (snd steady_quote))
     = (10300, 10300).
Proof. vm_compute. split; reflexivity. Qed.

(** Model prices outside the clamps: 10250.5 against a bid touch of 10000
    gives 10100; 9950 against an ask touch of 10200 gives 10100; a negative
    model price gives a bid target of 0. *)
Example clamps_at_work :
  round_bid (20501 # 2) [10000] = Ok 10100
  /\ round_ask 9950 [10200] = Ok 10100
  /\ round_bid (-(5 # 2)) [10000] = Ok 0
  /\ round_down_to_tick (20501 # 2) = 10200.
Proof. vm_compute. repeat split. Qed.

(** * Further properties *)

(** ** Indexing and loops *)

Lemma py_index_in_range (l : list Z) (i : Z) :
  - len l <= i < len l -> exists x, py_index l i = Ok x.
Proof.
  unfold py_index, len. intros H.
  set (n := Z.of_nat (length l)) in *.
  set (j := if i <? 0 then i + n else i).
  assert (Hj : 0 <= j < n).
  { unfold j. destruct (i <? 0) eqn:E; [apply Z.ltb_lt in E|apply Z.ltb_ge in E]; lia. }
  replace (j <? 0) with false by (symmetry; apply Z.ltb_ge; lia).
  replace (n <=? j) with false by (symmetry; apply Z.leb_gt; lia).
  cbn [orb].
  destruct (nth_error l (Z.to_nat j)) as [x|] eqn:E; [eauto|].
  apply nth_error_None in E. unfold n in Hj. lia.
Qed.

Lemma for_loop_total {A : Type} (n : nat) (i : Z) (body : Z -> A -> Res A) (a : A) :
  (forall j x, i <= j < i + Z.of_nat n -> exists y, body j x = Ok y) ->
  exists r, for_loop n i body a = Ok r.
Proof.
  revert i a. induction n as [|n IH]; intros i a H; cbn [for_loop]; [eauto|].
  destruct (H i a ltac:(lia)) as [y ->]. cbn [bind].
  apply IH. intros j x Hj. apply H. lia.
Qed.

Lemma for_loop_keeps {A : Type} (P : A -> Prop) (n : nat) (i : Z)
    (body : Z -> A -> Res A) (a r : A) :
  P a ->
  (forall j x y, P x -> body j x = Ok y -> P y) ->
  for_loop n i body a = Ok r -> P r.
Proof.
  revert i a. induction n as [|n IH]; intros i a Ha Hb; cbn [for_loop].
  - intros [= <-]. exact Ha.
  - destruct (body i a) as [y|f] eqn:E; cbn [bind]; [|discriminate].
    apply IH; [eapply Hb; eassumption|exact Hb].
Qed.

Lemma inject_Z_nonzero (z : Z) : z <> 0 -> Qeq_bool (inject_Z z) 0 = false.
Proof.
  intros H. destruct (Qeq_bool (inject_Z z) 0) eqn:E; [|reflexivity].
  apply Qeq_bool_iff in E. unfold Qeq in E. cbn in E. lia.
Qed.

Lemma true_div_by_integer (a : Q) (z : Z) :
  z <> 0 -> true_div a (inject_Z z) = Ok (a / inject_Z z)%Q.
Proof. intros H. unfold true_div. rewrite (inject_Z_nonzero z H). reflexivity. Qed.

(** ** The series and the RSI averages *)

Lemma SigInv_signals (s s' : AutoTrader) :
  signals s = signals s' -> SigInv s -> SigInv s'.
Proof.
  unfold signals, SigInv. intros [= E1 E2 E3 E4 E5].
  rewrite E1, E2, E3, E4, E5. trivial.
Qed.

Lemma SigInv_init : SigInv init.
Proof.
  unfold SigInv. cbn [init history_vbid history_vask history_mid gain loss length].
  split; [reflexivity|]. split; [reflexivity|]. split; [lia|].
  left. split; reflexivity.
Qed.

Lemma py_last_length (k : nat) (l : list Z) :
  length (py_last k l) = Nat.min k (length l).
Proof. unfold py_last. rewrite length_skipn. lia. Qed.

Lemma py_last_short (k : nat) (l : list Z) :
  (length l <= k)%nat -> py_last k l = l.
Proof.
  intros H. unfold py_last. replace (length l - k)%nat with 0%nat by lia. reflexivity.
Qed.

Lemma record_sample_window (s : AutoTrader) (vbid vask vmid : Z) :
  length (history_vbid s) = length (history_mid s) ->
  length (history_vask s) = length (history_mid s) ->
  (length (history_mid s) <= 15)%nat ->
  history_vbid (record_sample s vbid vask vmid) = py_last 15 (history_vbid s ++ [vbid])
  /\ history_vask (record_sample s vbid vask vmid) = py_last 15 (history_vask s ++ [vask])
  /\ history_mid (record_sample s vbid vask vmid) = py_last 15 (history_mid s ++ [vmid])
  /\ gain (record_sample s vbid vask vmid) = gain s
  /\ loss (record_sample s vbid vask vmid) = loss s.
Proof.
  intros E1 E2 H. unfold record_sample.
  cbn [history_vbid history_vask history_mid gain loss
       set_history_vbid set_history_vask set_history_mid].
  destruct (15 <? len (history_vbid s ++ [vbid])) eqn:C;
    cbn [history_vbid history_vask history_mid gain loss
         set_history_vbid set_history_vask set_history_mid].
  - repeat split; reflexivity.
  - apply Z.ltb_ge in C. unfold len in C. rewrite length_app in C. cbn [length] in C.
    rewrite !py_last_short by (rewrite length_app; cbn [length]; lia).
    repeat split; reflexivity.
Qed.

Lemma SigInv_record_sample (s : AutoTrader) (vbid vask vmid : Z) :
  SigInv s -> SigInv (record_sample s vbid vask vmid).
Proof.
  intros (E1 & E2 & H & G). unfold SigInv.
  destruct (record_sample_window s vbid vask vmid E1 E2 H) as (-> & -> & -> & -> & ->).
  rewrite !py_last_length, !length_app. cbn [length].
  repeat split; try lia. exact G.
Qed.

Lemma seed_totals_nonneg (history : list Z) (vmid : Z) (tot : Z * Z) :
  seed_totals history vmid = Ok tot -> 0 <= fst tot /\ 0 <= snd tot.
Proof.
  unfold seed_totals, for_range.
  apply (for_loop_keeps (fun acc => 0 <= fst acc /\ 0 <= snd acc)).
  - cbn. lia.
  - intros j x y [H1 H2].
    destruct (py_index history j) as [h|f]; cbn [bind]; [|discriminate].
    destruct (0 <? vmid - h) eqn:E; [apply Z.ltb_lt in E|apply Z.ltb_ge in E];
      intros [= <-]; cbn [fst snd]; lia.
Qed.

Lemma tenth_nonneg (x : Q) : (0 <= x -> 0 <= x / 10)%Q.
Proof.
  intros H. apply Qle_shift_div_l; [reflexivity|]. lra.
Qed.

Lemma smoothed_nonneg (avg : Q) (z : Z) :
  (0 <= avg)%Q -> 0 <= z -> (0 <= (avg * 9 + inject_Z z) / 10)%Q.
Proof.
  intros H Hz. apply tenth_nonneg.
  assert (0 <= inject_Z z)%Q by (unfold Qle; cbn; lia). lra.
Qed.

Lemma sentinel_is_sentinel (g : Q) :
  (0 <= g)%Q -> Qeq_bool g (-1) = false.
Proof.
  intros H. destruct (Qeq_bool g (-1)) eqn:E; [|reflexivity].
  apply Qeq_bool_iff in E. lra.
Qed.

Lemma store_averages_nonneg (s s' : AutoTrader) (vmid : Z) :
  SigInv s -> store_averages s vmid = Ok s' ->
  (0 <= gain s' /\ 0 <= loss s')%Q
  /\ history_vbid s' = history_vbid s
  /\ history_vask s' = history_vask s
  /\ history_mid s' = history_mid s.
Proof.
  intros (_ & _ & _ & G). unfold store_averages.
  destruct G as [[Eg El]|[Hg Hl]].
  - rewrite Eg. change (Qeq_bool (-1) (-1)) with true. cbv iota.
    destruct (seed_totals (history_mid s) vmid) as [tot|f] eqn:E; cbn [bind]; [|discriminate].
    apply seed_totals_nonneg in E. destruct E as [H1 H2].
    intros [= <-]. cbn [gain loss history_vbid history_vask history_mid set_gain set_loss].
    split; [|repeat split; reflexivity].
    split; apply tenth_nonneg; unfold Qle; cbn; lia.
  - rewrite (sentinel_is_sentinel _ Hg).
    destruct (py_index (history_mid s) (-2)) as [h|f]; cbn [bind]; [|discriminate].
    intros [= <-]. cbn [gain loss history_vbid history_vask history_mid set_gain set_loss].
    split; [|repeat split; reflexivity].
    destruct (0 <? vmid - h) eqn:E; [apply Z.ltb_lt in E|apply Z.ltb_ge in E];
      (split; apply smoothed_nonneg; trivial; lia).
Qed.

Lemma SigInv_update_rsi (s : AutoTrader) (vmid : Z) :
  SigInv s -> SigInv (fst (update_rsi s vmid)).
Proof.
  intros HI. unfold update_rsi.
  destruct (10 <? len (history_mid s)); [|exact HI].
  destruct (store_averages s vmid) as [s'|f] eqn:E; [|exact HI].
  cbn [fst]. destruct (store_averages_nonneg s s' vmid HI E) as (G & E1 & E2 & E3).
  destruct HI as (L1 & L2 & L3 & _). unfold SigInv.
  rewrite E1, E2, E3. repeat split; trivial. right. exact G.
Qed.

(** The part of the session the price model owns after a book message:
    untouched, or one sample further. *)
Lemma book_signals_cases (lib : Imports) (s : AutoTrader) (i n : Z)
    (ap av bp bv : list Z) :
  signals (after (on_order_book_update_message lib s i n ap av bp bv)) = signals s
  \/ exists vbid vask vmid,
       weighted_prices ap av bp bv = Ok (vbid, vask, vmid)
       /\ signals (after (on_order_book_update_message lib s i n ap av bp bv))
          = signals (fst (update_rsi (record_sample s vbid vask vmid) vmid)).
Proof.
  unfold on_order_book_update_message.
  destruct (i =? FUTURE lib); [|left; reflexivity].
  destruct (py_index bp 0) as [b0|f]; [|left; reflexivity].
  destruct (negb (b0 =? 0)); [|left; reflexivity].
  destruct (weighted_prices ap av bp bv) as [[[vbid vask] vmid]|f]; [|left; reflexivity].
  right. exists vbid, vask, vmid. split; [reflexivity|].
  destruct (update_rsi (record_sample s vbid vask vmid) vmid) as [t r].
  destruct r as [[[rsi ob] os]|f]; [|reflexivity].
  destruct (quote_model lib t vbid vask ap bp rsi ob os);
    cbn [after returned failed fst]; rewrite ?signals_reconcile; reflexivity.
Qed.

Lemma signals_dispatch_other (lib : Imports) (s : AutoTrader) (e : Event) :
  (forall i n ap av bp bv, e <> OrderBookUpdate i n ap av bp bv) ->
  signals (after (dispatch lib s e)) = signals s.
Proof.
  intros H. destruct e as [i n ap av bp bv| | | | |]; cbn [dispatch].
  - exfalso. eapply H. reflexivity.
  - reflexivity.
  - unfold on_order_filled_message.
    destruct (bool_decide _); [|destruct (bool_decide _)]; reflexivity.
  - unfold on_order_status_message. destruct (_ =? 0); [|reflexivity].
    destruct (_ =? bid_id s); [|destruct (_ =? ask_id s)]; reflexivity.
  - reflexivity.
  - unfold on_error_message, on_order_status_message.
    destruct (py_decode _); [|reflexivity].
    destruct (_ && _); [|reflexivity].
    cbn [Z.eqb]. destruct (_ =? bid_id s); [|destruct (_ =? ask_id s)]; reflexivity.
Qed.

Lemma SigInv_dispatch (lib : Imports) (s : AutoTrader) (e : Event) :
  SigInv s -> SigInv (after (dispatch lib s e)).
Proof.
  intros HI. destruct e as [i n ap av bp bv| | | | |].
  - cbn [dispatch].
    destruct (book_signals_cases lib s i n ap av bp bv) as [E|(vb & va & vm & _ & E)].
    + apply (SigInv_signals s); [symmetry; exact E|exact HI].
    + eapply SigInv_signals; [symmetry; exact E|].
      apply SigInv_update_rsi, SigInv_record_sample, HI.
  - apply (SigInv_signals s); [|exact HI]. symmetry. apply signals_dispatch_other. discriminate.
  - apply (SigInv_signals s); [|exact HI]. symmetry. apply signals_dispatch_other. discriminate.
  - apply (SigInv_signals s); [|exact HI]. symmetry. apply signals_dispatch_other. discriminate.
  - apply (SigInv_signals s); [|exact HI]. symmetry. apply signals_dispatch_other. discriminate.
  - apply (SigInv_signals s); [|exact HI]. symmetry. apply signals_dispatch_other. discriminate.
Qed.

Lemma SigInv_run_from (lib : Imports) (es : list Event) (s : AutoTrader)
    (log : list Command) :
  SigInv s -> SigInv (fst (run_from lib s log es)).
Proof.
  revert s log. induction es as [|e es IH]; intros s log HI; cbn [run_from]; [exact HI|].
  apply IH, SigInv_dispatch, HI.
Qed.

Lemma SigInv_run (lib : Imports) (es : list Event) : SigInv (fst (run lib es)).
Proof. apply SigInv_run_from, SigInv_init. Qed.

Lemma update_rsi_histories (s : AutoTrader) (vmid : Z) :
  history_vbid (fst (update_rsi s vmid)) = history_vbid s
  /\ history_vask (fst (update_rsi s vmid)) = history_vask s
  /\ history_mid (fst (update_rsi s vmid)) = history_mid s.
Proof.
  unfold update_rsi, store_averages.
  destruct (10 <? len (history_mid s)); [|repeat split; reflexivity].
  destruct (Qeq_bool (gain s) (-1)).
  - destruct (seed_totals _ _); cbn [bind fst]; repeat split; reflexivity.
  - destruct (py_index _ _); cbn [bind fst]; repeat split; reflexivity.
Qed.

Lemma seed_totals_total (history : list Z) (vmid : Z) :
  (11 <= length history)%nat -> exists tot, seed_totals history vmid = Ok tot.
Proof.
  intros H. unfold seed_totals, for_range. apply for_loop_total.
  intros j x Hj.
  destruct (py_index_in_range history j) as [h ->]; [unfold len; lia|].
  cbn [bind]. destruct (0 <? vmid - h); eauto.
Qed.

Lemma store_averages_total (s : AutoTrader) (vmid : Z) :
  (11 <= length (history_mid s))%nat -> exists s', store_averages s vmid = Ok s'.
Proof.
  intros H. unfold store_averages. destruct (Qeq_bool (gain s) (-1)).
  - destruct (seed_totals_total (history_mid s) vmid H) as [tot ->]. cbn [bind]. eauto.
  - destruct (py_index_in_range (history_mid s) (-2)) as [h ->]; [unfold len; lia|].
    cbn [bind]. eauto.
Qed.

Lemma Seeding_sample (s : AutoTrader) (vbid vask vmid : Z) :
  SigInv s -> Seeding s ->
  Seeding (fst (update_rsi (record_sample s vbid vask vmid) vmid)).
Proof.
  intros HI HS.
  pose proof (SigInv_record_sample s vbid vask vmid HI) as HI1.
  destruct HI as (E1 & E2 & L & _).
  destruct (record_sample_window s vbid vask vmid E1 E2 L) as (_ & _ & Hm & Hg & Hl).
  set (s1 := record_sample s vbid vask vmid) in *.
  assert (Len : length (history_mid s1) = Nat.min 15 (length (history_mid s) + 1)).
  { rewrite Hm, py_last_length, length_app. reflexivity. }
  unfold update_rsi.
  destruct (10 <? len (history_mid s1)) eqn:C;
    [apply Z.ltb_lt in C|apply Z.ltb_ge in C]; unfold len in C.
  - destruct (store_averages_total s1 vmid ltac:(lia)) as [s' E]. rewrite E. cbn [fst].
    destruct (store_averages_nonneg s1 s' vmid HI1 E) as ([G1 G2] & _ & _ & E3).
    right. rewrite E3. repeat split; trivial. lia.
  - cbn [fst]. destruct HS as [(Eg & El & Hlen)|(_ & _ & Hlen)]; [|lia].
    left. rewrite Hg, Hl. repeat split; trivial. lia.
Qed.

Lemma Seeding_signals (s s' : AutoTrader) :
  signals s = signals s' -> Seeding s -> Seeding s'.
Proof.
  unfold signals, Seeding. intros [= E1 E2 E3 E4 E5].
  rewrite E3, E4, E5. trivial.
Qed.

Lemma Seeding_run_from (lib : Imports) (es : list Event) (s : AutoTrader)
    (log : list Command) :
  SigInv s -> Seeding s -> Seeding (fst (run_from lib s log es)).
Proof.
  revert s log. induction es as [|e es IH]; intros s log HI HS; cbn [run_from];
    [exact HS|].
  apply IH; [apply SigInv_dispatch, HI|].
  destruct e as [i n ap av bp bv| | | | |].
  - cbn [dispatch].
    destruct (book_signals_cases lib s i n ap av bp bv) as [E|(vb & va & vm & _ & E)].
    + apply (Seeding_signals s); [symmetry; exact E|exact HS].
    + eapply Seeding_signals; [symmetry; exact E|].
      apply Seeding_sample; assumption.
  - apply (Seeding_signals s); [|exact HS]. symmetry. apply signals_dispatch_other. discriminate.
  - apply (Seeding_signals s); [|exact HS]. symmetry. apply signals_dispatch_other. discriminate.
  - apply (Seeding_signals s); [|exact HS]. symmetry. apply signals_dispatch_other. discriminate.
  - apply (Seeding_signals s); [|exact HS]. symmetry. apply signals_dispatch_other. discriminate.
  - apply (Seeding_signals s); [|exact HS]. symmetry. apply signals_dispatch_other. discriminate.
Qed.

(** X1.  In every session the three series have the same length, and
    never more than fifteen samples. *)
Theorem series_are_bounded (lib : Imports) (es : list Event) :
  let s := fst (run lib es) in
  length (history_vbid s) = length (history_mid s)
  /\ length (history_vask s) = length (history_mid s)
  /\ (length (history_mid s) <= 15)%nat.
Proof.
  cbv zeta. destruct (SigInv_run lib es) as (E1 & E2 & L & _). auto.
Qed.

(** X2.  In every session the two RSI averages are either both still the
    sentinel -1, and then the mid series has at most ten samples, or both
    not negative, and then the mid series has at least eleven: the
    averages are seeded when the eleventh sample arrives and never fall
    back to the sentinel. *)
Theorem averages_are_seeded_once (lib : Imports) (es : list Event) :
  let s := fst (run lib es) in
  (gain s = (-1)%Q /\ loss s = (-1)%Q /\ (length (history_mid s) <= 10)%nat)
  \/ ((0 <= gain s)%Q /\ (0 <= loss s)%Q /\ (11 <= length (history_mid s))%nat).
Proof.
  cbv zeta. apply Seeding_run_from; [apply SigInv_init|].
  left. cbn. repeat split; trivial. lia.
Qed.

Lemma book_signals_sampled (lib : Imports) (s : AutoTrader) (n : Z)
    (ap av bp bv : list Z) (b0 vbid vask vmid : Z) :
  py_index bp 0 = Ok b0 -> b0 <> 0 ->
  weighted_prices ap av bp bv = Ok (vbid, vask, vmid) ->
  signals (after (on_order_book_update_message lib s (FUTURE lib) n ap av bp bv))
  = signals (fst (update_rsi (record_sample s vbid vask vmid) vmid)).
Proof.
  intros E0 Hne Ew. unfold on_order_book_update_message.
  rewrite Z.eqb_refl, E0. apply Z.eqb_neq in Hne. rewrite Hne. cbn [negb]. rewrite Ew.
  destruct (update_rsi (record_sample s vbid vask vmid) vmid) as [t r].
  destruct r as [[[rsi ob] os]|f]; [|reflexivity].
  destruct (quote_model lib t vbid vask ap bp rsi ob os);
    cbn [after returned failed fst]; rewrite ?signals_reconcile; reflexivity.
Qed.

(** X3.  A FUTURE book with a bid touch whose weighted prices can be
    computed appends one sample to each series and keeps the last fifteen,
    whatever happens later in the call (it may still raise in the RSI). *)
Theorem sample_is_appended (lib : Imports) (es : list Event) (n : Z)
    (ap av bp bv : list Z) (b0 vbid vask vmid : Z) :
  py_index bp 0 = Ok b0 -> b0 <> 0 ->
  weighted_prices ap av bp bv = Ok (vbid, vask, vmid) ->
  let s := fst (run lib es) in
  let s' := after (on_order_book_update_message lib s (FUTURE lib) n ap av bp bv) in
  history_vbid s' = py_last 15 (history_vbid s ++ [vbid])
  /\ history_vask s' = py_last 15 (history_vask s ++ [vask])
  /\ history_mid s' = py_last 15 (history_mid s ++ [vmid]).
Proof.
  intros E0 Hne Ew. cbv zeta.
  pose proof (book_signals_sampled lib (fst (run lib es)) n ap av bp bv
                b0 vbid vask vmid E0 Hne Ew) as Hs.
  destruct (SigInv_run lib es) as (E1 & E2 & L & _).
  set (s := fst (run lib es)) in *. clearbody s.
  set (o := on_order_book_update_message lib s (FUTURE lib) n ap av bp bv) in *.
  clearbody o.
  destruct (update_rsi_histories (record_sample s vbid vask vmid) vmid) as (H1 & H2 & H3).
  destruct (record_sample_window s vbid vask vmid E1 E2 L) as (W1 & W2 & W3 & _).
  unfold signals in Hs. injection Hs as -> -> -> _ _.
  rewrite H1, H2, H3. auto.
Qed.

(** ** The RSI *)

Lemma true_div_value (a b r : Q) :
  true_div a b = Ok r -> ~ (b == 0)%Q /\ r = (a / b)%Q.
Proof.
  unfold true_div. destruct (Qeq_bool b 0) eqn:E; [discriminate|].
  intros [= <-]. split; [|reflexivity].
  intros H. apply Qeq_bool_iff in H. congruence.
Qed.

(** Line 141 with averages that are not negative.  Both bounds are
    attained in binary floating point (0 for a gain of 0; 100 when the
    quotient [100/(1+rs)] rounds to 0 or below half a unit in the last
    place of 100), so neither is stated strictly. *)
Lemma rsi_of_range (s : AutoTrader) (r : Q) :
  (0 <= gain s)%Q -> (0 <= loss s)%Q -> rsi_of s = Ok r ->
  (0 <= r /\ r <= 100)%Q.
Proof.
  intros Hg Hl. unfold rsi_of.
  destruct (true_div (gain s) (loss s)) as [rs|f] eqn:E1; cbn [bind]; [|discriminate].
  destruct (true_div 100 (1 + rs)) as [t|f] eqn:E2; cbn [bind]; [|discriminate].
  intros [= <-].
  apply true_div_value in E1. destruct E1 as [Hl0 ->].
  apply true_div_value in E2. destruct E2 as [_ ->].
  assert (Hpos : (0 < loss s)%Q) by (apply Qle_lteq in Hl; destruct Hl as [H|H]; [exact H|]; exfalso; apply Hl0; symmetry; exact H).
  assert (Hrs : (0 <= gain s / loss s)%Q) by (apply Qle_shift_div_l; [exact Hpos|lra]).
  set (rs := (gain s / loss s)%Q) in *.
  assert (H1 : (0 < 100 / (1 + rs))%Q) by (apply Qlt_shift_div_l; lra).
  assert (H2 : (100 / (1 + rs) <= 100)%Q) by (apply Qle_shift_div_r; lra).
  split; lra.
Qed.

Lemma rsi_of_total (s : AutoTrader) :
  (0 <= gain s)%Q -> (0 <= loss s)%Q -> ~ (loss s == 0)%Q ->
  exists r, rsi_of s = Ok r.
Proof.
  intros Hg Hl Hl0. unfold rsi_of, true_div.
  destruct (Qeq_bool (loss s) 0) eqn:E; [apply Qeq_bool_iff in E; contradiction|].
  cbn [bind].
  assert (Hpos : (0 < loss s)%Q) by (apply Qle_lteq in Hl; destruct Hl as [H|H]; [exact H|]; exfalso; apply Hl0; symmetry; exact H).
  assert (Hrs : (0 <= gain s / loss s)%Q) by (apply Qle_shift_div_l; [exact Hpos|lra]).
  destruct (Qeq_bool (1 + gain s / loss s) 0) eqn:E'.
  - apply Qeq_bool_iff in E'. lra.
  - cbn [bind]. eauto.
Qed.

Lemma Qlt_bool_iff (a b : Q) : Qlt_bool a b = true <-> (a < b)%Q.
Proof.
  unfold Qlt_bool. rewrite negb_true_iff. split.
  - intros H. apply Qnot_le_lt. intros C. apply Qle_bool_iff in C. congruence.
  - intros H. destruct (Qle_bool b a) eqn:E; [|reflexivity].
    apply Qle_bool_iff in E. lra.
Qed.

(** X4.  The RSI block in any session, after a sample has been recorded:
    if it returns, then either the mid series has at most ten samples, the
    RSI is the sentinel -1 and neither flag is set, or the series has at
    least eleven, the RSI lies between 0 and 100, both included (so it is
    never mistaken for the sentinel at lines 172 and 180), overbought is
    set exactly when it is above 75 and oversold exactly when it is below
    25. *)
Theorem rsi_is_sentinel_or_percentage (lib : Imports) (es : list Event)
    (vbid vask vmid : Z) (rsi : Q) (over_bought over_sold : bool) :
  let s1 := record_sample (fst (run lib es)) vbid vask vmid in
  snd (update_rsi s1 vmid) = Ok (rsi, over_bought, over_sold) ->
  ((length (history_mid s1) <= 10)%nat
   /\ rsi = (-1)%Q /\ over_bought = false /\ over_sold = false)
  \/ ((11 <= length (history_mid s1))%nat
      /\ (0 <= rsi)%Q /\ (rsi <= 100)%Q
      /\ (over_bought = true <-> (75 < rsi)%Q)
      /\ (over_sold = true <-> (rsi < 25)%Q)).
Proof.
  cbv zeta.
  pose proof (SigInv_record_sample _ vbid vask vmid (SigInv_run lib es)) as HI.
  set (s1 := record_sample (fst (run lib es)) vbid vask vmid) in *. clearbody s1.
  unfold update_rsi.
  destruct (10 <? len (history_mid s1)) eqn:C;
    [apply Z.ltb_lt in C|apply Z.ltb_ge in C]; unfold len in C.
  - destruct (store_averages s1 vmid) as [s'|f] eqn:E; cbn [snd]; [|discriminate].
    destruct (store_averages_nonneg s1 s' vmid HI E) as ([G1 G2] & _).
    destruct (rsi_of s') as [r|f] eqn:Er; cbn [bind]; [|discriminate].
    intros [= <- <- <-]. right.
    destruct (rsi_of_range s' r G1 G2 Er) as [R1 R2].
    split; [lia|]. split; [exact R1|]. split; [exact R2|].
    split; [apply Qlt_bool_iff|].
    rewrite andb_true_iff, negb_true_iff, Qlt_bool_iff. split.
    + intros [_ H]. exact H.
    + intros H. split; [|exact H].
      destruct (Qlt_bool 75 r) eqn:B; [|reflexivity].
      apply Qlt_bool_iff in B. lra.
  - cbn [snd]. intros [= <- <- <-]. left. repeat split; trivial. lia.
Qed.

(** ** Which exceptions a book message can raise *)

Lemma levels_indexed (l : list Z) (y0 y1 y2 y3 : Z) :
  py_index (y0 :: y1 :: y2 :: y3 :: l) 0 = Ok y0
  /\ py_index (y0 :: y1 :: y2 :: y3 :: l) 1 = Ok y1
  /\ py_index (y0 :: y1 :: y2 :: y3 :: l) 2 = Ok y2
  /\ py_index (y0 :: y1 :: y2 :: y3 :: l) 3 = Ok y3.
Proof.
  unfold py_index.
  assert (L : forall k, 0 <= k < 4 ->
             (Z.of_nat (length (y0 :: y1 :: y2 :: y3 :: l)) <=? k) = false)
    by (intros k Hk; apply Z.leb_gt; cbn [length]; lia).
  repeat split; cbn [Z.ltb Z.compare orb]; rewrite L by lia; reflexivity.
Qed.

(** Lines 92-99 on a book with at least four levels. *)
Lemma weighted_prices_levels (a0 a1 a2 a3 x0 x1 x2 x3 b0 p1 p2 p3 v0 v1 v2 v3 : Z)
    (ap av bp bv : list Z) :
  weighted_prices (a0 :: a1 :: a2 :: a3 :: ap) (x0 :: x1 :: x2 :: x3 :: av)
                  (b0 :: p1 :: p2 :: p3 :: bp) (v0 :: v1 :: v2 :: v3 :: bv)
  = (let! vbid := (if negb (b0 =? 0)
                   then int_floordiv (0 + p1 * v1 + p2 * v2 + p3 * v3) (0 + v1 + v2 + v3)
                   else Ok 0) in
     let! vask := (if negb (b0 =? 0)
                   then int_floordiv (0 + a1 * x1 + a2 * x2 + a3 * x3) (0 + x1 + x2 + x3)
                   else Ok 0) in
     Ok (vbid, vask, (vbid + vask) / 2)).
Proof.
  unfold weighted_prices.
  destruct (levels_indexed ap a0 a1 a2 a3) as (_ & A1 & A2 & A3).
  destruct (levels_indexed av x0 x1 x2 x3) as (_ & X1 & X2 & X3).
  destruct (levels_indexed bp b0 p1 p2 p3) as (P0 & P1 & P2 & P3).
  destruct (levels_indexed bv v0 v1 v2 v3) as (_ & V1 & V2 & V3).
  unfold for_range. change (Z.to_nat (4 - 1)) with 3%nat.
  cbn [for_loop]. change (1 + 1) with 2. change (2 + 1) with 3.
  repeat (cbn [bind fst snd];
          first [rewrite A1|rewrite A2|rewrite A3|rewrite X1|rewrite X2|rewrite X3
                |rewrite P1|rewrite P2|rewrite P3|rewrite V1|rewrite V2|rewrite V3]).
  cbn [bind fst snd]. rewrite P0. cbn [bind].
  destruct (negb (b0 =? 0)); [|reflexivity].
  reflexivity.
Qed.

Lemma average_between (p1 p2 p3 v1 v2 v3 : Z) :
  0 <= v1 -> 0 <= v2 -> 0 <= v3 -> 0 < v1 + v2 + v3 ->
  Z.min p1 (Z.min p2 p3) <= (p1 * v1 + p2 * v2 + p3 * v3) / (v1 + v2 + v3)
  <= Z.max p1 (Z.max p2 p3).
Proof.
  intros H1 H2 H3 Hs.
  set (m := Z.min p1 (Z.min p2 p3)). set (M := Z.max p1 (Z.max p2 p3)).
  assert (m <= p1 /\ m <= p2 /\ m <= p3) as (Hm1 & Hm2 & Hm3) by (unfold m; lia).
  assert (p1 <= M /\ p2 <= M /\ p3 <= M) as (HM1 & HM2 & HM3) by (unfold M; lia).
  split.
  - apply Z.div_le_lower_bound; [exact Hs|]. nia.
  - apply Z.div_le_upper_bound; [exact Hs|]. nia.
Qed.

(** X5.  On a book with at least four levels a side, a bid touch and no
    negative volume, the weighted bid returned by lines 92-99 is the floor
    of sum(price * volume) / sum(volume) over levels 1 to 3 and lies
    between the lowest and the highest of those three prices; likewise the
    weighted ask; and the mid is the floor of their mean, between the two. *)
Theorem weighted_prices_are_averages
    (a0 a1 a2 a3 x0 x1 x2 x3 b0 p1 p2 p3 v0 v1 v2 v3 : Z)
    (ap av bp bv : list Z) (vbid vask vmid : Z) :
  b0 <> 0 ->
  0 <= v1 -> 0 <= v2 -> 0 <= v3 -> 0 <= x1 -> 0 <= x2 -> 0 <= x3 ->
  weighted_prices (a0 :: a1 :: a2 :: a3 :: ap) (x0 :: x1 :: x2 :: x3 :: av)
                  (b0 :: p1 :: p2 :: p3 :: bp) (v0 :: v1 :: v2 :: v3 :: bv)
  = Ok (vbid, vask, vmid) ->
  vbid = (p1 * v1 + p2 * v2 + p3 * v3) / (v1 + v2 + v3)
  /\ Z.min p1 (Z.min p2 p3) <= vbid <= Z.max p1 (Z.max p2 p3)
  /\ vask = (a1 * x1 + a2 * x2 + a3 * x3) / (x1 + x2 + x3)
  /\ Z.min a1 (Z.min a2 a3) <= vask <= Z.max a1 (Z.max a2 a3)
  /\ vmid = (vbid + vask) / 2
  /\ Z.min vbid vask <= vmid <= Z.max vbid vask.
Proof.
  intros Hb Hv1 Hv2 Hv3 Hx1 Hx2 Hx3. rewrite weighted_prices_levels.
  apply Z.eqb_neq in Hb. rewrite Hb. cbn [negb]. unfold int_floordiv.
  destruct (0 + v1 + v2 + v3 =? 0) eqn:Ev; cbn [bind]; [discriminate|].
  destruct (0 + x1 + x2 + x3 =? 0) eqn:Ex; cbn [bind]; [discriminate|].
  apply Z.eqb_neq in Ev, Ex. intros [= <- <- <-].
  rewrite !Z.add_0_l.
  pose proof (average_between p1 p2 p3 v1 v2 v3 Hv1 Hv2 Hv3 ltac:(lia)).
  pose proof (average_between a1 a2 a3 x1 x2 x3 Hx1 Hx2 Hx3 ltac:(lia)).
  repeat split; try lia.
  - apply Z.div_le_lower_bound; lia.
  - apply Z.div_le_upper_bound; lia.
Qed.

Lemma quote_model_total (lib : Imports) (s : AutoTrader) (vbid vask : Z)
    (ap bp : list Z) (a0 b0 : Z) (rsi : Q) (ob os : bool) :
  SigInv s -> (1 <= length (history_mid s))%nat ->
  py_index ap 0 = Ok a0 -> py_index bp 0 = Ok b0 ->
  exists q, quote_model lib s vbid vask ap bp rsi ob os = Ok q.
Proof.
  intros (E1 & E2 & L & _) Hn Ea Eb.
  unfold quote_model. cbv zeta. unfold for_range.
  assert (Hlen : len (history_vask s) = len (history_vbid s)) by (unfold len; lia).
  assert (Hpos : 1 <= len (history_vask s)) by (unfold len; lia).
  edestruct (for_loop_total
               (Z.to_nat (len (history_vask s) - 1 + 1
                          - Z.max 0 (len (history_vask s) - 1 - 6)))
               (Z.max 0 (len (history_vask s) - 1 - 6))
               (fun i (acc : Z * Z) =>
                  let! a := py_index (history_vask s) i in
                  let! b := py_index (history_vbid s) i in
                  Ok (fst acc + b, snd acc + a))
               (0, 0)) as [tot Etot].
  { intros j x Hj.
    destruct (py_index_in_range (history_vask s) j) as [a ->]; [lia|]. cbn [bind].
    destruct (py_index_in_range (history_vbid s) j) as [b ->]; [lia|]. cbn [bind].
    eauto. }
  rewrite Etot. cbn [bind].
  repeat (rewrite true_div_by_integer by lia; cbn [bind]).
  destruct (py_index_in_range (history_vbid s) (Z.max 0 (len (history_vask s) - 1 - 5)))
    as [hb Ehb]; [lia|].
  rewrite Ehb. cbn [bind].
  repeat (rewrite true_div_by_integer by lia; cbn [bind]).
  destruct (py_index_in_range (history_vask s) (Z.max 0 (len (history_vask s) - 1 - 5)))
    as [ha Eha]; [lia|].
  rewrite Eha. cbn [bind].
  repeat (rewrite true_div_by_integer by lia; cbn [bind]).
  rewrite (round_bid_value _ _ _ Eb). cbn [bind].
  rewrite (round_ask_value _ _ _ Ea). cbn [bind].
  eauto.
Qed.

Lemma update_rsi_fault (s : AutoTrader) (vmid : Z) (f : Fault) :
  SigInv s -> snd (update_rsi s vmid) = Raise f ->
  f = ZeroDivisionError /\ (loss (fst (update_rsi s vmid)) == 0)%Q.
Proof.
  intros HI. unfold update_rsi.
  destruct (10 <? len (history_mid s)) eqn:C; [|discriminate].
  apply Z.ltb_lt in C. unfold len in C.
  destruct (store_averages_total s vmid ltac:(lia)) as [s' E]. rewrite E. cbn [fst snd].
  destruct (store_averages_nonneg s s' vmid HI E) as ([G1 G2] & _).
  destruct (Qeq_dec (loss s') 0) as [Z0|NZ].
  - rewrite (zero_loss_raises s' Z0). cbn [bind]. intros [= <-]. split; [reflexivity|exact Z0].
  - destruct (rsi_of_total s' G1 G2 NZ) as [r ->]. cbn [bind]. discriminate.
Qed.

Lemma record_sample_nonempty (s : AutoTrader) (vbid vask vmid : Z) :
  SigInv s -> (1 <= length (history_mid (record_sample s vbid vask vmid)))%nat.
Proof.
  intros (E1 & E2 & L & _).
  destruct (record_sample_window s vbid vask vmid E1 E2 L) as (_ & _ & -> & _).
  rewrite py_last_length, length_app. cbn [length]. lia.
Qed.

(** X6.  In any session, a book message with at least four levels in each
    list and some volume on levels 1 to 3 of both sides either returns, or
    raises [ZeroDivisionError] at line 140 with an average loss of 0
    stored, having sent nothing.  It raises nothing else: no index is out
    of range, and no other divisor is 0. *)
Theorem book_update_raises_only_on_zero_loss (lib : Imports) (es : list Event)
    (i n : Z) (ap av bp bv : list Z) :
  (4 <= length ap)%nat -> (4 <= length av)%nat ->
  (4 <= length bp)%nat -> (4 <= length bv)%nat ->
  py_sum (py_slice bv 1 4) <> 0 ->
  py_sum (py_slice av 1 4) <> 0 ->
  let o := on_order_book_update_message lib (fst (run lib es)) i n ap av bp bv in
  raised o = None
  \/ (raised o = Some ZeroDivisionError
      /\ (loss (after o) == 0)%Q
      /\ sent o = []).
Proof.
  intros Hap Hav Hbp Hbv Sb Sa. cbv zeta.
  pose proof (SigInv_run lib es) as HI.
  set (s := fst (run lib es)) in *. clearbody s.
  destruct ap as [|a0 [|a1 [|a2 [|a3 ap]]]]; try (cbn [length] in Hap; lia).
  destruct av as [|x0 [|x1 [|x2 [|x3 av]]]]; try (cbn [length] in Hav; lia).
  destruct bp as [|b0 [|p1 [|p2 [|p3 bp]]]]; try (cbn [length] in Hbp; lia).
  destruct bv as [|v0 [|v1 [|v2 [|v3 bv]]]]; try (cbn [length] in Hbv; lia).
  change (0 + v1 + v2 + v3 <> 0) in Sb. change (0 + x1 + x2 + x3 <> 0) in Sa.
  unfold on_order_book_update_message.
  destruct (i =? FUTURE lib); [|left; reflexivity].
  destruct (levels_indexed bp b0 p1 p2 p3) as (Eb & _).
  destruct (levels_indexed ap a0 a1 a2 a3) as (Ea & _).
  rewrite Eb.
  destruct (b0 =? 0) eqn:E0; cbn [negb]; [left; reflexivity|].
  rewrite weighted_prices_levels, E0. cbn [negb]. unfold int_floordiv.
  apply Z.eqb_neq in Sb, Sa. rewrite Sb, Sa. cbn [bind].
  set (vbid := (0 + p1 * v1 + p2 * v2 + p3 * v3) / (0 + v1 + v2 + v3)).
  set (vask := (0 + a1 * x1 + a2 * x2 + a3 * x3) / (0 + x1 + x2 + x3)).
  set (vmid := (vbid + vask) / 2).
  pose proof (SigInv_record_sample s vbid vask vmid HI) as HI1.
  pose proof (record_sample_nonempty s vbid vask vmid HI) as Hn.
  set (s1 := record_sample s vbid vask vmid) in *. clearbody s1.
  pose proof (update_rsi_fault s1 vmid) as Hf.
  pose proof (SigInv_update_rsi s1 vmid HI1) as HI2.
  destruct (update_rsi_histories s1 vmid) as (_ & _ & Hm).
  destruct (update_rsi s1 vmid) as [t r]. cbn [fst snd] in Hf, HI2, Hm.
  destruct r as [[[rsi ob] os]|f].
  - left.
    destruct (quote_model_total lib t vbid vask _ _ a0 b0 rsi ob os HI2
                ltac:(rewrite Hm; exact Hn) Ea Eb) as [q ->].
    reflexivity.
  - right. destruct (Hf f HI1 eq_refl) as [-> Hz].
    cbn [raised after sent failed]. auto.
Qed.

(** ** The inserts a book message sends *)

Lemma reconcile_insert_shape (s2 : AutoTrader) (q : Quote)
    (id : Z) (side : Side) (p v : Z) (l : Lifespan) :
  In (send_insert_order id side p v l) (snd (reconcile s2 q)) ->
  v = LOT_SIZE /\ l = GOOD_FOR_DAY /\ p <> 0
  /\ ((side = BUY /\ p = new_bid_price q) \/ (side = SELL /\ p = new_ask_price q)).
Proof.
  unfold reconcile. cbn [fst snd]. rewrite app_assoc. intros H.
  apply in_app_or in H. destruct H as [H|H].
  { apply replace_sends_cancels_only in H. destruct H as [x H]. discriminate. }
  apply in_app_or in H. destruct H as [H|H].
  - destruct (insert_bid_spec (fst (replace_ask (fst (replace_bid s2 q)) q)) q)
      as [(G & Ec & _)|(_ & Ec)]; rewrite Ec in H; cbn [snd] in H; [|destruct H].
    destruct H as [[= <- <- <- <- <-]|[]]. destruct G as (_ & G & _).
    repeat split; trivial. left. split; reflexivity.
  - destruct (insert_ask_spec
                (fst (insert_bid (fst (replace_ask (fst (replace_bid s2 q)) q)) q)) q)
      as [(G & Ec & _)|(_ & Ec)]; rewrite Ec in H; cbn [snd] in H; [|destruct H].
    destruct H as [[= <- <- <- <- <-]|[]]. destruct G as (_ & G & _).
    repeat split; trivial. right. split; reflexivity.
Qed.

Lemma tick_divides_min (a b : Z) :
  (TICK_SIZE_IN_CENTS | a) -> (TICK_SIZE_IN_CENTS | b) -> (TICK_SIZE_IN_CENTS | Z.min a b).
Proof. intros Ha Hb. destruct (Z.min_spec a b) as [[_ ->]|[_ ->]]; assumption. Qed.

Lemma tick_divides_max (a b : Z) :
  (TICK_SIZE_IN_CENTS | a) -> (TICK_SIZE_IN_CENTS | b) -> (TICK_SIZE_IN_CENTS | Z.max a b).
Proof. intros Ha Hb. destruct (Z.max_spec a b) as [[_ ->]|[_ ->]]; assumption. Qed.

(** X7.  Every insert a book message sends, in any session, is for one
    lot, good for the day, at a price that is not 0.  When the two touches
    are exchange prices the price is a positive whole number of ticks, a
    buy is priced at most one tick above the bid touch, and a sell at
    least one tick below the ask touch at the lowest. *)
Theorem inserts_are_well_formed (lib : Imports) (self : AutoTrader)
    (i n : Z) (ap av bp bv : list Z) (b0 a0 : Z)
    (id : Z) (side : Side) (p v : Z) (l : Lifespan) :
  py_index bp 0 = Ok b0 ->
  py_index ap 0 = Ok a0 ->
  In (send_insert_order id side p v l)
     (sent (on_order_book_update_message lib self i n ap av bp bv)) ->
  v = LOT_SIZE /\ l = GOOD_FOR_DAY /\ p <> 0
  /\ (exchange_price b0 -> exchange_price a0 ->
      0 < p /\ (TICK_SIZE_IN_CENTS | p)
      /\ (side = BUY -> p <= b0 + TICK_SIZE_IN_CENTS)
      /\ (side = SELL -> a0 - TICK_SIZE_IN_CENTS <= p)).
Proof.
  intros Eb Ea H.
  destruct (book_quote lib self i ap av bp bv) as [[s2 q]|] eqn:E.
  2: { destruct (book_update_unquoted lib self i n ap av bp bv E) as [Es _].
       rewrite Es in H. destruct H. }
  destruct (book_update_quoted lib self s2 q i n ap av bp bv E) as [Eo _].
  rewrite Eo in H. cbn [sent returned] in H.
  apply reconcile_insert_shape in H. destruct H as (-> & -> & Hp & Hside).
  split; [reflexivity|]. split; [reflexivity|]. split; [exact Hp|].
  intros [Hb0 Hbt] [Ha0 Hat].
  destruct (book_quote_rounds lib self s2 q i ap av bp bv E) as [Rb Ra].
  pose proof (book_quote_bid_touch lib self s2 q i ap av bp bv b0 E Eb) as Hb.
  rewrite (round_bid_value _ _ _ Eb) in Rb. rewrite (round_ask_value _ _ _ Ea) in Ra.
  injection Rb as Rb. injection Ra as Ra.
  apply Z.eqb_neq in Hb. rewrite Hb in Rb.
  destruct (round_down_to_tick_spec (check_bid q)) as (Db & _).
  destruct (round_down_to_tick_spec (check_ask q)) as (Da & _).
  assert (D0 : (TICK_SIZE_IN_CENTS | 0)) by apply Z.divide_0_r.
  assert (DT : (TICK_SIZE_IN_CENTS | TICK_SIZE_IN_CENTS)) by apply Z.divide_refl.
  destruct Hside as [[-> ->]|[-> ->]].
  - rewrite <- Rb in *. unfold TICK_SIZE_IN_CENTS in *.
    split; [lia|]. split.
    + apply tick_divides_min; [apply tick_divides_max; assumption|].
      apply Z.divide_add_r; assumption.
    + split; [intros _; lia|discriminate].
  - rewrite <- Ra in *. destruct (a0 =? 0) eqn:C0; [congruence|].
    unfold TICK_SIZE_IN_CENTS in *.
    split; [lia|]. split.
    + apply tick_divides_max; [apply tick_divides_max; assumption|].
      apply Z.divide_sub_r; assumption.
    + split; [discriminate|intros _; lia].
Qed.

(** ** Position and hedges *)

Lemma hedged_app (l1 l2 : list Command) : hedged (l1 ++ l2) = hedged l1 + hedged l2.
Proof.
  unfold hedged. induction l1 as [|c l1 IH]; cbn [app fold_right]; [lia|].
  rewrite IH. lia.
Qed.

Lemma reconcile_position (s : AutoTrader) (q : Quote) :
  position (fst (reconcile s q)) = position s /\ hedged (snd (reconcile s q)) = 0.
Proof.
  unfold reconcile. cbn [fst snd].
  assert (H1 : forall t, position (fst (replace_bid t q)) = position t
                         /\ hedged (snd (replace_bid t q)) = 0)
    by (intros t; unfold replace_bid; destruct (_ && _); split; reflexivity).
  assert (H2 : forall t, position (fst (replace_ask t q)) = position t
                         /\ hedged (snd (replace_ask t q)) = 0)
    by (intros t; unfold replace_ask; destruct (_ && _); split; reflexivity).
  assert (H3 : forall t, position (fst (insert_bid t q)) = position t
                         /\ hedged (snd (insert_bid t q)) = 0)
    by (intros t; unfold insert_bid; destruct (_ && _); split; reflexivity).
  assert (H4 : forall t, position (fst (insert_ask t q)) = position t
                         /\ hedged (snd (insert_ask t q)) = 0)
    by (intros t; unfold insert_ask; destruct (_ && _); split; reflexivity).
  rewrite !hedged_app.
  rewrite (proj1 (H4 _)), (proj1 (H3 _)), (proj1 (H2 _)), (proj1 (H1 _)).
  rewrite (proj2 (H4 _)), (proj2 (H3 _)), (proj2 (H2 _)), (proj2 (H1 _)).
  split; reflexivity.
Qed.

Lemma dispatch_position (lib : Imports) (s : AutoTrader) (e : Event) :
  position (after (dispatch lib s e))
  = position s + hedged (sent (dispatch lib s e)).
Proof.
  destruct e as [i n ap av bp bv| |id p v|id fv rv fees| |id msg]; cbn [dispatch].
  - destruct (book_quote lib s i ap av bp bv) as [[s2 q]|] eqn:E.
    + destruct (book_update_quoted lib s s2 q i n ap av bp bv E) as [-> Ho].
      cbn [after sent returned]. destruct (reconcile_position s2 q) as [-> ->].
      unfold orders in Ho. injection Ho as _ _ _ _ _ _ _ Hp _ _. lia.
    + destruct (book_update_unquoted lib s i n ap av bp bv E) as [-> Ho].
      unfold orders in Ho. injection Ho as _ _ _ _ _ _ _ Hp _ _. cbn [hedged fold_right]. lia.
  - cbn. lia.
  - unfold on_order_filled_message.
    destruct (bool_decide _); [|destruct (bool_decide _)]; cbn; lia.
  - unfold on_order_status_message. destruct (_ =? 0); [|cbn; lia].
    destruct (_ =? bid_id s); [|destruct (_ =? ask_id s)]; cbn; lia.
  - cbn. lia.
  - unfold on_error_message, on_order_status_message.
    destruct (py_decode _); [|cbn; lia].
    destruct (_ && _); [|cbn; lia]. cbn [Z.eqb].
    destruct (_ =? bid_id s); [|destruct (_ =? ask_id s)]; cbn; lia.
Qed.

Lemma run_from_position (lib : Imports) (es : list Event) (s : AutoTrader)
    (log : list Command) :
  position s = hedged log ->
  position (fst (run_from lib s log es)) = hedged (snd (run_from lib s log es)).
Proof.
  revert s log. induction es as [|e es IH]; intros s log H; cbn [run_from]; [exact H|].
  apply IH. rewrite hedged_app, dispatch_position. lia.
Qed.

(** X8.  In every session the net position equals the volume sold in hedge
    orders minus the volume bought in hedge orders: no handler changes the
    position without sending the hedge for exactly that change, and none
    sends a hedge without the change. *)
Theorem position_is_hedged (lib : Imports) (es : list Event) :
  position (fst (run lib es)) = hedged (snd (run lib es)).
Proof. apply run_from_position. reflexivity. Qed.

(** ** Where tracked and cancelled ids come from *)

Lemma inserted_app (id : Z) (side : Side) (log l : list Command) :
  inserted id side log -> inserted id side (log ++ l).
Proof. intros [p H]. exists p. apply in_or_app. left. exact H. Qed.

Lemma Provenance_grow (s s' : AutoTrader) (log l : list Command) :
  bids s' = bids s -> asks s' = asks s ->
  (forall id, In (send_cancel_order id) l ->
     inserted id BUY log \/ inserted id SELL log) ->
  Provenance s log -> Provenance s' (log ++ l).
Proof.
  intros Eb Ea Hl (P1 & P2 & P3). unfold Provenance. rewrite Eb, Ea.
  split; [|split].
  - intros id H. apply inserted_app, P1, H.
  - intros id H. apply inserted_app, P2, H.
  - intros id [H|H]%in_app_or.
    + destruct (P3 id H); [left|right]; apply inserted_app; assumption.
    + destruct (Hl id H); [left|right]; apply inserted_app; assumption.
Qed.

Lemma Provenance_replace_bid (s : AutoTrader) (q : Quote) (log : list Command) :
  Inv s log -> Provenance s log ->
  Provenance (fst (replace_bid s q)) (log ++ snd (replace_bid s q)).
Proof.
  intros HI HP.
  destruct (replace_bid_spec s q) as [(Hid & _ & _ & ->)|(_ & ->)]; cbn [fst snd].
  - apply (Provenance_grow s); trivial.
    intros id [[= <-]|[]]. left. apply HP.
    destruct (inv_bid_slot _ _ HI); [contradiction|assumption].
  - apply (Provenance_grow s); trivial. intros id [].
Qed.

Lemma Provenance_replace_ask (s : AutoTrader) (q : Quote) (log : list Command) :
  Inv s log -> Provenance s log ->
  Provenance (fst (replace_ask s q)) (log ++ snd (replace_ask s q)).
Proof.
  intros HI HP.
  destruct (replace_ask_spec s q) as [(Hid & _ & _ & ->)|(_ & ->)]; cbn [fst snd].
  - apply (Provenance_grow s); trivial.
    intros id [[= <-]|[]]. right. apply HP.
    destruct (inv_ask_slot _ _ HI); [contradiction|assumption].
  - apply (Provenance_grow s); trivial. intros id [].
Qed.

Lemma Provenance_insert_bid (s : AutoTrader) (q : Quote) (log : list Command) :
  Provenance s log ->
  Provenance (fst (insert_bid s q)) (log ++ snd (insert_bid s q)).
Proof.
  intros (P1 & P2 & P3). unfold insert_bid.
  destruct (_ && _); cbn [fst snd].
  2: { apply (Provenance_grow s); trivial; [intros id []|repeat split; assumption]. }
  cbn [bids asks bid_id set_bids set_bid_ordered set_bid_price set_order_ids set_bid_id].
  split; [|split].
  - intros id [->%elem_of_singleton|H]%elem_of_union.
    + exists (new_bid_price q). apply in_or_app. right. left. reflexivity.
    + apply inserted_app, P1, H.
  - intros id H. apply inserted_app, P2, H.
  - intros id [H|[H|[]]]%in_app_or; [|discriminate].
    destruct (P3 id H); [left|right]; apply inserted_app; assumption.
Qed.

Lemma Provenance_insert_ask (s : AutoTrader) (q : Quote) (log : list Command) :
  Provenance s log ->
  Provenance (fst (insert_ask s q)) (log ++ snd (insert_ask s q)).
Proof.
  intros (P1 & P2 & P3). unfold insert_ask.
  destruct (_ && _); cbn [fst snd].
  2: { apply (Provenance_grow s); trivial; [intros id []|repeat split; assumption]. }
  cbn [bids asks ask_id set_asks set_ask_ordered set_ask_price set_order_ids set_ask_id].
  split; [|split].
  - intros id H. apply inserted_app, P1, H.
  - intros id [->%elem_of_singleton|H]%elem_of_union.
    + exists (new_ask_price q). apply in_or_app. right. left. reflexivity.
    + apply inserted_app, P2, H.
  - intros id [H|[H|[]]]%in_app_or; [|discriminate].
    destruct (P3 id H); [left|right]; apply inserted_app; assumption.
Qed.

Lemma Provenance_reconcile (s : AutoTrader) (q : Quote) (log : list Command) :
  Inv s log -> Provenance s log ->
  Provenance (fst (reconcile s q)) (log ++ snd (reconcile s q)).
Proof.
  intros HI HP. unfold reconcile. cbn [fst snd]. rewrite !app_assoc.
  apply Provenance_insert_ask, Provenance_insert_bid.
  apply Provenance_replace_ask; [apply Inv_replace_bid, HI|].
  apply Provenance_replace_bid; assumption.
Qed.

Lemma Provenance_orders (s s' : AutoTrader) (log : list Command) :
  orders s = orders s' -> Provenance s log -> Provenance s' log.
Proof.
  unfold orders, Provenance. intros [= _ E2 E3 _ _ _ _ _ _ _]. rewrite E2, E3. trivial.
Qed.

Lemma Provenance_shrink (s s' : AutoTrader) (log : list Command) :
  bids s' ⊆ bids s -> asks s' ⊆ asks s -> Provenance s log -> Provenance s' (log ++ []).
Proof.
  intros Hb Ha (P1 & P2 & P3). rewrite app_nil_r. split; [|split]; auto.
Qed.

Lemma status_sets (s : AutoTrader) (id fv rv fees : Z) :
  let o := on_order_status_message s id fv rv fees in
  sent o = []
  /\ ((rv <> 0 /\ after o = s)
      \/ (rv = 0 /\ bids (after o) = bids s ∖ {[id]} /\ asks (after o) = asks s ∖ {[id]})).
Proof.
  cbv zeta. unfold on_order_status_message.
  destruct (rv =? 0) eqn:E; [apply Z.eqb_eq in E|apply Z.eqb_neq in E].
  - split; [reflexivity|]. right. split; [exact E|].
    destruct (id =? bid_id s); [|destruct (id =? ask_id s)]; split; reflexivity.
  - split; [reflexivity|]. left. split; [exact E|reflexivity].
Qed.

Lemma Provenance_status (s : AutoTrader) (id fv rv fees : Z) (log : list Command) :
  Provenance s log ->
  Provenance (after (on_order_status_message s id fv rv fees))
             (log ++ sent (on_order_status_message s id fv rv fees)).
Proof.
  intros HP. destruct (status_sets s id fv rv fees) as [-> [[_ ->]|(_ & Eb & Ea)]].
  - apply (Provenance_shrink s); [reflexivity|reflexivity|exact HP].
  - apply (Provenance_shrink s); [rewrite Eb|rewrite Ea|exact HP];
      apply subseteq_difference_l; reflexivity.
Qed.

Lemma Provenance_dispatch (lib : Imports) (s : AutoTrader) (e : Event)
    (log : list Command) :
  Inv s log -> Provenance s log ->
  Provenance (after (dispatch lib s e)) (log ++ sent (dispatch lib s e)).
Proof.
  intros HI HP.
  destruct e as [i n ap av bp bv| |id p v|id fv rv fees| |id msg]; cbn [dispatch].
  - destruct (book_quote lib s i ap av bp bv) as [[s2 q]|] eqn:E.
    + destruct (book_update_quoted lib s s2 q i n ap av bp bv E) as [-> Ho].
      cbn [after sent returned]. apply Provenance_reconcile.
      * apply (Inv_orders s); [symmetry; exact Ho|exact HI].
      * apply (Provenance_orders s); [symmetry; exact Ho|exact HP].
    + destruct (book_update_unquoted lib s i n ap av bp bv E) as [-> Ho].
      rewrite app_nil_r. apply (Provenance_orders s); [symmetry; exact Ho|exact HP].
  - apply (Provenance_shrink s); [reflexivity|reflexivity|exact HP].
  - unfold on_order_filled_message.
    destruct (bool_decide _); [|destruct (bool_decide _)]; cbn [after sent returned].
    + apply (Provenance_grow s); trivial. intros x [H|[]]. discriminate.
    + apply (Provenance_grow s); trivial. intros x [H|[]]. discriminate.
    + apply (Provenance_shrink s); [reflexivity|reflexivity|exact HP].
  - apply Provenance_status, HP.
  - apply (Provenance_shrink s); [reflexivity|reflexivity|exact HP].
  - unfold on_error_message.
    destruct (py_decode _);
      [|apply (Provenance_shrink s); [reflexivity|reflexivity|exact HP]].
    destruct (_ && _).
    + apply Provenance_status, HP.
    + apply (Provenance_shrink s); [reflexivity|reflexivity|exact HP].
Qed.

Lemma Provenance_run_from (lib : Imports) (es : list Event) (s : AutoTrader)
    (log : list Command) :
  Inv s log -> Provenance s log ->
  Provenance (fst (run_from lib s log es)) (snd (run_from lib s log es)).
Proof.
  revert s log. induction es as [|e es IH]; intros s log HI HP; cbn [run_from];
    [exact HP|].
  apply IH; [apply Inv_dispatch, HI|apply Provenance_dispatch; assumption].
Qed.

Lemma inserted_is_issued (id : Z) (side : Side) (log : list Command) :
  inserted id side log -> In id (issued_ids log).
Proof.
  intros [p H]. unfold issued_ids. apply in_flat_map.
  eexists. split; [exact H|]. left. reflexivity.
Qed.

(** X9.  In every session each id in the bid set is the id of a buy insert
    sent earlier and each id in the ask set the id of a sell insert sent
    earlier; and every cancel ever sent names an id that an earlier insert
    carried, never the id 0. *)
Theorem tracked_and_cancelled_ids_were_inserted (lib : Imports) (es : list Event) :
  let s := fst (run lib es) in
  let log := snd (run lib es) in
  (forall id, id ∈ bids s ->
     exists p, In (send_insert_order id BUY p LOT_SIZE GOOD_FOR_DAY) log)
  /\ (forall id, id ∈ asks s ->
        exists p, In (send_insert_order id SELL p LOT_SIZE GOOD_FOR_DAY) log)
  /\ (forall id, In (send_cancel_order id) log ->
        id <> 0
        /\ exists side p, In (send_insert_order id side p LOT_SIZE GOOD_FOR_DAY) log).
Proof.
  cbv zeta.
  assert (HP : Provenance (fst (run lib es)) (snd (run lib es))).
  { apply Provenance_run_from; [apply Inv_init|].
    split; [|split]; [intros id H; set_solver|intros id H; set_solver|intros id []]. }
  pose proof (inv_issued _ _ (Inv_run lib es)) as Hi.
  destruct HP as (P1 & P2 & P3). split; [exact P1|]. split; [exact P2|].
  intros id H. destruct (P3 id H) as [Hs|Hs].
  - split; [|destruct Hs as [p Hp]; eauto].
    apply inserted_is_issued in Hs. rewrite Hi in Hs. apply count_from_bounds in Hs. lia.
  - split; [|destruct Hs as [p Hp]; eauto].
    apply inserted_is_issued in Hs. rewrite Hi in Hs. apply count_from_bounds in Hs. lia.
Qed.

(** ** Status and error messages *)

Lemma set_bid_id_same (s : AutoTrader) : set_bid_id (bid_id s) s = s.
Proof. destruct s; reflexivity. Qed.

Lemma set_ask_id_same (s : AutoTrader) : set_ask_id (ask_id s) s = s.
Proof. destruct s; reflexivity. Qed.

Lemma set_sets_same (s : AutoTrader) (X Y : gset Z) :
  X = bids s -> Y = asks s -> set_asks Y (set_bids X s) = s.
Proof. intros -> ->. destruct s; reflexivity. Qed.

Lemma without_absent (X : gset Z) (id : Z) : id ∉ X -> X ∖ {[id]} = X.
Proof.
  intros H. apply set_eq. intros x. rewrite elem_of_difference, elem_of_singleton.
  split; [tauto|]. intros Hx. split; [exact Hx|]. intros ->. contradiction.
Qed.

(** X10.  A status message in any session sends nothing and leaves the
    position, both pending volumes, both resting prices, the id counter
    and the price model's state as they were.  With a remaining volume
    other than 0 it changes nothing at all.  With a remaining volume of 0
    the id leaves both tracking sets, every other id stays, a slot holding
    the id is cleared and a slot holding another id is kept.  (The lot the
    order had reserved in the pending volume is not given back.) *)
Theorem status_closes_the_order (lib : Imports) (es : list Event)
    (id fill_volume remaining_volume fees : Z) :
  let s := fst (run lib es) in
  let o := on_order_status_message s id fill_volume remaining_volume fees in
  raised o = None /\ sent o = []
  /\ (position (after o), bid_ordered (after o), ask_ordered (after o),
      bid_price (after o), ask_price (after o), order_ids (after o))
     = (position s, bid_ordered s, ask_ordered s, bid_price s, ask_price s, order_ids s)
  /\ signals (after o) = signals s
  /\ (remaining_volume <> 0 -> after o = s)
  /\ (remaining_volume = 0 ->
      bids (after o) = bids s ∖ {[id]}
      /\ asks (after o) = asks s ∖ {[id]}
      /\ (id <> 0 -> bid_id (after o) <> id /\ ask_id (after o) <> id)
      /\ (bid_id s <> id -> bid_id (after o) = bid_id s)
      /\ (ask_id s <> id -> ask_id (after o) = ask_id s)).
Proof.
  cbv zeta.
  pose proof (Inv_run lib es) as HI.
  set (s := fst (run lib es)) in *. set (log := snd (run lib es)) in *.
  clearbody s log.
  unfold on_order_status_message.
  destruct (remaining_volume =? 0) eqn:E; [apply Z.eqb_eq in E|apply Z.eqb_neq in E].
  2: { repeat split; trivial; intros; congruence. }
  destruct (id =? bid_id s) eqn:Eb; [apply Z.eqb_eq in Eb|apply Z.eqb_neq in Eb];
    [|destruct (id =? ask_id s) eqn:Ea; [apply Z.eqb_eq in Ea|apply Z.eqb_neq in Ea]];
    cbn [raised sent after returned position bid_ordered ask_ordered bid_price
         ask_price order_ids bids asks bid_id ask_id set_bids set_asks set_bid_id set_ask_id];
    (split; [reflexivity|]); (split; [reflexivity|]); (split; [reflexivity|]);
    (split; [reflexivity|]); (split; [intros; congruence|]); intros _;
    (split; [reflexivity|]); (split; [reflexivity|]).
  - split; [|split; [congruence|reflexivity]].
    intros Hne. split; [congruence|]. intros Ha.
    destruct (inv_bid_slot _ _ HI) as [H|H]; [congruence|].
    destruct (inv_ask_slot _ _ HI) as [H'|H']; [congruence|].
    apply (inv_disjoint _ _ HI (bid_id s)); [exact H|]. rewrite <- Eb, <- Ha. exact H'.
  - split; [|split; [reflexivity|congruence]].
    intros Hne. split; congruence.
  - split; [|split; reflexivity].
    intros Hne. split; congruence.
Qed.

(** What [decode] raises is [UnicodeDecodeError]. *)
Lemma py_decode_fault_bounded (n : nat) :
  forall (bs : list Byte.byte) (f : Fault),
    (length bs <= n)%nat -> py_decode bs = Raise f -> f = UnicodeDecodeError.
Proof.
  induction n as [|n IH]; intros bs f Hn H.
  - destruct bs; [discriminate|cbn [length] in Hn; lia].
  - destruct bs as [|b0 r0]; [discriminate|].
    cbn [py_decode] in H. cbv zeta in H. cbn [length] in Hn.
    assert (T : forall (r : list Byte.byte) (k : list Z -> Res (list Z)),
               (length r <= n)%nat ->
               (forall t, k t <> Raise f) ->
               bind (py_decode r) k = Raise f -> f = UnicodeDecodeError).
    { intros r k Hr Hk E. destruct (py_decode r) as [t|g] eqn:D; cbn [bind] in E.
      - exfalso. exact (Hk t E).
      - injection E as ->. exact (IH r f Hr D). }
    destruct (byte_value b0 <? 128).
    { refine (T _ _ _ _ H); [lia|discriminate]. }
    destruct r0 as [|b1 r1]; [congruence|]. cbn [length] in Hn.
    destruct (between 194 223 (byte_value b0)).
    { destruct (continuation _); [|congruence].
      refine (T _ _ _ _ H); [lia|discriminate]. }
    destruct r1 as [|b2 r2]; [congruence|]. cbn [length] in Hn.
    destruct (between 224 239 (byte_value b0)).
    { destruct (_ && _); [|congruence].
      refine (T _ _ _ _ H); [lia|discriminate]. }
    destruct r2 as [|b3 r3]; [congruence|]. cbn [length] in Hn.
    destruct (_ && _); [|congruence].
    refine (T _ _ _ _ H); [lia|discriminate].
Qed.

Lemma py_decode_fault (bs : list Byte.byte) (f : Fault) :
  py_decode bs = Raise f -> f = UnicodeDecodeError.
Proof. apply (py_decode_fault_bounded (length bs)). lia. Qed.

(** The decoder on short inputs: plain ASCII; the two-, three- and
    four-byte forms of U+00E9, U+20AC and U+1F600; and what it refuses: a
    lone continuation byte, the overlong form of U+0000, a form cut short,
    a surrogate, a code point above U+10FFFF, the byte 0xFF. *)
Example py_decode_examples :
  py_decode [Byte.x6e; Byte.x6f] = Ok [110; 111]
  /\ py_decode [Byte.xc3; Byte.xa9] = Ok [233]
  /\ py_decode [Byte.xe2; Byte.x82; Byte.xac] = Ok [8364]
  /\ py_decode [Byte.xf0; Byte.x9f; Byte.x98; Byte.x80] = Ok [128512]
  /\ py_decode [Byte.x80] = Raise UnicodeDecodeError
  /\ py_decode [Byte.xc0; Byte.x80] = Raise UnicodeDecodeError
  /\ py_decode [Byte.xe2; Byte.x82] = Raise UnicodeDecodeError
  /\ py_decode [Byte.xed; Byte.xa0; Byte.x80] = Raise UnicodeDecodeError
  /\ py_decode [Byte.xf4; Byte.x90; Byte.x80; Byte.x80] = Raise UnicodeDecodeError
  /\ py_decode [Byte.x6e; Byte.xff] = Raise UnicodeDecodeError.
Proof. vm_compute. repeat split. Qed.

(** X11.  Messages about an id that is in neither tracking set leave the
    session as it is and send nothing, in every session: a status message
    (whatever its volumes) and a fill message for such an id return with
    the session unchanged; an error message for such an id leaves the
    session unchanged as well, and returns when its text is UTF-8 and
    raises [UnicodeDecodeError] (line 65) when it is not. *)
Theorem unknown_ids_are_ignored (lib : Imports) (es : list Event)
    (id a b c : Z) (msg : list Byte.byte) :
  let s := fst (run lib es) in
  id ∉ bids s -> id ∉ asks s ->
  on_order_status_message s id a b c = {| raised := None; after := s; sent := [] |}
  /\ on_order_filled_message lib s id a b = {| raised := None; after := s; sent := [] |}
  /\ on_error_message s id msg
     = {| raised := match py_decode msg with
                    | Ok _ => None
                    | Raise _ => Some UnicodeDecodeError
                    end;
          after := s; sent := [] |}.
Proof.
  cbv zeta. intros Hb Ha.
  pose proof (Inv_run lib es) as HI.
  set (s := fst (run lib es)) in *. set (log := snd (run lib es)) in *.
  clearbody s log.
  split; [|split].
  - unfold on_order_status_message. destruct (b =? 0); [|reflexivity].
    unfold returned. f_equal.
    destruct (id =? bid_id s) eqn:Eb; [apply Z.eqb_eq in Eb|];
      [|destruct (id =? ask_id s) eqn:Ea; [apply Z.eqb_eq in Ea|]].
    + destruct (inv_bid_slot _ _ HI) as [H|H]; [|exfalso; apply Hb; rewrite Eb; exact H].
      assert (E0 : set_bid_id 0 s = s) by (rewrite <- H; apply set_bid_id_same).
      rewrite E0. apply set_sets_same; apply without_absent; assumption.
    + destruct (inv_ask_slot _ _ HI) as [H|H]; [|exfalso; apply Ha; rewrite Ea; exact H].
      assert (E0 : set_ask_id 0 s = s) by (rewrite <- H; apply set_ask_id_same).
      rewrite E0. apply set_sets_same; apply without_absent; assumption.
    + apply set_sets_same; apply without_absent; assumption.
  - unfold on_order_filled_message.
    rewrite (bool_decide_eq_false_2 _ Hb), (bool_decide_eq_false_2 _ Ha). reflexivity.
  - unfold on_error_message.
    destruct (py_decode msg) as [str|f] eqn:D.
    + rewrite (bool_decide_eq_false_2 _ Hb), (bool_decide_eq_false_2 _ Ha).
      rewrite andb_false_r. reflexivity.
    + rewrite (py_decode_fault _ _ D). reflexivity.
Qed.

(** ** The first sample of a session *)

Lemma quote_model_single (lib : Imports) (s : AutoTrader) (vbid vask vmid : Z)
    (ap bp : list Z) (a0 b0 : Z) :
  history_vbid s = [vbid] -> history_vask s = [vask] -> history_mid s = [vmid] ->
  py_index ap 0 = Ok a0 -> py_index bp 0 = Ok b0 ->
  exists q,
    quote_model lib s vbid vask ap bp (-1) false false = Ok q
    /\ (check_bid q == inject_Z vbid)%Q /\ (check_ask q == inject_Z vask)%Q
    /\ (grad_bid q == 0)%Q /\ (grad_ask q == 0)%Q
    /\ (deviation_bid q, deviation_ask q, over_bought_rsi q, over_sold_rsi q)
       = (false, false, false, false).
Proof.
  intros H1 H2 H3 Ea Eb. unfold quote_model, deviation. rewrite H1, H2, H3.
  change (len [vask]) with 1. change (len [vbid]) with 1. change (len [vmid]) with 1.
  cbv zeta.
  change (1 - 1) with 0. change (0 - 6) with (-6). change (0 - 5) with (-5).
  change (Z.max 0 (-6)) with 0. change (Z.max 0 (-5)) with 0. change (0 + 1) with 1.
  change (2 <=? 1) with false. cbv iota.
  unfold for_range. change (Z.to_nat (1 - 0)) with 1%nat. cbn [for_loop].
  change (py_index [vask] 0) with (Ok vask). change (py_index [vbid] 0) with (Ok vbid).
  cbn [bind fst snd].
  change (Qle_bool (4 # 5) (Qabs (rvalue zero_regression))) with false.
  change (Qeq_bool (-1) (-1)) with true. cbv iota.
  change (Z.max 1 (Z.min 7 1)) with 1. change (Z.min 1 5) with 1.
  rewrite !Z.sub_diag, !Z.add_0_l.
  repeat (rewrite true_div_by_integer by lia; cbn [bind]).
  rewrite (round_bid_value _ _ _ Eb), (round_ask_value _ _ _ Ea). cbn [bind].
  eexists. split; [reflexivity|].
  cbn [check_bid check_ask grad_bid grad_ask deviation_bid deviation_ask
       over_bought_rsi over_sold_rsi].
  assert (Nb : ~ (inject_Z (Z.max vbid 1) == 0)%Q)
    by (intros H; apply Qeq_bool_iff in H; rewrite inject_Z_nonzero in H by lia; discriminate).
  assert (Na : ~ (inject_Z (Z.max vask 1) == 0)%Q)
    by (intros H; apply Qeq_bool_iff in H; rewrite inject_Z_nonzero in H by lia; discriminate).
  change (inject_Z 0) with 0%Q. change (inject_Z 1) with 1%Q.
  repeat split; try (field; assumption).
Qed.

Lemma round_down_to_tick_of_integer (x : Q) (z : Z) :
  (x == inject_Z z)%Q ->
  round_down_to_tick x = z / TICK_SIZE_IN_CENTS * TICK_SIZE_IN_CENTS.
Proof.
  intros H. unfold round_down_to_tick. rewrite H, <- Zdiv_Qdiv. reflexivity.
Qed.

(** X12.  The first sample of a session: a FUTURE book with a bid touch,
    received while the three series are empty, reaches the order logic
    without consulting the regression, the deviation or the RSI.  The bid
    target is the weighted bid rounded down to a tick, floored at 0 and
    capped one tick above the bid touch; the ask target is 0 for an ask
    touch of 0 and else the weighted ask rounded down to a tick, floored at
    0 and at one tick below the ask touch; all four flags are off. *)
Theorem first_sample_targets (lib : Imports) (self : AutoTrader) (n : Z)
    (ap av bp bv : list Z) (a0 b0 vbid vask vmid : Z) :
  history_vbid self = [] -> history_vask self = [] -> history_mid self = [] ->
  py_index ap 0 = Ok a0 -> py_index bp 0 = Ok b0 -> b0 <> 0 ->
  weighted_prices ap av bp bv = Ok (vbid, vask, vmid) ->
  exists s2 q,
    book_quote lib self (FUTURE lib) ap av bp bv = Some (s2, q)
    /\ (history_vbid s2, history_vask s2, history_mid s2) = ([vbid], [vask], [vmid])
    /\ new_bid_price q
       = Z.min (Z.max (vbid / TICK_SIZE_IN_CENTS * TICK_SIZE_IN_CENTS) 0)
               (b0 + TICK_SIZE_IN_CENTS)
    /\ new_ask_price q
       = (if a0 =? 0 then 0
          else Z.max (Z.max (vask / TICK_SIZE_IN_CENTS * TICK_SIZE_IN_CENTS) 0)
                     (a0 - TICK_SIZE_IN_CENTS))
    /\ (deviation_bid q, deviation_ask q, over_bought_rsi q, over_sold_rsi q)
       = (false, false, false, false).
Proof.
  intros H1 H2 H3 Ea Eb Hne Ew.
  assert (S1 : history_vbid (record_sample self vbid vask vmid) = [vbid]
               /\ history_vask (record_sample self vbid vask vmid) = [vask]
               /\ history_mid (record_sample self vbid vask vmid) = [vmid]).
  { unfold record_sample.
    cbn [history_vbid history_vask history_mid
         set_history_vbid set_history_vask set_history_mid].
    rewrite H1, H2, H3. cbn [app]. change (15 <? len [vbid]) with false. cbv iota.
    cbn [history_vbid history_vask history_mid
         set_history_vbid set_history_vask set_history_mid].
    repeat split; reflexivity. }
  destruct S1 as (S1 & S2 & S3).
  set (s1 := record_sample self vbid vask vmid) in *.
  assert (U : update_rsi s1 vmid = (s1, Ok ((-1)%Q, false, false))).
  { unfold update_rsi. rewrite S3. reflexivity. }
  destruct (quote_model_single lib s1 vbid vask vmid ap bp a0 b0 S1 S2 S3 Ea Eb)
    as (q & Eq & Cb & Ca & _ & _ & Fl).
  exists s1, q.
  destruct (quote_model_rounds lib s1 vbid vask ap bp _ _ _ q Eq) as [Rb Ra].
  rewrite (round_bid_value _ _ _ Eb) in Rb. rewrite (round_ask_value _ _ _ Ea) in Ra.
  injection Rb as Rb. injection Ra as Ra.
  rewrite (round_down_to_tick_of_integer _ _ Cb) in Rb.
  rewrite (round_down_to_tick_of_integer _ _ Ca) in Ra.
  apply Z.eqb_neq in Hne. rewrite Hne in Rb.
  split; [|split; [rewrite S1, S2, S3; reflexivity|split; [symmetry; exact Rb|split; [symmetry; exact Ra|exact Fl]]]].
  unfold book_quote. rewrite Z.eqb_refl, Eb, Hne. cbn [negb]. rewrite Ew.
  fold s1. rewrite U, Eq. reflexivity.
Qed.

(** X13.  An error message about a tracked id, in any session.  When its
    text is UTF-8 it has the effect of a status message with no remaining
    volume: the id leaves both sets, a slot holding it is cleared, nothing
    is sent.  (Tracked ids are never 0, so the test for 0 on line 66 never
    stops it.)  When its text is not UTF-8 the call raises
    [UnicodeDecodeError] on line 65, before that: the session is unchanged,
    the order stays tracked and nothing is sent. *)
Theorem error_closes_tracked_order (lib : Imports) (es : list Event)
    (id : Z) (msg : list Byte.byte) :
  let s := fst (run lib es) in
  let o := on_error_message s id msg in
  (id ∈ bids s) \/ (id ∈ asks s) ->
  match py_decode msg with
  | Ok _ =>
      o = on_order_status_message s id 0 0 0
      /\ sent o = []
      /\ (id ∉ bids (after o)) /\ (id ∉ asks (after o))
      /\ bid_id (after o) <> id /\ ask_id (after o) <> id
  | Raise _ =>
      o = {| raised := Some UnicodeDecodeError; after := s; sent := [] |}
  end.
Proof.
  cbv zeta. intros Hin.
  pose proof (Inv_run lib es) as HI.
  set (s := fst (run lib es)) in *. set (log := snd (run lib es)) in *.
  clearbody s log.
  assert (Hid : 1 <= id)
    by (destruct Hin as [H|H]; [apply (inv_bids _ _ HI) in H|apply (inv_asks _ _ HI) in H]; lia).
  destruct (py_decode msg) as [str|f] eqn:D;
    [|unfold on_error_message; rewrite D, (py_decode_fault _ _ D); reflexivity].
  assert (E : on_error_message s id msg = on_order_status_message s id 0 0 0).
  { unfold on_error_message. rewrite D.
    replace (id =? 0) with false by (symmetry; apply Z.eqb_neq; lia).
    destruct Hin as [H|H].
    - rewrite (bool_decide_eq_true_2 _ H). reflexivity.
    - rewrite (bool_decide_eq_true_2 _ H). rewrite orb_true_r. reflexivity. }
  rewrite E. split; [reflexivity|].
  unfold on_order_status_message. cbn [Z.eqb].
  destruct (id =? bid_id s) eqn:Eb; [apply Z.eqb_eq in Eb|apply Z.eqb_neq in Eb];
    [|destruct (id =? ask_id s) eqn:Ea; [apply Z.eqb_eq in Ea|apply Z.eqb_neq in Ea]];
    cbn [sent after returned bids asks bid_id ask_id set_bids set_asks set_bid_id set_ask_id];
    (split; [reflexivity|]);
    (split; [intros [_ H]%elem_of_difference; apply H, elem_of_singleton; reflexivity|]);
    (split; [intros [_ H]%elem_of_difference; apply H, elem_of_singleton; reflexivity|]).
  - split; [lia|]. intros Ha.
    destruct (inv_bid_slot _ _ HI) as [H|H]; [lia|].
    destruct (inv_ask_slot _ _ HI) as [H'|H']; [lia|].
    apply (inv_disjoint _ _ HI (bid_id s)); [exact H|]. rewrite <- Eb, <- Ha. exact H'.
  - split; [congruence|lia].
  - split; congruence.
Qed.

(** ** The further properties at work on the scenarios *)

Lemma sample_is_appended_example :
  let s := fst (run level_lib [steady_book]) in
  let s' := after (on_order_book_update_message level_lib s (FUTURE level_lib) 2
                     [10200; 10300; 10300; 10300; 10400] [5; 1; 1; 1; 5]
                     [10000; 9900; 9900; 9900; 9800] [5; 1; 1; 1; 5]) in
  history_vbid s' = py_last 15 (history_vbid s ++ [9900])
  /\ history_vask s' = py_last 15 (history_vask s ++ [10300])
  /\ history_mid s' = py_last 15 (history_mid s ++ [10100]).
Proof.
  apply (sample_is_appended level_lib [steady_book] 2 _ _ _ _ 10000 9900 10300 10100).
  - reflexivity.
  - discriminate.
  - reflexivity.
Defined.

Lemma rsi_is_sentinel_or_percentage_example :
  let s1 := record_sample
              (fst (run level_lib (map (future_book level_lib)
                                       (map levels_around (firstn 10 sample_mids)))))
              9800 10400 10100 in
  ((length (history_mid s1) <= 10)%nat
   /\ (900000 # 10000) = (-1)%Q /\ true = false /\ false = false)
  \/ ((11 <= length (history_mid s1))%nat
      /\ (0 <= 900000 # 10000)%Q /\ (900000 # 10000 <= 100)%Q
      /\ (true = true <-> (75 < 900000 # 10000)%Q)
      /\ (false = true <-> (900000 # 10000 < 25)%Q)).
Proof.
  apply (rsi_is_sentinel_or_percentage level_lib
           (map (future_book level_lib) (map levels_around (firstn 10 sample_mids)))
           9800 10400 10100 (900000 # 10000) true false).
  vm_compute. reflexivity.
Defined.

Lemma weighted_prices_are_averages_example :
  9900 = (9900 * 1 + 9900 * 1 + 9900 * 1) / (1 + 1 + 1)
  /\ Z.min 9900 (Z.min 9900 9900) <= 9900 <= Z.max 9900 (Z.max 9900 9900)
  /\ 10300 = (10300 * 1 + 10300 * 1 + 10300 * 1) / (1 + 1 + 1)
  /\ Z.min 10300 (Z.min 10300 10300) <= 10300 <= Z.max 10300 (Z.max 10300 10300)
  /\ 10100 = (9900 + 10300) / 2
  /\ Z.min 9900 10300 <= 10100 <= Z.max 9900 10300.
Proof.
  apply (weighted_prices_are_averages 10200 10300 10300 10300 5 1 1 1
           10000 9900 9900 9900 5 1 1 1 [10400] [5] [9800] [5] 9900 10300 10100);
    try lia.
  reflexivity.
Defined.

Lemma book_update_raises_only_on_zero_loss_example :
  let o := on_order_book_update_message level_lib (fst (run level_lib [steady_book])) 0 2
             [10200; 10300; 10300; 10300; 10400] [5; 1; 1; 1; 5]
             [10000; 9900; 9900; 9900; 9800] [5; 1; 1; 1; 5] in
  raised o = None
  \/ (raised o = Some ZeroDivisionError /\ (loss (after o) == 0)%Q /\ sent o = []).
Proof.
  apply (book_update_raises_only_on_zero_loss level_lib [steady_book] 0 2);
    try (cbn [length]; lia); vm_compute; discriminate.
Defined.

Lemma inserts_are_well_formed_example :
  10 = LOT_SIZE /\ GOOD_FOR_DAY = GOOD_FOR_DAY /\ 9900 <> 0
  /\ (exchange_price 10000 -> exchange_price 10200 ->
      0 < 9900 /\ (TICK_SIZE_IN_CENTS | 9900)
      /\ (BUY = BUY -> 9900 <= 10000 + TICK_SIZE_IN_CENTS)
      /\ (BUY = SELL -> 10200 - TICK_SIZE_IN_CENTS <= 9900)).
Proof.
  apply (inserts_are_well_formed level_lib init 0 1
           [10200; 10300; 10300; 10300; 10400] [5; 1; 1; 1; 5]
           [10000; 9900; 9900; 9900; 9800] [5; 1; 1; 1; 5] 10000 10200 1).
  - reflexivity.
  - reflexivity.
  - vm_compute. left. reflexivity.
Defined.

Lemma unknown_ids_are_ignored_example :
  let s := fst (run level_lib [steady_book]) in
  on_order_status_message s 7 10 0 0 = {| raised := None; after := s; sent := [] |}
  /\ on_order_filled_message level_lib s 7 10 0
     = {| raised := None; after := s; sent := [] |}
  /\ on_error_message s 7 [Byte.xff]
     = {| raised := Some UnicodeDecodeError; after := s; sent := [] |}.
Proof.
  apply (unknown_ids_are_ignored level_lib [steady_book] 7 10 0 0 [Byte.xff]).
  - apply (bool_decide_unpack _). vm_compute. exact I.
  - apply (bool_decide_unpack _). vm_compute. exact I.
Defined.

Lemma first_sample_targets_example :
  exists s2 q,
    book_quote level_lib init (FUTURE level_lib)
      [10200; 10300; 10300; 10300; 10400] [5; 1; 1; 1; 5]
      [10000; 9900; 9900; 9900; 9800] [5; 1; 1; 1; 5] = Some (s2, q)
    /\ (history_vbid s2, history_vask s2, history_mid s2) = ([9900], [10300], [10100])
    /\ new_bid_price q
       = Z.min (Z.max (9900 / TICK_SIZE_IN_CENTS * TICK_SIZE_IN_CENTS) 0)
               (10000 + TICK_SIZE_IN_CENTS)
    /\ new_ask_price q
       = (if 10200 =? 0 then 0
          else Z.max (Z.max (10300 / TICK_SIZE_IN_CENTS * TICK_SIZE_IN_CENTS) 0)
                     (10200 - TICK_SIZE_IN_CENTS))
    /\ (deviation_bid q, deviation_ask q, over_bought_rsi q, over_sold_rsi q)
       = (false, false, false, false).
Proof.
  apply (first_sample_targets level_lib init 1
           [10200; 10300; 10300; 10300; 10400] [5; 1; 1; 1; 5]
           [10000; 9900; 9900; 9900; 9800] [5; 1; 1; 1; 5]
           10200 10000 9900 10300 10100); try reflexivity.
  discriminate.
Defined.

Lemma error_closes_tracked_order_example :
  let s := fst (run level_lib [steady_book]) in
  let o := on_error_message s 1 [Byte.x6e; Byte.x6f] in
  (o = on_order_status_message s 1 0 0 0
   /\ sent o = []
   /\ (1 ∉ bids (after o)) /\ (1 ∉ asks (after o))
   /\ bid_id (after o) <> 1 /\ ask_id (after o) <> 1)
  /\ on_error_message s 1 [Byte.xff]
     = {| raised := Some UnicodeDecodeError; after := s; sent := [] |}.
Proof.
  assert (H : (1 ∈ bids (fst (run level_lib [steady_book])))
              \/ (1 ∈ asks (fst (run level_lib [steady_book]))))
    by (left; apply (bool_decide_unpack _); vm_compute; exact I).
  split.
  - exact (error_closes_tracked_order level_lib [steady_book] 1
             [Byte.x6e; Byte.x6f] H).
  - exact (error_closes_tracked_order level_lib [steady_book] 1 [Byte.xff] H).
Defined.

(** ** What one book message can send *)

Lemma reconcile_commands (s : AutoTrader) (q : Quote) :
  exists cb ca ib ia,
    snd (reconcile s q) = cb ++ ca ++ ib ++ ia
    /\ (cb = [] \/ (bid_id s <> 0 /\ cb = [send_cancel_order (bid_id s)]))
    /\ (ca = [] \/ (ask_id s <> 0 /\ ca = [send_cancel_order (ask_id s)]))
    /\ (ib = [] \/ ib = [send_insert_order (order_ids s) BUY (new_bid_price q)
                           LOT_SIZE GOOD_FOR_DAY])
    /\ (ia = [] \/ ia = [send_insert_order (order_ids s + Z.of_nat (length ib)) SELL
                           (new_ask_price q) LOT_SIZE GOOD_FOR_DAY])
    /\ order_ids (fst (reconcile s q))
       = order_ids s + Z.of_nat (length ib) + Z.of_nat (length ia)
    /\ bids s ⊆ bids (fst (reconcile s q))
    /\ asks s ⊆ asks (fst (reconcile s q)).
Proof.
  unfold reconcile. cbn [fst snd].
  remember (replace_bid s q) as r1 eqn:R1.
  remember (replace_ask (fst r1) q) as r2 eqn:R2.
  remember (insert_bid (fst r2) q) as r3 eqn:R3.
  remember (insert_ask (fst r3) q) as r4 eqn:R4.
  exists (snd r1), (snd r2), (snd r3), (snd r4).
  split; [reflexivity|].
  assert (F1 : (snd r1 = [] \/ (bid_id s <> 0 /\ snd r1 = [send_cancel_order (bid_id s)]))
               /\ order_ids (fst r1) = order_ids s /\ ask_id (fst r1) = ask_id s
               /\ bids (fst r1) = bids s /\ asks (fst r1) = asks s).
  { rewrite R1.
    destruct (replace_bid_spec s q) as [(H & _ & _ & ->)|(_ & ->)]; cbn [fst snd];
      repeat split; auto. }
  assert (F2 : (snd r2 = []
                \/ (ask_id (fst r1) <> 0 /\ snd r2 = [send_cancel_order (ask_id (fst r1))]))
               /\ order_ids (fst r2) = order_ids (fst r1)
               /\ bids (fst r2) = bids (fst r1) /\ asks (fst r2) = asks (fst r1)).
  { rewrite R2.
    destruct (replace_ask_spec (fst r1) q) as [(H & _ & _ & ->)|(_ & ->)]; cbn [fst snd];
      repeat split; auto. }
  assert (F3 : (snd r3 = [] /\ order_ids (fst r3) = order_ids (fst r2)
                /\ bids (fst r3) = bids (fst r2) /\ asks (fst r3) = asks (fst r2))
               \/ (snd r3 = [send_insert_order (order_ids (fst r2)) BUY (new_bid_price q)
                               LOT_SIZE GOOD_FOR_DAY]
                   /\ order_ids (fst r3) = order_ids (fst r2) + 1
                   /\ bids (fst r3) = {[order_ids (fst r2)]} ∪ bids (fst r2)
                   /\ asks (fst r3) = asks (fst r2))).
  { rewrite R3. unfold insert_bid. destruct (_ && _); [right|left]; repeat split. }
  assert (F4 : (snd r4 = [] /\ order_ids (fst r4) = order_ids (fst r3)
                /\ bids (fst r4) = bids (fst r3) /\ asks (fst r4) = asks (fst r3))
               \/ (snd r4 = [send_insert_order (order_ids (fst r3)) SELL (new_ask_price q)
                               LOT_SIZE GOOD_FOR_DAY]
                   /\ order_ids (fst r4) = order_ids (fst r3) + 1
                   /\ bids (fst r4) = bids (fst r3)
                   /\ asks (fst r4) = {[order_ids (fst r3)]} ∪ asks (fst r3))).
  { rewrite R4. unfold insert_ask. destruct (_ && _); [right|left]; repeat split. }
  clear R1 R2 R3 R4.
  destruct F1 as (C1 & O1 & A1 & B1 & K1). destruct F2 as (C2 & O2 & B2 & K2).
  rewrite A1 in C2.
  split; [exact C1|]. split; [exact C2|].
  destruct F3 as [(E3 & O3 & B3 & K3)|(E3 & O3 & B3 & K3)];
    destruct F4 as [(E4 & O4 & B4 & K4)|(E4 & O4 & B4 & K4)];
    rewrite E3, E4, O4, B4, K4, O3, B3, K3, O2, B2, K2, O1, B1, K1; cbn [length];
    (split; [first [left; reflexivity|right; reflexivity]|]);
    (split; [first [left; reflexivity|right; repeat f_equal; lia]|]);
    (split; [lia|]);
    (split; first [reflexivity|apply union_subseteq_r]).
Qed.

(** X14.  What one book message can send and touch, in any session: at
    most a cancel of the bid slot's order, then at most a cancel of the
    ask slot's order, then at most one buy insert, then at most one sell
    insert - in that order, never a hedge.  The inserts take the next ids
    of the counter, the buy first, and the counter moves on by the number
    of inserts.  No id leaves a tracking set, and the position does not
    change. *)
Theorem book_update_commands (lib : Imports) (self : AutoTrader) (i n : Z)
    (ap av bp bv : list Z) :
  let o := on_order_book_update_message lib self i n ap av bp bv in
  exists cb ca ib ia,
    sent o = cb ++ ca ++ ib ++ ia
    /\ (cb = [] \/ (bid_id self <> 0 /\ cb = [send_cancel_order (bid_id self)]))
    /\ (ca = [] \/ (ask_id self <> 0 /\ ca = [send_cancel_order (ask_id self)]))
    /\ (ib = [] \/ exists p, ib = [send_insert_order (order_ids self) BUY p
                                     LOT_SIZE GOOD_FOR_DAY])
    /\ (ia = [] \/ exists p, ia = [send_insert_order
                                     (order_ids self + Z.of_nat (length ib)) SELL p
                                     LOT_SIZE GOOD_FOR_DAY])
    /\ order_ids (after o)
       = order_ids self + Z.of_nat (length ib) + Z.of_nat (length ia)
    /\ bids self ⊆ bids (after o)
    /\ asks self ⊆ asks (after o)
    /\ position (after o) = position self.
Proof.
  cbv zeta.
  destruct (book_quote lib self i ap av bp bv) as [[s2 q]|] eqn:E.
  - destruct (book_update_quoted lib self s2 q i n ap av bp bv E) as [-> Ho].
    cbn [sent after returned].
    destruct (reconcile_commands s2 q)
      as (cb & ca & ib & ia & Es & Hcb & Hca & Hib & Hia & Hn & Hb & Ha).
    destruct (reconcile_position s2 q) as [Hp _].
    unfold orders in Ho. injection Ho as O1 O2 O3 O4 O5 O6 O7 O8 O9 O10.
    rewrite O1, O2, O3, O4, O6 in *. rewrite Hp, O8.
    exists cb, ca, ib, ia. repeat split; trivial.
    + destruct Hib as [Hib|Hib]; rewrite Hib; [left; reflexivity|right; eauto].
    + destruct Hia as [Hia|Hia]; rewrite Hia; [left; reflexivity|right; eauto].
  - destruct (book_update_unquoted lib self i n ap av bp bv E) as [-> Ho].
    unfold orders in Ho. injection Ho as O1 O2 O3 O4 O5 O6 O7 O8 O9 O10.
    exists [], [], [], []. rewrite O1, O2, O3, O8. cbn [length app].
    repeat split; auto; lia.
Qed.

(** A fill message, in any session, never changes the tracking
    sets, the slots, the resting prices or the price model's state: a
    filled order stays tracked until its status message arrives.  The
    counter moves on by one exactly when a hedge is sent. *)
Lemma fill_keeps_the_books (lib : Imports) (self : AutoTrader)
    (id price volume : Z) :
  let o := on_order_filled_message lib self id price volume in
  (bids (after o), asks (after o), bid_id (after o), ask_id (after o),
   bid_price (after o), ask_price (after o))
  = (bids self, asks self, bid_id self, ask_id self, bid_price self, ask_price self)
  /\ signals (after o) = signals self
  /\ order_ids (after o) = order_ids self + Z.of_nat (length (sent o))
  /\ (length (sent o) <= 1)%nat
  /\ (sent o = [] <-> (id ∉ bids self) /\ (id ∉ asks self)).
Proof.
  cbv zeta. unfold on_order_filled_message.
  destruct (bool_decide (id ∈ bids self)) eqn:Eb;
    [apply bool_decide_eq_true in Eb
    |apply bool_decide_eq_false in Eb;
     destruct (bool_decide (id ∈ asks self)) eqn:Ea;
     [apply bool_decide_eq_true in Ea|apply bool_decide_eq_false in Ea]];
    cbn [after sent returned length]; repeat split; trivial; try lia;
    try discriminate; try tauto.
Qed.

(** ** The band of the replace check *)

Lemma outside_band_iff (target resting : Z) (grad : Q) :
  outside_band target resting grad = true
  <-> (inject_Z resting * (1 + grad) < inject_Z target
       \/ inject_Z target < inject_Z resting * (1 - grad))%Q.
Proof.
  unfold outside_band. rewrite orb_true_iff, !Qlt_bool_iff. reflexivity.
Qed.

Lemma inject_Z_pos (z : Z) : 0 < z -> (0 < inject_Z z)%Q.
Proof. intros H. unfold Qlt. cbn. lia. Qed.

Lemma band_edges (r g : Q) :
  (r * (1 + g) == r + r * g)%Q /\ (r * (1 - g) == r - r * g)%Q.
Proof. split; ring. Qed.

Lemma band_falling (target resting : Z) (grad : Q) :
  0 < resting -> (grad < 0)%Q -> outside_band target resting grad = true.
Proof.
  intros Hr Hg. apply outside_band_iff.
  pose proof (inject_Z_pos resting Hr) as Hq.
  destruct (band_edges (inject_Z resting) grad) as [E1 E2]. rewrite E1, E2.
  assert (Hneg : (0 < inject_Z resting * (- grad))%Q)
    by (apply Qmult_lt_0_compat; lra).
  assert (E3 : (inject_Z resting * (- grad) == - (inject_Z resting * grad))%Q) by ring.
  rewrite E3 in Hneg.
  set (x := (inject_Z resting * grad)%Q) in *.
  destruct (Qlt_le_dec (inject_Z resting + x) (inject_Z target)) as [H|H];
    [left; exact H|right; lra].
Qed.

Lemma band_level (target resting : Z) (grad : Q) :
  (grad == 0)%Q ->
  (outside_band target resting grad = true <-> target <> resting).
Proof.
  intros Hg. rewrite outside_band_iff.
  destruct (band_edges (inject_Z resting) grad) as [E1 E2]. rewrite E1, E2, Hg.
  assert (E0 : (inject_Z resting * 0 == 0)%Q) by ring. rewrite E0.
  assert (Ep : (inject_Z resting + 0 == inject_Z resting)%Q) by ring.
  assert (Em : (inject_Z resting - 0 == inject_Z resting)%Q) by ring.
  rewrite Ep, Em, <- !Zlt_Qlt. lia.
Qed.

Lemma first_cancel_is_bid (s2 : AutoTrader) (q : Quote) (log : list Command) :
  Inv s2 log -> bid_id s2 <> 0 ->
  ((exists rest, snd (reconcile s2 q) = send_cancel_order (bid_id s2) :: rest)
   <-> snd (replace_bid s2 q) = [send_cancel_order (bid_id s2)]).
Proof.
  intros HI Hb. unfold reconcile. cbn [fst snd]. split.
  - intros [rest H].
    destruct (replace_bid_spec s2 q) as [(_ & _ & _ & E)|(_ & E)]; rewrite E in *;
      cbn [fst snd app] in *; [reflexivity|exfalso].
    destruct (replace_ask_spec s2 q) as [(Ha & _ & _ & E')|(_ & E')]; rewrite E' in H;
      cbn [fst snd app] in H.
    + injection H as H _. 
      destruct (inv_bid_slot _ _ HI) as [B|B]; [contradiction|].
      destruct (inv_ask_slot _ _ HI) as [A|A]; [contradiction|].
      apply (inv_disjoint _ _ HI (bid_id s2)); [exact B|]. rewrite <- H. exact A.
    + destruct (insert_bid_spec s2 q) as [(_ & E3 & _)|(_ & E3)]; rewrite E3 in H;
        cbn [fst snd app] in H; [discriminate|].
      destruct (insert_ask_spec s2 q) as [(_ & E4 & _)|(_ & E4)]; rewrite E4 in H;
        cbn [snd] in H; discriminate.
  - intros E. rewrite E. cbn [app]. eauto.
Qed.

(** X15.  The band of the bid's replace check (line 208), in any session
    reached by events, for a book message that reaches the order logic
    while a bid rests and the bid target is not 0.  With a gradient of 0
    the band is the resting price alone: the bid is cancelled exactly when
    the target differs from it.  With a negative gradient (the weighted
    bid has fallen) and a positive resting price the band is empty: the
    bid is cancelled whatever the target.  A cancel of the bid is the
    first command the call sends. *)
Theorem bid_replace_band (lib : Imports) (es : list Event) (s2 : AutoTrader)
    (q : Quote) (i n : Z) (ap av bp bv : list Z) :
  let self := fst (run lib es) in
  let o := on_order_book_update_message lib self i n ap av bp bv in
  book_quote lib self i ap av bp bv = Some (s2, q) ->
  bid_id self <> 0 -> new_bid_price q <> 0 ->
  ((grad_bid q == 0)%Q ->
   ((exists rest, sent o = send_cancel_order (bid_id self) :: rest)
    <-> new_bid_price q <> bid_price self))
  /\ (0 < bid_price self -> (grad_bid q < 0)%Q ->
      exists rest, sent o = send_cancel_order (bid_id self) :: rest).
Proof.
  cbv zeta. intros E Hb Hn.
  pose proof (Inv_run lib es) as HI.
  set (self := fst (run lib es)) in *. set (log := snd (run lib es)) in *.
  clearbody self log.
  destruct (book_update_quoted lib self s2 q i n ap av bp bv E) as [-> Ho].
  cbn [sent returned].
  assert (HI2 : Inv s2 log) by (apply (Inv_orders self); [symmetry; exact Ho|exact HI]).
  unfold orders in Ho. injection Ho as _ _ _ _ _ O6 O7 _ _ _.
  rewrite <- O6, <- O7 in *.
  rewrite (first_cancel_is_bid s2 q log HI2 Hb).
  destruct (replace_decisions s2 q) as [-> _].
  split.
  - intros Hg. rewrite (band_level _ _ _ Hg). tauto.
  - intros Hp Hg. repeat split; trivial. apply band_falling; assumption.
Qed.

Lemma bid_replace_band_example :
  (exists rest,
     sent (on_order_book_update_message level_lib (fst (run level_lib [steady_book])) 0 2
             [10200; 10300; 10300; 10300; 10400] [5; 1; 1; 1; 5]
             [10000; 9900; 9900; 9900; 9800] [5; 1; 1; 1; 5])
     = send_cancel_order (bid_id (fst (run level_lib [steady_book]))) :: rest)
  <-> new_bid_price (snd steady_quote) <> bid_price (fst (run level_lib [steady_book])).
Proof.
  refine (proj1 (bid_replace_band level_lib [steady_book]
                   (fst steady_quote) (snd steady_quote) 0 2
                   [10200; 10300; 10300; 10300; 10400] [5; 1; 1; 1; 5]
                   [10000; 9900; 9900; 9900; 9800] [5; 1; 1; 1; 5] _ _ _) _).
  - vm_compute. reflexivity.
  - vm_compute. discriminate.
  - vm_compute. discriminate.
  - vm_compute. reflexivity.
Defined.

(** ** Rounding and clamping of the targets *)

(** X16.  Whenever a book update reaches the order logic with quote [q],
    for touches that are exchange prices (not negative, whole ticks) and
    an ask touch that is not 0: the bid target is the model's bid price
    [check_bid q] rounded down to a whole tick and clamped into
    [0, bid touch + one tick]; the ask target is the model's ask price
    [check_ask q] rounded down to a whole tick and raised to at least
    ask touch - one tick.  Rounded down to a whole tick: the greatest
    multiple of the tick that is not above the price. *)
Theorem targets_round_down_and_clamp (lib : Imports) (self s2 : AutoTrader)
    (q : Quote) (i : Z) (ap av bp bv : list Z) (b0 a0 : Z) :
  py_index bp 0 = Ok b0 ->
  py_index ap 0 = Ok a0 ->
  exchange_price b0 ->
  exchange_price a0 ->
  a0 <> 0 ->
  book_quote lib self i ap av bp bv = Some (s2, q) ->
  let rb := round_down_to_tick (check_bid q) in
  let ra := round_down_to_tick (check_ask q) in
  new_bid_price q = clamp 0 (b0 + TICK_SIZE_IN_CENTS) rb
  /\ new_ask_price q = at_least (a0 - TICK_SIZE_IN_CENTS) ra
  /\ ((TICK_SIZE_IN_CENTS | rb)
      /\ (inject_Z rb <= check_bid q < inject_Z (rb + TICK_SIZE_IN_CENTS))%Q)
  /\ ((TICK_SIZE_IN_CENTS | ra)
      /\ (inject_Z ra <= check_ask q < inject_Z (ra + TICK_SIZE_IN_CENTS))%Q).
Proof.
  intros Eb Ea [Hb0 Hbt] [Ha0 Hat] Hane E. cbv zeta.
  destruct (book_quote_rounds lib self s2 q i ap av bp bv E) as [Rb Ra].
  pose proof (book_quote_bid_touch lib self s2 q i ap av bp bv b0 E Eb) as Hb.
  rewrite (round_bid_value _ _ _ Eb) in Rb.
  rewrite (round_ask_value _ _ _ Ea) in Ra.
  injection Rb as Rb. injection Ra as Ra.
  apply Z.eqb_neq in Hb. rewrite Hb in Rb.
  apply Z.eqb_neq in Hane. rewrite Hane in Ra.
  destruct (round_down_to_tick_spec (check_bid q)) as (B1 & B2 & B3).
  destruct (round_down_to_tick_spec (check_ask q)) as (A1 & A2 & A3).
  split; [|split; [|split; [auto|auto]]].
  - rewrite <- Rb. unfold clamp, TICK_SIZE_IN_CENTS.
    destruct (_ <? 0) eqn:C1; [apply Z.ltb_lt in C1|apply Z.ltb_ge in C1];
      [lia|].
    destruct (_ <? _) eqn:C2; [apply Z.ltb_lt in C2|apply Z.ltb_ge in C2]; lia.
  - rewrite <- Ra. apply Z.eqb_neq in Hane. destruct Hat as [k Hk].
    unfold at_least, TICK_SIZE_IN_CENTS in *.
    destruct (_ <? _) eqn:C1; [apply Z.ltb_lt in C1|apply Z.ltb_ge in C1]; lia.
Qed.

(** There the model prices are 9875 and 10475; the targets are 9800 and
    10400, inside the clamps. *)
Example uneven_targets :
  (check_bid (snd uneven_quote) == 9875)%Q
  /\ (check_ask (snd uneven_quote) == 10475)%Q
  /\ new_bid_price (snd uneven_quote) = 9800
  /\ new_ask_price (snd uneven_quote) = 10400.
Proof. vm_compute. repeat split. Qed.

Lemma targets_round_down_and_clamp_example :
  let q := snd uneven_quote in
  let rb := round_down_to_tick (check_bid q) in
  let ra := round_down_to_tick (check_ask q) in
  new_bid_price q = clamp 0 (10100 + TICK_SIZE_IN_CENTS) rb
  /\ new_ask_price q = at_least (10300 - TICK_SIZE_IN_CENTS) ra
  /\ ((TICK_SIZE_IN_CENTS | rb)
      /\ (inject_Z rb <= check_bid q < inject_Z (rb + TICK_SIZE_IN_CENTS))%Q)
  /\ ((TICK_SIZE_IN_CENTS | ra)
      /\ (inject_Z ra <= check_ask q < inject_Z (ra + TICK_SIZE_IN_CENTS))%Q).
Proof.
  apply (targets_round_down_and_clamp level_lib init (fst uneven_quote)
           (snd uneven_quote) 0
           [10300; 10400; 10500; 10600; 10700] [5; 2; 1; 1; 5]
           [10100; 10000; 9900; 9800; 9700] [5; 1; 1; 2; 5] 10100 10300).
  - reflexivity.
  - reflexivity.
  - split; [lia|exists 101; reflexivity].
  - split; [lia|exists 103; reflexivity].
  - discriminate.
  - vm_compute. reflexivity.
Defined.
